(** * secure-grid-ai: the phishing analyzers, embedded and checked

    The repository ships three edge functions.  This development embeds

    - the logo heuristic  ([calcLogoHeuristic] and its handler),
    - the URL analyzer    ([extractUrlFeatures], [calculateRiskScore] and
      the hybrid handler that consults the AI gateway),
    - the email analyzer  ([calculateEmailRiskScore] and its handler),

    and settles the claims of the specification against them.  It goes on
    to the code beside them: the feature extraction of the email analyzer
    ([extractEmailFeatures]), the email heuristic ([calcEmailScore] and its
    handler) and the logo analyzer with the vision oracle
    ([analyzeImageUrl] and its handler).

    Conventions.  JavaScript numbers are modelled as exact rationals ([Q]):
    the rounding of IEEE doubles is not modelled.  The blend of the two
    scores ([combinedScoreOf]) is therefore the blend without rounding;
    the value the code computes can differ from it in the last place,
    which matters only where a statement puts an input exactly on a
    threshold.  The only non-finite
    number the code can produce, the [0/0] of the digit ratio, is kept
    apart in [jsnum].  Strings are [string] (one [ascii] per
    code unit) and case folding is the ASCII one: the strings meant are
    the ones whose characters are single code units, the letters among
    them ASCII.  The fields of a request body and of the gateway's answer
    are modelled at the types the handlers expect of them (a string, a
    number, a list of strings, or absent); a value of another type makes
    a handler throw, which it answers with status 500, and is no part of
    the model.  What the platform
    supplies -- the [URL] constructor, [Math.log2], the gateway's reply,
    the random bytes and the clock -- is an explicit argument. *)

From Stdlib Require Import Bool Arith List ZArith QArith Qround Qminmax Qabs.
From Stdlib Require Import Lia Lqa Finite.
From Stdlib Require Import Ascii String DecimalString.
Import ListNotations.

Local Open Scope string_scope.
Local Open Scope nat_scope.
Local Open Scope list_scope.

(* ================================================================= *)
(** ** JavaScript strings *)

Module JS.

Definition code (c : ascii) : nat := nat_of_ascii c.

Definition inRange (lo hi : ascii) (c : ascii) : bool :=
  (code lo <=? code c)%nat && (code c <=? code hi)%nat.

Definition isDigit (c : ascii) : bool := inRange "0" "9" c.
Definition isUpper (c : ascii) : bool := inRange "A" "Z" c.
Definition isLower (c : ascii) : bool := inRange "a" "z" c.
Definition isHex (c : ascii) : bool :=
  isDigit c || inRange "a" "f" c || inRange "A" "F" c.

Definition lowerChar (c : ascii) : ascii :=
  if isUpper c then ascii_of_nat (code c + 32) else c.

(** [s.toLowerCase()] *)
Fixpoint toLowerCase (s : string) : string :=
  match s with
  | EmptyString => EmptyString
  | String c s' => String (lowerChar c) (toLowerCase s')
  end.

(** [s.startsWith(p)] *)
Fixpoint startsWith (s p : string) : bool :=
  match p, s with
  | EmptyString, _ => true
  | String _ _, EmptyString => false
  | String a p', String b s' => Ascii.eqb a b && startsWith s' p'
  end.

(** [s.includes(sub)] *)
Fixpoint includes (s sub : string) : bool :=
  startsWith s sub ||
  match s with
  | EmptyString => false
  | String _ s' => includes s' sub
  end.

(** [s.endsWith(suf)] *)
Fixpoint endsWith (s suf : string) : bool :=
  String.eqb s suf ||
  match s with
  | EmptyString => false
  | String _ s' => endsWith s' suf
  end.

(** [(s.match(/[class]/g) || []).length] for a one-character class. *)
Fixpoint countChars (p : ascii -> bool) (s : string) : nat :=
  match s with
  | EmptyString => 0
  | String c s' => (if p c then 1 else 0) + countChars p s'
  end.

Definition isChar (a : ascii) (c : ascii) : bool := Ascii.eqb a c.

(** [xs.join(sep)] *)
Fixpoint join (sep : string) (xs : list string) : string :=
  match xs with
  | [] => ""
  | [x] => x
  | x :: rest => (x ++ sep ++ join sep rest)%string
  end.

(** [xs.some(p)] and [xs.filter(p)] are [existsb] and [filter]. *)

(** Template interpolation of a non-negative integer. *)
Definition showNat (n : nat) : string :=
  NilEmpty.string_of_uint (Nat.to_uint n).

(** [[...new Set(xs)]]: the elements in order of first insertion. *)
Fixpoint setInsert (x : string) (seen : list string) : list string :=
  match seen with
  | [] => [x]
  | y :: seen' => if String.eqb y x then seen else y :: setInsert x seen'
  end.

Definition newSet (xs : list string) : list string :=
  fold_left (fun seen x => setInsert x seen) xs [].

(** [xs.slice(0, n)] *)
Definition slice0 {A} (n : nat) (xs : list A) : list A := firstn n xs.

(** *** Regular expressions

    The literals of the source are transcribed into this syntax and run
    by derivatives; [test] is [RegExp.prototype.test] for a pattern
    without anchors (a match may start anywhere). *)

Inductive regex : Type :=
| Never
| Eps
| Cls (p : ascii -> bool)
| Cat (r1 r2 : regex)
| Alt (r1 r2 : regex).

Fixpoint nullable (r : regex) : bool :=
  match r with
  | Never => false
  | Eps => true
  | Cls _ => false
  | Cat r1 r2 => nullable r1 && nullable r2
  | Alt r1 r2 => nullable r1 || nullable r2
  end.

Definition cat (r1 r2 : regex) : regex :=
  match r1, r2 with
  | Never, _ => Never
  | _, Never => Never
  | Eps, _ => r2
  | _, _ => Cat r1 r2
  end.

Definition alt (r1 r2 : regex) : regex :=
  match r1, r2 with
  | Never, _ => r2
  | _, Never => r1
  | _, _ => Alt r1 r2
  end.

Fixpoint deriv (c : ascii) (r : regex) : regex :=
  match r with
  | Never => Never
  | Eps => Never
  | Cls p => if p c then Eps else Never
  | Cat r1 r2 =>
      alt (cat (deriv c r1) r2) (if nullable r1 then deriv c r2 else Never)
  | Alt r1 r2 => alt (deriv c r1) (deriv c r2)
  end.

(** Does some prefix of [s] match [r]? *)
Fixpoint matchesPrefix (r : regex) (s : string) : bool :=
  nullable r ||
  match s with
  | EmptyString => false
  | String c s' => matchesPrefix (deriv c r) s'
  end.

Fixpoint test (r : regex) (s : string) : bool :=
  matchesPrefix r s ||
  match s with
  | EmptyString => false
  | String _ s' => test r s'
  end.

(** [r{1,3}] *)
Definition rep13 (r : regex) : regex :=
  Cat r (Alt Eps (Cat r (Alt Eps r))).

Definition lit (a : ascii) : regex := Cls (isChar a).

End JS.

(* ================================================================= *)
(** ** JavaScript numbers *)

(** A division of two lengths: finite, or one of the two values the
    platform gives for a zero divisor. *)
Inductive jsnum : Type :=
| Num (q : Q)
| Infinity
| NaN.

Definition divLengths (a b : nat) : jsnum :=
  match b, a with
  | O, O => NaN
  | O, S _ => Infinity
  | S _, _ => Num (Z.of_nat a # Pos.of_nat b)%Q
  end.

(** [x > q], false on [NaN]. *)
Definition gtNum (x : jsnum) (q : Q) : bool :=
  match x with
  | Num v => negb (Qle_bool v q)
  | Infinity => true
  | NaN => false
  end.

Definition Qltb (x y : Q) : bool := negb (Qle_bool y x).

(** [Math.round]: the nearest integer, halves upward. *)
Definition Math_round (x : Q) : Z := Qfloor (x + (1 # 2))%Q.

Definition ofNat (n : nat) : Q := inject_Z (Z.of_nat n).

(* ================================================================= *)
(** ** What the platform supplies *)

(** The fields of a parsed [URL] that the analyzers read. *)
Record URL : Type := mkURL {
  protocol : string;
  hostname : string;
  pathname : string;
  search : string;
  port : string
}.

(** [new URL(s)]: [None] when the constructor throws. *)
Definition URLParser : Type := string -> option URL.

(** The verdicts of the three analyzers. *)
Inductive Verdict : Type := safe | suspicious | phishing | unknown.

Definition Verdict_eqb (a b : Verdict) : bool :=
  match a, b with
  | safe, safe | suspicious, suspicious
  | phishing, phishing | unknown, unknown => true
  | _, _ => false
  end.

(** What a handler sends back. *)
Inductive Response (A : Type) : Type :=
| Preflight                               (* OPTIONS: empty body *)
| Failure (status : nat) (error : string) (* [{ error }] with a status *)
| Success (body : A).                     (* status 200 *)

Arguments Preflight {A}.
Arguments Failure {A} status error.
Arguments Success {A} body.

(** A value read from the request body is used through its truthiness:
    an absent field and the empty string are both falsy. *)
Definition truthy (o : option string) : bool :=
  match o with
  | Some s => negb (String.eqb s "")
  | None => false
  end.

(** [a || b] on such values. *)
Definition orElse (a b : option string) : option string :=
  if truthy a then a else b.

(** [o || ""] *)
Definition orEmpty (o : option string) : string :=
  match o with
  | Some s => s
  | None => ""
  end.

(** *** The integrity tag

    [`0x${Array.from(crypto.getRandomValues(new Uint8Array(32)))
          .map(b => b.toString(16).padStart(2, '0')).join('')}`]
    The generator is the function giving the byte at each index. *)

Definition hexDigit (n : nat) : ascii :=
  match n with
  | 0 => "0" | 1 => "1" | 2 => "2" | 3 => "3" | 4 => "4" | 5 => "5"
  | 6 => "6" | 7 => "7" | 8 => "8" | 9 => "9" | 10 => "a" | 11 => "b"
  | 12 => "c" | 13 => "d" | 14 => "e" | _ => "f"
  end%char.

(** [b.toString(16)] for a byte. *)
Definition toString16 (b : Byte.byte) : string :=
  let n := Byte.to_nat b in
  if (n <? 16)%nat then String (hexDigit n) ""
  else String (hexDigit (n / 16)) (String (hexDigit (n mod 16)) "").

(** [s.padStart(2, '0')] *)
Definition padStart2 (s : string) : string :=
  match String.length s with
  | 0 => "00"
  | 1 => ("0" ++ s)%string
  | _ => s
  end.

Definition getRandomValues (random : nat -> Byte.byte) (n : nat)
  : list Byte.byte :=
  map random (seq 0 n).

Definition blockchainHashOf (random : nat -> Byte.byte) : string :=
  ("0x" ++ JS.join ""
      (map (fun b => padStart2 (toString16 b)) (getRandomValues random 32)))%string.

Definition isLowerHex (c : ascii) : bool :=
  JS.isDigit c || JS.inRange "a" "f" c.

Fixpoint allChars (p : ascii -> bool) (s : string) : bool :=
  match s with
  | EmptyString => true
  | String c s' => p c && allChars p s'
  end.

(* ================================================================= *)
(** ** The logo heuristic (analyze-logo) *)

Module Logo.

Definition SAFE_DOMAINS : list string :=
  ["netflix.com"; "amazon.com"; "paypal.com"].

Definition PHISH_KEYWORDS : list string :=
  ["phish"; "fake"; "scam"; "suspicious"].

Record Input : Type := mkInput {
  imageUrl : option string;
  base64Image : option string
}.

Record Heuristic : Type := mkHeuristic {
  verdict : Verdict;
  probability : nat;
  issues : list string;
  detectedBrand : option string
}.

Section WithURL.

Variable new_URL : URLParser.

Definition domainFromUrl (url : string) : string :=
  match new_URL url with
  | Some u => JS.toLowerCase (hostname u)
  | None => ""
  end.

Definition hasSafeDomain (url : string) : bool :=
  let host := domainFromUrl url in
  existsb (fun d => String.eqb host d || JS.endsWith host ("." ++ d)%string)
          SAFE_DOMAINS.

(** The four scoring rules, in the order the function applies them.
    Each is stated on the request fields, as the conditions are. *)

Definition isLocal (input : Input) : bool :=
  truthy (base64Image input) ||
  (truthy (imageUrl input) &&
   negb (JS.startsWith (orEmpty (imageUrl input)) "http")).

Definition lowerUrl (input : Input) : string :=
  JS.toLowerCase (orEmpty (orElse (imageUrl input) (Some ""))).

Definition hasPhishKeyword (input : Input) : bool :=
  truthy (imageUrl input) &&
  existsb (fun kw => JS.includes (lowerUrl input) kw) PHISH_KEYWORDS.

Definition lowSignal (input : Input) : bool :=
  truthy (imageUrl input) &&
  (JS.includes (lowerUrl input) "blur" ||
   (String.length (orEmpty (imageUrl input)) <? 50)%nat).

Definition looksLikePaypal (input : Input) : bool :=
  JS.includes (lowerUrl input) "paypal".

Definition hostedOnPaypal (input : Input) : bool :=
  if truthy (imageUrl input)
  then JS.includes (domainFromUrl (orEmpty (imageUrl input))) "paypal" ||
       JS.includes (orEmpty (imageUrl input)) "paypal.com"
  else false.

Definition paypalMismatch (input : Input) : bool :=
  looksLikePaypal input && truthy (imageUrl input) &&
  negb (hostedOnPaypal input).

Definition brandOf (order : list string) (url : string) : option string :=
  find (fun b => JS.includes url b) order.

(** The score and the issues after the four rules. *)
Definition scored (input : Input) : nat * list string :=
  let s0 := (0, []) in
  let s1 := if hasPhishKeyword input
            then (fst s0 + 50, snd s0 ++ ["URL contains phishing keywords"])
            else s0 in
  let s2 := if isLocal input
            then (fst s1 + 30,
                  snd s1 ++ ["Local/base64 image (source cannot be verified)"])
            else s1 in
  let s3 := if lowSignal input
            then (fst s2 + 20,
                  snd s2 ++ ["Low-signal / potentially blurred image reference"])
            else s2 in
  if paypalMismatch input
  then (Nat.max (fst s3) 92, snd s3 ++ ["PayPal brand on non-official source"])
  else s3.

Definition calcLogoHeuristic (input : Input) : Heuristic :=
  let url := lowerUrl input in
  let '(score, issues) := scored input in
  if truthy (imageUrl input) && hasSafeDomain (orEmpty (imageUrl input))
     && (score =? 0)%nat
  then {| verdict := safe; probability := 8; issues := issues;
          detectedBrand := brandOf ["netflix"; "amazon"; "paypal"] url |}
  else if (score =? 0)%nat
  then {| verdict := unknown; probability := 45;
          issues := ["Unknown logo / insufficient signals"];
          detectedBrand := None |}
  else
    let probability := Nat.min 95 score in
    {| verdict := if (30 <? probability)%nat then phishing else unknown;
       probability := probability;
       issues := issues;
       detectedBrand :=
         if looksLikePaypal input then Some "paypal"
         else brandOf ["netflix"; "amazon"] url |}.

(** The handler. *)

Inductive Request : Type :=
| OPTIONS
| POST (body : option Input).     (* [None]: the body is not JSON *)

Record Env : Type := mkEnv {
  jsonError : string;             (* message of the body parse error *)
  random : nat -> Byte.byte;
  now : string
}.

Record Result : Type := mkResult {
  r_imageUrl : string;
  r_result : Verdict;
  r_confidence : nat;
  r_detectedBrand : option string;
  r_threatIndicators : list string;
  r_suspicions : list string;
  r_isAuthentic : bool;
  r_reasoning : string;
  r_method : string;
  r_blockchainHash : string;
  r_timestamp : string
}.

Definition serve (env : Env) (req : Request) : Response Result :=
  match req with
  | OPTIONS => Preflight
  | POST None => Failure 500 (jsonError env)
  | POST (Some input) =>
      let imageSource := orElse (imageUrl input) (base64Image input) in
      if negb (truthy imageSource)
      then Failure 400 "Image URL or base64 image is required"
      else
        let heuristic := calcLogoHeuristic input in
        let allIssues := issues heuristic in
        Success {|
          r_imageUrl := if truthy (imageUrl input)
                        then orEmpty (imageUrl input) else "base64-image";
          r_result := verdict heuristic;
          r_confidence := probability heuristic;
          r_detectedBrand := detectedBrand heuristic;
          r_threatIndicators := JS.newSet allIssues;
          r_suspicions := allIssues;
          r_isAuthentic := Verdict_eqb (verdict heuristic) safe;
          r_reasoning :=
            match verdict heuristic with
            | unknown => "Unknown logo / insufficient signals"
            | safe => "Known safe domain and no phishing indicators"
            | _ => "Heuristic indicators suggest a phishing/counterfeit logo"
            end;
          r_method := "heuristic-logo-v2";
          r_blockchainHash := blockchainHashOf (random env);
          r_timestamp := now env
        |}
  end.

End WithURL.

End Logo.

(* ================================================================= *)
(** ** The gateway's reply, as the hybrid handlers consume it *)

(** A thrown value: [Some m] is an [Error] with message [m]. *)
Definition Thrown : Type := option string.

(** [error instanceof Error ? error.message : fallback] *)
Definition errorMessage (e : Thrown) (fallback : string) : string :=
  match e with
  | Some m => m
  | None => fallback
  end.

(** What [aiContent.match(/\{[\s\S]*\}/)] and [JSON.parse] make of the
    reply's content. *)
Inductive Decoded (A : Type) : Type :=
| NoObject                 (* no [{...}] in the content *)
| Malformed                (* [JSON.parse] throws *)
| Object (a : A).          (* the parsed object *)

Arguments NoObject {A}.
Arguments Malformed {A}.
Arguments Object {A} a.

Inductive Gateway (A : Type) : Type :=
| Rejects (e : Thrown)                   (* [fetch] throws *)
| NotOk (status : nat)                   (* [!aiResponse.ok] *)
| OkNotJson (e : Thrown)                 (* [aiResponse.json()] throws *)
| OkContent (d : Decoded A).

Arguments Rejects {A} e.
Arguments NotOk {A} status.
Arguments OkNotJson {A} e.
Arguments OkContent {A} d.

(** [c || d] for an optional number: absent and [0] are both falsy. *)
Definition numOr (c : option Q) (d : Q) : Q :=
  match c with
  | Some q => if Qeq_bool q 0 then d else q
  | None => d
  end.

(** [combinedScore >= 50 ? "phishing" : combinedScore >= 25 ? "suspicious"
    : "safe"], the expression shared by the URL and email handlers. *)
Definition resultOf (score : Q) : Verdict :=
  if Qle_bool 50 score then phishing
  else if Qle_bool 25 score then suspicious
  else safe.

(** One scoring rule: [if (cond) { score += points; threats.push(msg) }]. *)
Definition rule (cond : bool) (points : Q) (msg : string)
  (acc : Q * list string) : Q * list string :=
  if cond then ((fst acc + points)%Q, snd acc ++ [msg]) else acc.

(* ================================================================= *)
(** ** The URL analyzer *)

Module Url.

Record UrlFeatures : Type := mkFeatures {
  length : nat;
  numDots : nat;
  numHyphens : nat;
  numUnderscores : nat;
  numSlashes : nat;
  numDigits : nat;
  numAtSymbols : nat;
  hasHttps : bool;
  hasIpAddress : bool;
  hasSuspiciousTld : bool;
  hasSuspiciousKeywords : bool;
  hasEncodedChars : bool;
  domainLength : nat;
  pathLength : nat;
  queryLength : nat;
  numSubdomains : nat;
  hasPortNumber : bool;
  suspiciousKeywords : list string;
  entropy : Q;
  consonantRatio : Q;
  digitRatio : jsnum
}.

Definition suspiciousKeywordList : list string :=
  [ "login"; "signin"; "verify"; "secure"; "account"; "update"; "confirm";
    "banking"; "password"; "credential"; "suspended"; "unusual"; "alert";
    "verify"; "wallet"; "paypal"; "apple"; "microsoft"; "google"; "facebook";
    "amazon"; "netflix"; "support"; "help"; "service"; "billing"; "payment";
    "authenticate"; "validation"; "security"; "urgent"; "immediately";
    "action"; "required"; "expire"; "limited"; "restore"; "unlock";
    "reactivate" ].

Definition suspiciousTlds : list string :=
  [ ".xyz"; ".top"; ".tk"; ".ml"; ".ga"; ".cf"; ".gq"; ".pw"; ".cc";
    ".club"; ".online"; ".site"; ".website"; ".space"; ".icu"; ".buzz" ].

(** [/\d{1,3}\.\d{1,3}\.\d{1,3}\.\d{1,3}/] *)
Definition ipPattern : JS.regex :=
  let d := JS.rep13 (JS.Cls JS.isDigit) in
  let dot := JS.lit "." in
  JS.Cat d (JS.Cat dot (JS.Cat d (JS.Cat dot (JS.Cat d (JS.Cat dot d))))).

(** [/%[0-9a-fA-F]{2}/] *)
Definition encodedPattern : JS.regex :=
  JS.Cat (JS.lit "%") (JS.Cat (JS.Cls JS.isHex) (JS.Cls JS.isHex)).

(** [/[a-z]/gi] and [/[bcdfghjklmnpqrstvwxyz]/gi] *)
Definition isLetter (c : ascii) : bool := JS.isLower (JS.lowerChar c).

Definition isConsonant (c : ascii) : bool :=
  JS.includes "bcdfghjklmnpqrstvwxyz" (String (JS.lowerChar c) "").

Definition calculateConsonantRatio (str : string) : Q :=
  let consonants := JS.countChars isConsonant str in
  let letters := JS.countChars isLetter str in
  if 0 <? letters then (Z.of_nat consonants # Pos.of_nat letters)%Q else 0%Q.

(** [freq[char] = (freq[char] || 0) + 1], keys in insertion order.  The
    loop visits the characters of the string, which are its code units
    here; [len] below is the number of code units. *)
Fixpoint bump (c : ascii) (freq : list (ascii * nat)) : list (ascii * nat) :=
  match freq with
  | [] => [(c, 1)]
  | (k, n) :: rest =>
      if Ascii.eqb k c then (k, n + 1) :: rest else (k, n) :: bump c rest
  end.

Fixpoint frequencies (str : string) (freq : list (ascii * nat))
  : list (ascii * nat) :=
  match str with
  | EmptyString => freq
  | String c rest => frequencies rest (bump c freq)
  end.

Section WithPlatform.

Variable new_URL : URLParser.
Variable Math_log2 : Q -> Q.

Definition calculateEntropy (str : string) : Q :=
  let freq := frequencies str [] in
  let len := String.length str in
  fold_left
    (fun entropy kv =>
       let p := (Z.of_nat (snd kv) # Pos.of_nat len)%Q in
       (entropy - p * Math_log2 p)%Q)
    freq 0%Q.

Definition foundKeywords (url : string) : list string :=
  filter (fun kw => JS.includes (JS.toLowerCase url) kw) suspiciousKeywordList.

Definition extractUrlFeatures (url : string) : UrlFeatures :=
  let digits := JS.countChars JS.isDigit url in
  match new_URL (if JS.startsWith url "http" then url
                 else ("https://" ++ url)%string) with
  | None =>
      {| length := String.length url;
         numDots := JS.countChars (JS.isChar ".") url;
         numHyphens := JS.countChars (JS.isChar "-") url;
         numUnderscores := JS.countChars (JS.isChar "_") url;
         numSlashes := JS.countChars (JS.isChar "/") url;
         numDigits := digits;
         numAtSymbols := JS.countChars (JS.isChar "@") url;
         hasHttps := false;
         hasIpAddress := JS.test ipPattern url;
         hasSuspiciousTld :=
           existsb (fun tld => JS.includes (JS.toLowerCase url) tld)
                   suspiciousTlds;
         hasSuspiciousKeywords :=
           existsb (fun kw => JS.includes (JS.toLowerCase url) kw)
                   suspiciousKeywordList;
         hasEncodedChars := JS.test encodedPattern url;
         domainLength := 0;
         pathLength := 0;
         queryLength := 0;
         numSubdomains := 0;
         hasPortNumber := false;
         suspiciousKeywords := foundKeywords url;
         entropy := calculateEntropy url;
         consonantRatio := calculateConsonantRatio url;
         digitRatio := divLengths digits (String.length url) |}
  | Some parsedUrl =>
      let hostname := hostname parsedUrl in
      let path := pathname parsedUrl in
      let query := search parsedUrl in
      let subdomains :=
        (Z.of_nat (JS.countChars (JS.isChar ".") hostname + 1) - 2)%Z in
      {| length := String.length url;
         numDots := JS.countChars (JS.isChar ".") url;
         numHyphens := JS.countChars (JS.isChar "-") url;
         numUnderscores := JS.countChars (JS.isChar "_") url;
         numSlashes := JS.countChars (JS.isChar "/") url;
         numDigits := digits;
         numAtSymbols := JS.countChars (JS.isChar "@") url;
         hasHttps := String.eqb (protocol parsedUrl) "https:";
         hasIpAddress := JS.test ipPattern hostname;
         hasSuspiciousTld :=
           existsb (fun tld => JS.endsWith (JS.toLowerCase hostname) tld)
                   suspiciousTlds;
         hasSuspiciousKeywords := 0 <? List.length (foundKeywords url);
         hasEncodedChars := JS.test encodedPattern url;
         domainLength := String.length hostname;
         pathLength := String.length path;
         queryLength := String.length query;
         numSubdomains := Z.to_nat (Z.max 0 subdomains);
         hasPortNumber := negb (String.eqb (port parsedUrl) "");
         suspiciousKeywords := foundKeywords url;
         entropy := calculateEntropy url;
         consonantRatio := calculateConsonantRatio hostname;
         digitRatio := divLengths digits (String.length url) |}
  end.

End WithPlatform.

Definition calculateRiskScore (features : UrlFeatures) : Q * list string :=
  let acc := (0%Q, []) in
  let acc := rule (hasIpAddress features) 25
                  "IP address used instead of domain name" acc in
  let acc := rule (negb (hasHttps features)) 10
                  "Insecure HTTP connection" acc in
  let acc := rule (hasSuspiciousTld features) 20
                  "Suspicious top-level domain detected" acc in
  let acc := rule (hasSuspiciousKeywords features)
                  (Qmin 25 (ofNat (List.length (suspiciousKeywords features) * 8)))
                  ("Phishing keywords detected: " ++
                   JS.join ", " (JS.slice0 3 (suspiciousKeywords features)))%string
                  acc in
  let acc := rule (100 <? length features)
                  (Qmin 15 ((ofNat (length features) - 100) / 20 * 5))
                  "Abnormally long URL" acc in
  let acc := rule (3 <? numSubdomains features)
                  (Qmin 15 ((ofNat (numSubdomains features) - 3) * 5))
                  "Multiple subdomain levels detected" acc in
  let acc := rule (3 <? numHyphens features)
                  (Qmin 10 ((ofNat (numHyphens features) - 3) * 3))
                  "Excessive hyphens in URL" acc in
  let acc := rule (0 <? numAtSymbols features) 20
                  "URL contains @ symbol (potential redirect attack)" acc in
  let acc := rule (hasEncodedChars features) 10
                  "URL contains encoded characters" acc in
  let acc := rule (hasPortNumber features) 15
                  "Non-standard port number in URL" acc in
  let acc := rule (Qltb (45 # 10) (entropy features)) 10
                  "High entropy domain (potentially auto-generated)" acc in
  let acc := rule (gtNum (digitRatio features) (3 # 10)) 10
                  "High ratio of digits in URL" acc in
  (Qmin 100 (fst acc), snd acc).

(** *** The handler *)

Record AiAnalysis : Type := mkAnalysis {
  isPhishing : bool;                        (* truthiness of the field *)
  confidence : option Q;
  reasoning : option string;
  additionalThreats : option (list string)
}.

(** [{}] *)
Definition emptyAnalysis : AiAnalysis :=
  {| isPhishing := false; confidence := None; reasoning := None;
     additionalThreats := None |}.

(** The default of the [catch] around [JSON.parse]. *)
Definition unparsedAnalysis : AiAnalysis :=
  {| isPhishing := false; confidence := Some 50%Q;
     reasoning := Some "Unable to parse AI response";
     additionalThreats := None |}.

Inductive Request : Type :=
| OPTIONS
| POST (body : option (option string)).
  (* [None]: the body is not JSON; [Some None]: no string under [url] *)

Record Env : Type := mkEnv {
  jsonError : Thrown;
  LOVABLE_API_KEY : option string;
  gateway : Gateway AiAnalysis;
  random : nat -> Byte.byte;
  now : string
}.

Record Result : Type := mkResult {
  r_url : string;
  r_result : Verdict;
  r_confidence : Q;
  r_threatIndicators : list string;
  r_features : UrlFeatures;
  r_ruleBasedScore : Q;
  r_aiScore : option Z;
  r_combinedScore : option Z;
  r_aiAnalysis : option AiAnalysis;          (* [None] is [null] *)
  r_method : string;
  r_blockchainHash : option string;          (* [None]: no such key *)
  r_timestamp : option string
}.

Definition aiScoreOf (aiAnalysis : AiAnalysis) : Q :=
  if isPhishing aiAnalysis
  then (50 + numOr (confidence aiAnalysis) 50 / 2)%Q
  else (50 - numOr (confidence aiAnalysis) 50 / 2)%Q.

(** [ruleBasedScore * 0.4 + aiScore * 0.6], without the rounding of
    binary64. *)
Definition combinedScoreOf (ruleBasedScore : Q) (aiAnalysis : AiAnalysis) : Q :=
  (ruleBasedScore * (4 # 10) + aiScoreOf aiAnalysis * (6 # 10))%Q.

Definition finalConfidenceOf (ruleBasedScore : Q) (aiAnalysis : AiAnalysis) : Z :=
  let combinedScore := combinedScoreOf ruleBasedScore aiAnalysis in
  Math_round
    (if Qltb 20 ruleBasedScore || isPhishing aiAnalysis
     then Qmax combinedScore (numOr (confidence aiAnalysis) 70)
     else Qmin (100 - combinedScore) 95).

(** [allThreats] after the three pushes. *)
Definition allThreatsOf (threats : list string) (aiAnalysis : AiAnalysis)
  (result : Verdict) : list string :=
  let allThreats := threats in
  let allThreats :=
    match additionalThreats aiAnalysis with
    | Some more => allThreats ++ more
    | None => allThreats
    end in
  if truthy (reasoning aiAnalysis) && negb (Verdict_eqb result safe)
  then allThreats ++ [orEmpty (reasoning aiAnalysis)]
  else allThreats.

(** The response when the gateway answers with a non-2xx status. *)
Definition ruleBasedOnly (url : string) (features : UrlFeatures) : Result :=
  let '(ruleBasedScore, threats) := calculateRiskScore features in
  {| r_url := url;
     r_result := resultOf ruleBasedScore;
     r_confidence := (100 - Qabs (50 - ruleBasedScore))%Q;
     r_threatIndicators := threats;
     r_features := features;
     r_ruleBasedScore := ruleBasedScore;
     r_aiScore := None;
     r_combinedScore := None;
     r_aiAnalysis := None;
     r_method := "rule-based";
     r_blockchainHash := None;
     r_timestamp := None |}.

(** The response once [aiAnalysis] is known. *)
Definition hybrid (env : Env) (url : string) (features : UrlFeatures)
  (aiAnalysis : AiAnalysis) : Result :=
  let '(ruleBasedScore, threats) := calculateRiskScore features in
  let aiScore := aiScoreOf aiAnalysis in
  let combinedScore := combinedScoreOf ruleBasedScore aiAnalysis in
  let finalConfidence := finalConfidenceOf ruleBasedScore aiAnalysis in
  let result := resultOf combinedScore in
  let allThreats := allThreatsOf threats aiAnalysis result in
  {| r_url := url;
     r_result := result;
     r_confidence :=
       inject_Z (if Verdict_eqb result safe then finalConfidence
                 else 100 - finalConfidence + 50)%Z;
     r_threatIndicators := JS.newSet allThreats;
     r_features := features;
     r_ruleBasedScore := ruleBasedScore;
     r_aiScore := Some (Math_round aiScore);
     r_combinedScore := Some (Math_round combinedScore);
     r_aiAnalysis := Some aiAnalysis;
     r_method := "hybrid-ai";
     r_blockchainHash := Some (blockchainHashOf (random env));
     r_timestamp := Some (now env) |}.

Section Handler.

Variable new_URL : URLParser.
Variable Math_log2 : Q -> Q.

Definition serve (env : Env) (req : Request) : Response Result :=
  match req with
  | OPTIONS => Preflight
  | POST None => Failure 500 (errorMessage (jsonError env) "Analysis failed")
  | POST (Some body) =>
      if negb (truthy body) then Failure 400 "URL is required"
      else
        let url := orEmpty body in
        if negb (truthy (LOVABLE_API_KEY env))
        then Failure 500 "LOVABLE_API_KEY is not configured"
        else
          let features := extractUrlFeatures new_URL Math_log2 url in
          match gateway env with
          | Rejects e => Failure 500 (errorMessage e "Analysis failed")
          | NotOk _ => Success (ruleBasedOnly url features)
          | OkNotJson e => Failure 500 (errorMessage e "Analysis failed")
          | OkContent NoObject => Success (hybrid env url features emptyAnalysis)
          | OkContent Malformed =>
              Success (hybrid env url features unparsedAnalysis)
          | OkContent (Object aiAnalysis) =>
              Success (hybrid env url features aiAnalysis)
          end
  end.

End Handler.

End Url.

(* ================================================================= *)
(** ** More string operations

    What the email analyzers and the vision analyzer use besides the
    operations of [JS]. *)

Module Str.

(** The quotation mark and the backslash, by their codes. *)
Definition quote : ascii := ascii_of_nat 34.
Definition backslash : ascii := ascii_of_nat 92.

(** [\s] on code units below 256: tab, line feed, vertical tab, form feed,
    carriage return, space and the no-break space. *)
Definition isSpace (c : ascii) : bool :=
  existsb (Nat.eqb (JS.code c)) [9; 10; 11; 12; 13; 32; 160].

(** The longest prefix whose characters satisfy [p]. *)
Fixpoint takeWhile (p : ascii -> bool) (s : string) : string :=
  match s with
  | EmptyString => EmptyString
  | String c s' => if p c then String c (takeWhile p s') else EmptyString
  end.

(** [s.slice(n)] *)
Fixpoint drop (n : nat) (s : string) : string :=
  match n, s with
  | 0, _ => s
  | S n', String _ s' => drop n' s'
  | S _, EmptyString => EmptyString
  end.

(** [s.slice(0, n)] *)
Fixpoint take (n : nat) (s : string) : string :=
  match n, s with
  | 0, _ => EmptyString
  | S n', String c s' => String c (take n' s')
  | S _, EmptyString => EmptyString
  end.

(** [s.split(sep)] for a separator of one character. *)
Fixpoint split (sep : ascii) (s : string) : list string :=
  match s with
  | EmptyString => [EmptyString]
  | String c s' =>
      if Ascii.eqb c sep then EmptyString :: split sep s'
      else match split sep s' with
           | x :: xs => String c x :: xs
           | [] => [String c EmptyString]
           end
  end.

(** [s.lastIndexOf(c)]: [None] is [-1]. *)
Fixpoint lastIndexOf (c : ascii) (s : string) : option nat :=
  match s with
  | EmptyString => None
  | String a s' =>
      match lastIndexOf c s' with
      | Some i => Some (S i)
      | None => if Ascii.eqb a c then Some 0 else None
      end
  end.

(** [s.trim()] *)
Fixpoint trimStart (s : string) : string :=
  match s with
  | EmptyString => EmptyString
  | String c s' => if isSpace c then trimStart s' else s
  end.

Fixpoint trimEnd (s : string) : string :=
  match s with
  | EmptyString => EmptyString
  | String c s' =>
      match trimEnd s' with
      | EmptyString => if isSpace c then EmptyString else String c EmptyString
      | t => String c t
      end
  end.

Definition trim (s : string) : string := trimEnd (trimStart s).

(** [/[class]{n,}/.test(s)]: does [s] hold [n] or more consecutive
    characters of the class?  [run] counts the ones just read. *)
Fixpoint hasRunFrom (p : ascii -> bool) (n run : nat) (s : string) : bool :=
  (n <=? run) ||
  match s with
  | EmptyString => false
  | String c s' => hasRunFrom p n (if p c then S run else 0) s'
  end.

Definition hasRun (p : ascii -> bool) (n : nat) (s : string) : bool :=
  hasRunFrom p n 0 s.

(** The pattern of a literal word, and of an alternation of words. *)
Fixpoint word (w : string) : JS.regex :=
  match w with
  | EmptyString => JS.Eps
  | String c EmptyString => JS.lit c
  | String c w' => JS.Cat (JS.lit c) (word w')
  end.

Fixpoint words (ws : list string) : JS.regex :=
  match ws with
  | [] => JS.Never
  | [w] => word w
  | w :: ws' => JS.Alt (word w) (words ws')
  end.

End Str.

(* ================================================================= *)
(** ** The email analyzer *)

Module Email.

Record EmailFeatures : Type := mkFeatures {
  senderDomain : string;
  senderUser : string;
  isSpoofedDomain : bool;
  hasUrgencyKeywords : bool;
  urgencyCount : nat;
  hasVerificationKeywords : bool;
  hasThreateningLanguage : bool;
  hasSuspiciousLinks : bool;
  linkCount : nat;
  suspiciousLinks : list string;
  hasAttachmentMentions : bool;
  hasMoneyRelatedContent : bool;
  hasBrandImpersonation : bool;
  impersonatedBrands : list string;
  grammarScore : Z;
  sentimentScore : Z
}.

Definition calculateEmailRiskScore (features : EmailFeatures)
  : Q * list string :=
  let acc := (0%Q, []) in
  let acc := rule (isSpoofedDomain features) 30
                  ("Spoofed sender domain detected: " ++
                   senderDomain features)%string acc in
  let acc := rule (hasBrandImpersonation features) 25
                  ("Brand impersonation attempt: " ++
                   JS.join ", " (impersonatedBrands features))%string acc in
  let acc := rule (hasUrgencyKeywords features)
                  (Qmin 20 (ofNat (urgencyCount features * 5)))
                  ("Urgency manipulation detected (" ++
                   JS.showNat (urgencyCount features) ++ " keywords)")%string
                  acc in
  let acc := rule (hasVerificationKeywords features) 15
                  "Credential harvesting language detected" acc in
  let acc := rule (hasThreateningLanguage features) 20
                  "Threatening/fear-based language detected" acc in
  let acc := rule (hasSuspiciousLinks features) 20
                  ("Suspicious links found: " ++
                   JS.showNat (List.length (suspiciousLinks features)))%string
                  acc in
  let acc := rule (hasMoneyRelatedContent features &&
                   (hasUrgencyKeywords features ||
                    hasThreateningLanguage features)) 15
                  "Financial urgency pressure tactics" acc in
  let acc := rule (grammarScore features <? 60)%Z 10
                  "Poor grammar quality (common in phishing)" acc in
  (Qmin 100 (fst acc), snd acc).

Record AiAnalysis : Type := mkAnalysis {
  isPhishing : bool;
  confidence : option Q;
  reasoning : option string;
  tactics : option (list string);
  redFlags : option (list string)
}.

(** The initial value of [aiAnalysis]. *)
Definition defaultAnalysis : AiAnalysis :=
  {| isPhishing := false; confidence := Some 50%Q; reasoning := Some "";
     tactics := Some []; redFlags := Some [] |}.

Record Message : Type := mkMessage {
  sender : option string;
  subject : option string;
  body : option string
}.

Inductive Request : Type :=
| OPTIONS
| POST (msg : option Message).

Record Env : Type := mkEnv {
  jsonError : Thrown;
  LOVABLE_API_KEY : option string;
  gateway : Gateway AiAnalysis;
  random : nat -> Byte.byte;
  now : string
}.

Record Result : Type := mkResult {
  r_sender : string;
  r_subject : string;
  r_result : Verdict;
  r_confidence : Z;
  r_threatIndicators : list string;
  r_features : EmailFeatures;
  r_ruleBasedScore : Q;
  r_aiScore : Z;
  r_combinedScore : Z;
  r_aiAnalysis : AiAnalysis;
  r_method : string;
  r_blockchainHash : string;
  r_timestamp : string
}.

Definition aiScoreOf (aiAnalysis : AiAnalysis) : Q :=
  if isPhishing aiAnalysis
  then (50 + numOr (confidence aiAnalysis) 50 / 2)%Q
  else (50 - numOr (confidence aiAnalysis) 50 / 2)%Q.

(** [ruleBasedScore * 0.4 + aiScore * 0.6], without the rounding of
    binary64. *)
Definition combinedScoreOf (ruleBasedScore : Q) (aiAnalysis : AiAnalysis) : Q :=
  (ruleBasedScore * (4 # 10) + aiScoreOf aiAnalysis * (6 # 10))%Q.

Definition pushAll (xs : list string) (more : option (list string))
  : list string :=
  match more with
  | Some ys => xs ++ ys
  | None => xs
  end.

(** [allThreats] after the pushes. *)
Definition allThreatsOf (threats : list string) (aiAnalysis : AiAnalysis)
  (result : Verdict) : list string :=
  let allThreats := threats in
  let allThreats := pushAll allThreats (tactics aiAnalysis) in
  let allThreats := pushAll allThreats (redFlags aiAnalysis) in
  if truthy (reasoning aiAnalysis) && negb (Verdict_eqb result safe)
  then allThreats ++ [orEmpty (reasoning aiAnalysis)]
  else allThreats.

(** The response once [aiAnalysis] is known. *)
Definition respond (env : Env) (sender subject : string)
  (features : EmailFeatures) (aiAnalysis : AiAnalysis) : Result :=
  let '(ruleBasedScore, threats) := calculateEmailRiskScore features in
  let aiScore := aiScoreOf aiAnalysis in
  let combinedScore := combinedScoreOf ruleBasedScore aiAnalysis in
  let result := resultOf combinedScore in
  let confidence :=
    Math_round (if Verdict_eqb result safe then (100 - combinedScore)%Q
                else Qmin 98 (combinedScore + 20)) in
  let allThreats := allThreatsOf threats aiAnalysis result in
  {| r_sender := sender;
     r_subject := subject;
     r_result := result;
     r_confidence := confidence;
     r_threatIndicators := JS.slice0 8 (JS.newSet allThreats);
     r_features := features;
     r_ruleBasedScore := ruleBasedScore;
     r_aiScore := Math_round aiScore;
     r_combinedScore := Math_round combinedScore;
     r_aiAnalysis := aiAnalysis;
     r_method := "hybrid-email-ai";
     r_blockchainHash := blockchainHashOf (random env);
     r_timestamp := now env |}.

Section Handler.

(** [extractEmailFeatures] is taken as given: the handler's arithmetic
    reads the record only. *)
Variable extractEmailFeatures : string -> string -> string -> EmailFeatures.

Definition serve (env : Env) (req : Request) : Response Result :=
  match req with
  | OPTIONS => Preflight
  | POST None =>
      Failure 500 (errorMessage (jsonError env) "Email analysis failed")
  | POST (Some msg) =>
      if negb (truthy (sender msg)) || negb (truthy (subject msg))
         || negb (truthy (body msg))
      then Failure 400 "Sender, subject, and body are required"
      else if negb (truthy (LOVABLE_API_KEY env))
      then Failure 500 "LOVABLE_API_KEY is not configured"
      else
        let sender := orEmpty (sender msg) in
        let subject := orEmpty (subject msg) in
        let features :=
          extractEmailFeatures sender subject (orEmpty (body msg)) in
        match gateway env with
        | Rejects e =>
            Failure 500 (errorMessage e "Email analysis failed")
        | NotOk _ =>
            Success (respond env sender subject features defaultAnalysis)
        | OkNotJson e =>
            Failure 500 (errorMessage e "Email analysis failed")
        | OkContent NoObject =>
            Success (respond env sender subject features defaultAnalysis)
        | OkContent Malformed =>
            Success (respond env sender subject features defaultAnalysis)
        | OkContent (Object aiAnalysis) =>
            Success (respond env sender subject features aiAnalysis)
        end
  end.

End Handler.

(** *** Feature extraction *)

Definition urgencyKeywords : list string :=
  [ "urgent"; "immediately"; "asap"; "right away"; "right now"; "hurry";
    "time sensitive"; "act now"; "limited time"; "expires"; "deadline";
    "last chance"; "don't delay"; "must act"; "final notice"; "warning";
    "immediate action"; "24 hours"; "48 hours"; "today only"; "now" ].

Definition verificationKeywords : list string :=
  [ "verify"; "confirm"; "validate"; "authenticate"; "update your";
    "review your"; "check your"; "secure your"; "protect your" ].

Definition threateningKeywords : list string :=
  [ "suspended"; "disabled"; "blocked"; "locked"; "terminated";
    "closed"; "restricted"; "limited"; "compromised"; "unauthorized";
    "violation"; "penalty"; "legal action"; "prosecution"; "arrest" ].

Definition moneyKeywords : list string :=
  [ "payment"; "invoice"; "bill"; "charge"; "refund"; "credit";
    "bank"; "transfer"; "wire"; "bitcoin"; "crypto"; "prize";
    "winner"; "lottery"; "inheritance"; "million"; "dollar" ].

Definition knownBrands : list string :=
  [ "paypal"; "amazon"; "apple"; "microsoft"; "google"; "facebook";
    "netflix"; "spotify"; "instagram"; "twitter"; "linkedin"; "bank";
    "wells fargo"; "chase"; "citi"; "hsbc"; "barclays"; "irs"; "dhl";
    "fedex"; "ups"; "usps"; "dropbox"; "adobe"; "zoom"; "slack" ].

Definition legitimateDomains : list (string * list string) :=
  [ ("paypal", ["paypal.com"; "paypal.co.uk"]);
    ("amazon", ["amazon.com"; "amazon.co.uk"; "amazon.in"; "amazon.de"]);
    ("apple", ["apple.com"; "icloud.com"]);
    ("microsoft", ["microsoft.com"; "outlook.com"; "live.com"; "hotmail.com"]);
    ("google", ["google.com"; "gmail.com"]);
    ("netflix", ["netflix.com"]);
    ("facebook", ["facebook.com"; "fb.com"]) ].

(** [legitimateDomains[brand]]: [None] is [undefined]. *)
Definition legitimateFor (brand : string) : option (list string) :=
  option_map snd
    (find (fun entry => String.eqb (fst entry) brand) legitimateDomains).

(** [[a-zA-Z0-9.-]] *)
Definition isDomainChar (c : ascii) : bool :=
  JS.isLower c || JS.isUpper c || JS.isDigit c ||
  JS.isChar "." c || JS.isChar "-" c.

(** Group 1 of [s.match(/@([a-zA-Z0-9.-]+)/)]: the run of domain
    characters after the first [@] that has one. *)
Fixpoint domainMatch (s : string) : option string :=
  match s with
  | EmptyString => None
  | String c s' =>
      if Ascii.eqb c "@" &&
         negb (String.eqb (Str.takeWhile isDomainChar s') "")
      then Some (Str.takeWhile isDomainChar s')
      else domainMatch s'
  end.

(** One turn of the loop over [knownBrands]; the state is
    [(isSpoofedDomain, impersonatedBrands)]. *)
Definition checkBrand (fullText senderLower senderDomain : string)
  (state : bool * list string) (brand : string) : bool * list string :=
  if JS.includes fullText brand || JS.includes senderLower brand
  then match legitimateFor brand with
       | Some legit =>
           if negb (existsb (fun d => JS.endsWith senderDomain d) legit)
           then if JS.includes senderDomain brand
                then (true, snd state ++ [brand])
                else state
           else state
       | None => state
       end
  else state.

(** When a turn of the loop over [knownBrands] records the brand: the
    three nested conditions taken together. *)
Definition impersonates (fullText senderLower senderDomain brand : string)
  : bool :=
  (JS.includes fullText brand || JS.includes senderLower brand) &&
  match legitimateFor brand with
  | Some legit =>
      negb (existsb (fun d => JS.endsWith senderDomain d) legit) &&
      JS.includes senderDomain brand
  | None => false
  end.

(** The class of the link pattern: every character but white space,
    the angle brackets, the quotation mark, the braces, the bar, the
    backslash, the caret, the backtick and the square brackets. *)
Definition isLinkChar (c : ascii) : bool :=
  negb (Str.isSpace c ||
        existsb (Ascii.eqb c)
          [ "<"; ">"; Str.quote; "{"; "}"; "|"; Str.backslash; "^"; "`";
            "["; "]" ]%char).

(** A match of the link pattern -- [https?://] and one or more link
    characters, with the flag [i] -- at the start of [s]: the scheme in
    any case, then the longest run of link characters, which must not be
    empty. *)
Definition linkAt (s : string) : option string :=
  let lower := JS.toLowerCase s in
  let scheme :=
    if JS.startsWith lower "https://" then Some 8
    else if JS.startsWith lower "http://" then Some 7
    else None in
  match scheme with
  | Some n =>
      let rest := Str.takeWhile isLinkChar (Str.drop n s) in
      if String.eqb rest "" then None
      else Some (Str.take n s ++ rest)%string
  | None => None
  end.

(** [s.match(/.../gi) || []]: the matches from left to right, each search
    resuming where the last match ended.  [skip] counts the characters of
    the last match still to be passed over. *)
Fixpoint matchLinks (s : string) (skip : nat) : list string :=
  match s with
  | EmptyString => []
  | String _ s' =>
      match skip with
      | S k => matchLinks s' k
      | 0 =>
          match linkAt s with
          | Some link => link :: matchLinks s' (String.length link - 1)
          | None => matchLinks s' 0
          end
      end
  end.

(** [/\d{1,3}\.\d{1,3}\.\d{1,3}\.\d{1,3}/] *)
Definition ipPattern : JS.regex :=
  let d := JS.rep13 (JS.Cls JS.isDigit) in
  let dot := JS.lit "." in
  JS.Cat d (JS.Cat dot (JS.Cat d (JS.Cat dot (JS.Cat d (JS.Cat dot d))))).

Definition isSuspiciousLink (link : string) : bool :=
  let linkLower := JS.toLowerCase link in
  JS.test ipPattern link ||
  JS.includes linkLower "bit.ly" ||
  JS.includes linkLower "tinyurl" ||
  JS.includes linkLower "click" ||
  JS.includes linkLower "verify" ||
  JS.includes linkLower "secure" ||
  JS.test (JS.lit "@") link ||
  (100 <? String.length link).

(** The four deductions of the grammar score.  The last pattern carries
    the flag [i]; its words are in lower case, so it is run on the body in
    lower case. *)
Definition grammarDeductions (body : string) : Z :=
  ((if Str.hasRun Str.isSpace 2 body then 10 else 0) +
   (if Str.hasRun JS.isUpper 5 body then 15 else 0) +
   (if JS.test (Str.word "!!!") body then 10 else 0) +
   (if JS.test (Str.words ["dear customer"; "dear user"; "dear valued"])
               (JS.toLowerCase body)
    then 20 else 0))%Z.

Definition extractEmailFeatures (sender subject body : string)
  : EmailFeatures :=
  let fullText := JS.toLowerCase (subject ++ " " ++ body)%string in
  let senderLower := JS.toLowerCase sender in
  let senderDomain := orEmpty (domainMatch senderLower) in
  let senderUser := hd "" (Str.split "@" senderLower) in
  let '(isSpoofedDomain, impersonatedBrands) :=
    fold_left (checkBrand fullText senderLower senderDomain)
              knownBrands (false, []) in
  let isSpoofedDomain :=
    if JS.includes senderDomain "-" &&
       (2 <? List.length (Str.split "-" senderDomain))
    then true else isSpoofedDomain in
  let isSpoofedDomain :=
    if Str.hasRun JS.isDigit 3 senderDomain then true else isSpoofedDomain in
  let urgencyCount :=
    List.length (filter (fun kw => JS.includes fullText kw) urgencyKeywords) in
  let links := matchLinks body 0 in
  let suspiciousLinks := filter isSuspiciousLink links in
  {| senderDomain := senderDomain;
     senderUser := senderUser;
     isSpoofedDomain := isSpoofedDomain;
     hasUrgencyKeywords := 0 <? urgencyCount;
     urgencyCount := urgencyCount;
     hasVerificationKeywords :=
       existsb (fun kw => JS.includes fullText kw) verificationKeywords;
     hasThreateningLanguage :=
       existsb (fun kw => JS.includes fullText kw) threateningKeywords;
     hasSuspiciousLinks := 0 <? List.length suspiciousLinks;
     linkCount := List.length links;
     suspiciousLinks := suspiciousLinks;
     hasAttachmentMentions :=
       JS.test (Str.words ["attach"; "download"; "open the file";
                           "see attached"]) fullText;
     hasMoneyRelatedContent :=
       existsb (fun kw => JS.includes fullText kw) moneyKeywords;
     hasBrandImpersonation := 0 <? List.length impersonatedBrands;
     impersonatedBrands := impersonatedBrands;
     grammarScore := Z.max 0 (100 - grammarDeductions body);
     sentimentScore := 50 |}.

(** The handler as deployed. *)
Definition handler : Env -> Request -> Response Result :=
  serve extractEmailFeatures.

End Email.

(* ================================================================= *)
(** ** The email heuristic (email-heuristic-v2) *)

Module EmailV2.

Definition OFFICIAL_DOMAINS : list string :=
  ["paypal.com"; "amazon.com"; "google.com"].

Definition getDomain (sender : string) : string :=
  match Str.lastIndexOf "@" (JS.toLowerCase sender) with
  | Some at_ => Str.trim (Str.drop (at_ + 1) (JS.toLowerCase sender))
  | None => ""
  end.

(** [/urgent|verify|suspend|immediate|click|login/i],
    [/click|verify|update|account|login/i] and
    [/receipt|order confirmation/i].  The words are in lower case: a
    pattern with the flag [i] is run on the text in lower case. *)
Definition subjectPattern : JS.regex :=
  Str.words ["urgent"; "verify"; "suspend"; "immediate"; "click"; "login"].

Definition bodyPattern : JS.regex :=
  Str.words ["click"; "verify"; "update"; "account"; "login"].

Definition benignPattern : JS.regex :=
  Str.words ["receipt"; "order confirmation"].

Record Part : Type := mkPart {
  points : Z;
  matched : list string
}.

Record Breakdown : Type := mkBreakdown {
  sender : Part;
  subject : Part;
  body : Part;
  tld : Part
}.

Record Flags : Type := mkFlags {
  hasPhishSender : bool;
  hasPhishSubject : bool;
  hasPhishBody : bool;
  isOfficial : bool
}.

Record Calc : Type := mkCalc {
  senderDomain : string;
  rawScore : Z;
  probability : Z;
  result : Verdict;
  breakdown : Breakdown;
  flags : Flags
}.

(** [part.points += n; part.matched.push(label)] *)
Definition hit (n : Z) (label : string) (part : Part) : Part :=
  {| points := points part + n; matched := matched part ++ [label] |}.

Definition calcEmailScore (sender_ subject_ body_ : string) : Calc :=
  let senderLower := JS.toLowerCase sender_ in
  let subjectLower := JS.toLowerCase subject_ in
  let senderDomain := getDomain sender_ in
  let score := 0%Z in
  let none := {| points := 0; matched := [] |} in
  (* 1) sender *)
  let senderHit :=
    JS.includes senderLower "-" || JS.includes senderLower "update" ||
    JS.includes senderLower "security" in
  let '(score, bSender) :=
    if senderHit
    then ((score + 40)%Z, hit 40 "hyphen/update/security" none)
    else (score, none) in
  (* 2) subject *)
  let '(score, bSubject) :=
    if JS.test subjectPattern (JS.toLowerCase subject_)
    then ((score + 30)%Z,
          hit 30 "urgent|verify|suspend|immediate|click|login" none)
    else (score, none) in
  (* 3) body *)
  let '(score, bBody) :=
    if JS.test bodyPattern (JS.toLowerCase body_)
    then ((score + 25)%Z, hit 25 "click|verify|update|account|login" none)
    else (score, none) in
  (* 4) top-level domain *)
  let '(score, bTld) :=
    if negb (String.eqb senderDomain "") &&
       negb (JS.endsWith senderDomain ".com")
    then ((score + 20)%Z, hit 20 "non-.com" none)
    else (score, none) in
  (* benign subject *)
  let '(score, bSubject) :=
    if JS.test benignPattern subjectLower
    then ((score - 20)%Z,
          hit (-20) "receipt|order confirmation (-20)" bSubject)
    else (score, bSubject) in
  (* clamp *)
  let rawScore := score in
  let probability := Z.min 94 (Z.max 0 rawScore) in
  let result := if (50 <? probability)%Z then phishing else safe in
  let isOfficial := existsb (String.eqb senderDomain) OFFICIAL_DOMAINS in
  let hasPhishSubject := JS.test subjectPattern (JS.toLowerCase subject_) in
  let hasPhishBody := JS.test bodyPattern (JS.toLowerCase body_) in
  let hasPhishSender :=
    JS.includes senderLower "-" || JS.includes senderLower "update" ||
    JS.includes senderLower "security" in
  let forceSafe12 :=
    isOfficial && negb hasPhishSender && negb hasPhishSubject &&
    negb hasPhishBody in
  {| senderDomain := senderDomain;
     rawScore := rawScore;
     probability := if forceSafe12 then 12%Z else probability;
     result := if forceSafe12 then safe else result;
     breakdown := {| sender := bSender; subject := bSubject;
                     body := bBody; tld := bTld |};
     flags := {| hasPhishSender := hasPhishSender;
                 hasPhishSubject := hasPhishSubject;
                 hasPhishBody := hasPhishBody;
                 isOfficial := isOfficial |} |}.

(** The handler. *)

Record Message : Type := mkMessage {
  m_sender : option string;
  m_subject : option string;
  m_body : option string
}.

Inductive Request : Type :=
| OPTIONS
| POST (msg : option Message).     (* [None]: the body is not JSON *)

Record Env : Type := mkEnv {
  jsonError : Thrown;
  random : nat -> Byte.byte;
  now : string
}.

Record Result : Type := mkResult {
  r_sender : string;
  r_subject : string;
  r_result : Verdict;
  r_confidence : Z;
  r_threatIndicators : list string;
  r_features : Calc;
  r_ruleBasedScore : Z;
  r_aiScore : Z;
  r_combinedScore : Z;
  r_method : string;
  r_blockchainHash : string;
  r_timestamp : string
}.

(** [if (cond) threatIndicators.push(label)] *)
Definition pushIf (cond : bool) (label : string) (xs : list string)
  : list string :=
  if cond then xs ++ [label] else xs.

Definition indicatorsOf (calc : Calc) : list string :=
  let threatIndicators := [] in
  let threatIndicators :=
    pushIf (0 <? points (sender (breakdown calc)))%Z
           "Suspicious sender pattern" threatIndicators in
  let threatIndicators :=
    pushIf (0 <? points (subject (breakdown calc)))%Z
           "High-risk subject keywords" threatIndicators in
  let threatIndicators :=
    pushIf (0 <? points (body (breakdown calc)))%Z
           "High-risk body keywords" threatIndicators in
  let threatIndicators :=
    pushIf (0 <? points (tld (breakdown calc)))%Z
           "Non-.com sender domain" threatIndicators in
  pushIf (isOfficial (flags calc) && Verdict_eqb (result calc) safe)
         "Official sender domain" threatIndicators.

Definition serve (env : Env) (req : Request) : Response Result :=
  match req with
  | OPTIONS => Preflight
  | POST None =>
      Failure 500 (errorMessage (jsonError env) "Email analysis failed")
  | POST (Some msg) =>
      if negb (truthy (m_sender msg)) || negb (truthy (m_subject msg))
         || negb (truthy (m_body msg))
      then Failure 400 "Sender, subject, and body are required"
      else
        let calc := calcEmailScore (orEmpty (m_sender msg))
                      (orEmpty (m_subject msg)) (orEmpty (m_body msg)) in
        Success {|
          r_sender := orEmpty (m_sender msg);
          r_subject := orEmpty (m_subject msg);
          r_result := result calc;
          r_confidence := probability calc;
          r_threatIndicators := JS.slice0 8 (JS.newSet (indicatorsOf calc));
          r_features := calc;
          r_ruleBasedScore := probability calc;
          r_aiScore := probability calc;
          r_combinedScore := probability calc;
          r_method := "email-heuristic-v2";
          r_blockchainHash := blockchainHashOf (random env);
          r_timestamp := now env
        |}
  end.

End EmailV2.

(* ================================================================= *)
(** ** The logo analyzer with the vision oracle (hybrid-vision-ai) *)

Module Vision.

(** Each brand with its colours and its keywords. *)
Definition knownBrandSignatures
  : list (string * (list string * list string)) :=
  [ ("paypal", (["#003087"; "#009cde"; "#012169"], ["paypal"; "pay"; "pal"]));
    ("amazon", (["#ff9900"; "#232f3e"; "#febd69"], ["amazon"; "prime"]));
    ("apple", (["#000000"; "#555555"; "#a3aaae"], ["apple"; "icloud"]));
    ("google", (["#4285f4"; "#ea4335"; "#fbbc05"; "#34a853"],
                ["google"; "gmail"]));
    ("microsoft", (["#00a4ef"; "#7fba00"; "#f25022"; "#ffb900"],
                   ["microsoft"; "windows"; "office"]));
    ("facebook", (["#1877f2"; "#4267b2"], ["facebook"; "meta"; "fb"]));
    ("netflix", (["#e50914"; "#221f1f"], ["netflix"]));
    ("instagram", (["#833ab4"; "#fd1d1d"; "#fcb045"], ["instagram"; "insta"]));
    ("twitter", (["#1da1f2"; "#14171a"], ["twitter"; "x"]));
    ("linkedin", (["#0077b5"; "#0a66c2"], ["linkedin"]));
    ("whatsapp", (["#25d366"; "#128c7e"], ["whatsapp"]));
    ("spotify", (["#1db954"; "#191414"], ["spotify"])) ].

Definition officialDomains : list (string * list string) :=
  [ ("paypal", ["paypal.com"; "paypalobjects.com"]);
    ("amazon", ["amazon.com"; "amazonaw.com"; "media-amazon.com"]);
    ("apple", ["apple.com"; "icloud.com"; "mzstatic.com"]);
    ("google", ["google.com"; "gstatic.com"; "googleapis.com"]);
    ("microsoft", ["microsoft.com"; "microsoftonline.com"; "msftauth.net"]);
    ("facebook", ["facebook.com"; "fbcdn.net"; "fb.com"]);
    ("netflix", ["netflix.com"; "nflximg.net"]) ].

(** [officialDomains[brand] || []] *)
Definition officialFor (brand : string) : list string :=
  match find (fun entry => String.eqb (fst entry) brand) officialDomains with
  | Some entry => snd entry
  | None => []
  end.

Definition suspiciousTlds : list string :=
  [".xyz"; ".tk"; ".ml"; ".ga"; ".cf"; ".top"; ".icu"].

(** [/\d{1,3}\.\d{1,3}\.\d{1,3}\.\d{1,3}/] *)
Definition ipPattern : JS.regex :=
  let d := JS.rep13 (JS.Cls JS.isDigit) in
  let dot := JS.lit "." in
  JS.Cat d (JS.Cat dot (JS.Cat d (JS.Cat dot (JS.Cat d (JS.Cat dot d))))).

Record UrlAnalysis : Type := mkUrlAnalysis {
  suspicions : list string;
  detectedBrand : option string
}.

(** [if (cond) suspicions.push(label)] *)
Definition pushIf (cond : bool) (label : string) (xs : list string)
  : list string :=
  if cond then xs ++ [label] else xs.

(** The loop over the brands stops at the first one the URL names. *)
Definition analyzeImageUrl (imageUrl : string) : UrlAnalysis :=
  let urlLower := JS.toLowerCase imageUrl in
  let suspicions := [] in
  let detectedBrand :=
    find (fun brand => JS.includes urlLower brand)
         (map fst knownBrandSignatures) in
  let suspicions :=
    match detectedBrand with
    | Some brand =>
        pushIf (negb (existsb (fun d => JS.includes urlLower d)
                              (officialFor brand)))
               (brand ++ " logo hosted on unofficial domain")%string
               suspicions
    | None => suspicions
    end in
  let suspicions :=
    pushIf (JS.test ipPattern imageUrl)
           "Image hosted on IP address" suspicions in
  let suspicions :=
    pushIf (JS.includes urlLower "data:image")
           "Base64 embedded image (cannot verify source)" suspicions in
  let suspicions :=
    pushIf (existsb (fun tld => JS.includes urlLower tld) suspiciousTlds)
           "Image hosted on suspicious TLD" suspicions in
  let suspicions :=
    pushIf (JS.includes urlLower "logo" && JS.includes urlLower "fake")
           "URL contains suspicious keywords" suspicions in
  {| suspicions := suspicions; detectedBrand := detectedBrand |}.

(** The handler. *)

Record AiAnalysis : Type := mkAnalysis {
  brandDetected : option string;
  isAuthentic : bool;                       (* truthiness of the field *)
  confidence : option Q;
  issues : option (list string);
  reasoning : option string
}.

(** The initial value of [aiAnalysis]. *)
Definition defaultAnalysis (urlAnalysis : UrlAnalysis) : AiAnalysis :=
  {| brandDetected := detectedBrand urlAnalysis;
     isAuthentic := true;
     confidence := Some 50%Q;
     issues := Some [];
     reasoning := Some "Unable to analyze" |}.

Record Input : Type := mkInput {
  imageUrl : option string;
  base64Image : option string
}.

Inductive Request : Type :=
| OPTIONS
| POST (body : option Input).      (* [None]: the body is not JSON *)

Record Env : Type := mkEnv {
  jsonError : Thrown;
  LOVABLE_API_KEY : option string;
  gateway : Gateway AiAnalysis;
  random : nat -> Byte.byte;
  now : string
}.

Record Result : Type := mkResult {
  r_imageUrl : string;
  r_result : Verdict;
  r_confidence : Q;
  r_detectedBrand : option string;
  r_threatIndicators : list string;
  r_urlAnalysis : UrlAnalysis;
  r_aiAnalysis : AiAnalysis;
  r_isAuthentic : bool;
  r_method : string;
  r_blockchainHash : string;
  r_timestamp : string
}.

(** [!aiAnalysis.isAuthentic || urlAnalysis.suspicions.length >= 2 ||
    (aiAnalysis.issues && aiAnalysis.issues.length >= 2)] *)
Definition isPhishingOf (urlAnalysis : UrlAnalysis) (aiAnalysis : AiAnalysis)
  : bool :=
  negb (isAuthentic aiAnalysis) ||
  (2 <=? List.length (suspicions urlAnalysis)) ||
  match issues aiAnalysis with
  | Some found => 2 <=? List.length found
  | None => false
  end.

(** The response once [aiAnalysis] is known. *)
Definition respond (env : Env) (input : Input) (urlAnalysis : UrlAnalysis)
  (aiAnalysis : AiAnalysis) : Result :=
  let allIssues :=
    suspicions urlAnalysis ++
    match issues aiAnalysis with
    | Some found => found
    | None => []
    end in
  let isPhishing := isPhishingOf urlAnalysis aiAnalysis in
  {| r_imageUrl := if truthy (imageUrl input)
                   then orEmpty (imageUrl input) else "base64-image";
     r_result := if isPhishing then phishing else safe;
     r_confidence :=
       numOr (confidence aiAnalysis) (if isPhishing then 85 else 75);
     r_detectedBrand :=
       orElse (brandDetected aiAnalysis) (detectedBrand urlAnalysis);
     r_threatIndicators := JS.newSet allIssues;
     r_urlAnalysis := urlAnalysis;
     r_aiAnalysis := aiAnalysis;
     r_isAuthentic := isAuthentic aiAnalysis;
     r_method := "hybrid-vision-ai";
     r_blockchainHash := blockchainHashOf (random env);
     r_timestamp := now env |}.

Definition serve (env : Env) (req : Request) : Response Result :=
  match req with
  | OPTIONS => Preflight
  | POST None =>
      Failure 500 (errorMessage (jsonError env) "Logo analysis failed")
  | POST (Some input) =>
      let imageSource := orElse (imageUrl input) (base64Image input) in
      if negb (truthy imageSource)
      then Failure 400 "Image URL or base64 image is required"
      else if negb (truthy (LOVABLE_API_KEY env))
      then Failure 500 "LOVABLE_API_KEY is not configured"
      else
        let urlAnalysis :=
          if truthy (imageUrl input)
          then analyzeImageUrl (orEmpty (imageUrl input))
          else {| suspicions := []; detectedBrand := None |} in
        match gateway env with
        | Rejects e => Failure 500 (errorMessage e "Logo analysis failed")
        | NotOk _ =>
            Success (respond env input urlAnalysis
                       (defaultAnalysis urlAnalysis))
        | OkNotJson e => Failure 500 (errorMessage e "Logo analysis failed")
        | OkContent NoObject =>
            Success (respond env input urlAnalysis
                       (defaultAnalysis urlAnalysis))
        | OkContent Malformed =>
            Success (respond env input urlAnalysis
                       (defaultAnalysis urlAnalysis))
        | OkContent (Object aiAnalysis) =>
            Success (respond env input urlAnalysis aiAnalysis)
        end
  end.

End Vision.

(* ================================================================= *)
(** ** A platform to run the examples on

    [Sample.new_URL] reads the plain shape
    [http(s)://[user@]host[:port][/path][?query][#fragment]] and throws on
    anything else; [Sample.log2] is the base-2 logarithm to within
    [1/256].  They stand for the platform's own on the inputs of the
    examples below; the general statements hold for every parser and
    every logarithm. *)

Module Sample.

(** The part before the first character satisfying [p], and the rest. *)
Fixpoint span (p : ascii -> bool) (s : string) : string * string :=
  match s with
  | EmptyString => ("", "")
  | String c s' =>
      if p c then ("", s)
      else let '(a, b) := span p s' in (String c a, b)
  end.

Fixpoint drop (n : nat) (s : string) : string :=
  match n, s with
  | 0, _ => s
  | S n', String _ s' => drop n' s'
  | S _, EmptyString => ""
  end.

(** The part after the last [c], if [c] occurs. *)
Fixpoint afterLast (c : ascii) (s : string) : option string :=
  match s with
  | EmptyString => None
  | String a s' =>
      match afterLast c s' with
      | Some t => Some t
      | None => if Ascii.eqb a c then Some s' else None
      end
  end.

Definition oneOf (cs : string) (c : ascii) : bool :=
  JS.includes cs (String c "").

Definition forbiddenHost (c : ascii) : bool :=
  oneOf " <>[]^|%\#/:?@" c || (JS.code c <? 33) || (126 <? JS.code c).

Definition new_URL (s : string) : option URL :=
  let lower := JS.toLowerCase s in
  let scheme :=
    if JS.startsWith lower "https://" then Some ("https:", "443", drop 8 s)
    else if JS.startsWith lower "http://" then Some ("http:", "80", drop 7 s)
    else None in
  match scheme with
  | None => None
  | Some (proto, defaultPort, rest) =>
      let '(authority, rest) := span (oneOf "/?#") rest in
      let '(path, rest) := span (oneOf "?#") rest in
      let '(query, _) := span (oneOf "#") rest in
      let hostport :=
        match afterLast "@" authority with
        | Some h => h
        | None => authority
        end in
      let '(host, portText) :=
        match afterLast ":" hostport with
        | Some p =>
            (substring 0 (String.length hostport - String.length p - 1)
                       hostport, p)
        | None => (hostport, "")
        end in
      if String.eqb host "" || negb (allChars JS.isDigit portText)
         || JS.test (JS.Cls forbiddenHost) host
      then None
      else Some {| protocol := proto;
                   hostname := JS.toLowerCase host;
                   pathname := if String.eqb path "" then "/" else path;
                   search := if String.eqb query "?" then "" else query;
                   port := if String.eqb portText defaultPort then ""
                           else portText |}
  end.

Definition log2 (q : Q) : Q :=
  ((Z.log2 (Qnum q ^ 256) - Z.log2 (Z.pos (Qden q) ^ 256))%Z # 256)%Q.

Definition extractUrlFeatures := Url.extractUrlFeatures new_URL log2.
Definition serveUrl := Url.serve new_URL log2.
Definition calcLogoHeuristic := Logo.calcLogoHeuristic new_URL.
Definition serveLogo := Logo.serve new_URL.

Definition zeroBytes : nat -> Byte.byte := fun _ => Byte.x00.

End Sample.

(* ================================================================= *)
(** ** Concrete requests used by the examples *)

Module Ex.

Definition urlEnv (g : Gateway Url.AiAnalysis) : Url.Env :=
  {| Url.jsonError := None;
     Url.LOVABLE_API_KEY := Some "key";
     Url.gateway := g;
     Url.random := Sample.zeroBytes;
     Url.now := "2026-01-01T00:00:00.000Z" |}.

Definition emailEnv (g : Gateway Email.AiAnalysis) : Email.Env :=
  {| Email.jsonError := None;
     Email.LOVABLE_API_KEY := Some "key";
     Email.gateway := g;
     Email.random := Sample.zeroBytes;
     Email.now := "2026-01-01T00:00:00.000Z" |}.

Definition logoEnv : Logo.Env :=
  {| Logo.jsonError := "Unexpected end of JSON input";
     Logo.random := Sample.zeroBytes;
     Logo.now := "2026-01-01T00:00:00.000Z" |}.

(** An oracle answer with a verdict and a confidence only. *)
Definition says (isPhishing : bool) (confidence : Q) : Url.AiAnalysis :=
  {| Url.isPhishing := isPhishing; Url.confidence := Some confidence;
     Url.reasoning := None; Url.additionalThreats := None |}.

Definition emailSays (isPhishing : bool) (confidence : Q) : Email.AiAnalysis :=
  {| Email.isPhishing := isPhishing; Email.confidence := Some confidence;
     Email.reasoning := None; Email.tactics := None;
     Email.redFlags := None |}.

(** The features of a plain message: no rule of the email scorer fires. *)
Definition plainEmail : Email.EmailFeatures :=
  {| Email.senderDomain := "example.org"; Email.senderUser := "alice";
     Email.isSpoofedDomain := false; Email.hasUrgencyKeywords := false;
     Email.urgencyCount := 0; Email.hasVerificationKeywords := false;
     Email.hasThreateningLanguage := false;
     Email.hasSuspiciousLinks := false; Email.linkCount := 0;
     Email.suspiciousLinks := []; Email.hasAttachmentMentions := false;
     Email.hasMoneyRelatedContent := false;
     Email.hasBrandImpersonation := false; Email.impersonatedBrands := [];
     Email.grammarScore := 100; Email.sentimentScore := 50 |}.

(** A message whose sender domain is spoofed and whose body threatens:
    the email scorer gives 30 + 20 = 50. *)
Definition spoofedEmail : Email.EmailFeatures :=
  {| Email.senderDomain := "paypal-security.net"; Email.senderUser := "support";
     Email.isSpoofedDomain := true; Email.hasUrgencyKeywords := false;
     Email.urgencyCount := 0; Email.hasVerificationKeywords := false;
     Email.hasThreateningLanguage := true;
     Email.hasSuspiciousLinks := false; Email.linkCount := 0;
     Email.suspiciousLinks := []; Email.hasAttachmentMentions := false;
     Email.hasMoneyRelatedContent := false;
     Email.hasBrandImpersonation := false; Email.impersonatedBrands := [];
     Email.grammarScore := 100; Email.sentimentScore := 50 |}.

(** A message with poor grammar and nothing else: the scorer gives 10. *)
Definition sloppyEmail : Email.EmailFeatures :=
  {| Email.senderDomain := "example.org"; Email.senderUser := "alice";
     Email.isSpoofedDomain := false; Email.hasUrgencyKeywords := false;
     Email.urgencyCount := 0; Email.hasVerificationKeywords := false;
     Email.hasThreateningLanguage := false;
     Email.hasSuspiciousLinks := false; Email.linkCount := 0;
     Email.suspiciousLinks := []; Email.hasAttachmentMentions := false;
     Email.hasMoneyRelatedContent := false;
     Email.hasBrandImpersonation := false; Email.impersonatedBrands := [];
     Email.grammarScore := 55; Email.sentimentScore := 50 |}.

Definition post (url : string) : Url.Request := Url.POST (Some (Some url)).

End Ex.

(** A logo request with an image URL only, and one with an upload only. *)
Definition logoInput (url : string) : Logo.Input :=
  {| Logo.imageUrl := Some url; Logo.base64Image := None |}.

Definition upload (data : string) : Logo.Input :=
  {| Logo.imageUrl := None; Logo.base64Image := Some data |}.

(** Arbitrarily many distinct strings. *)
Fixpoint stars (n : nat) : string :=
  match n with
  | 0 => ""
  | S n' => String "*" (stars n')
  end.

Definition manyThreats (n : nat) : Url.AiAnalysis :=
  {| Url.isPhishing := false; Url.confidence := None; Url.reasoning := None;
     Url.additionalThreats := Some (map stars (seq 0 n)) |}.

(* ================================================================= *)
(** ** Notions the statements use *)

(** The reference reading of "first occurrence wins": the head stays,
    and its later copies are removed from the rest. *)
Fixpoint keepFirst (xs : list string) : list string :=
  match xs with
  | [] => []
  | x :: rest => x :: filter (fun y => negb (String.eqb y x)) (keepFirst rest)
  end.

Definition mem (x : string) (xs : list string) : bool :=
  existsb (String.eqb x) xs.

(** [l] has no duplicates and draws from the candidates [cands]. *)
Definition Among (cands l : list string) : Prop := NoDup l /\ incl l cands.

(** A running total that is 0 exactly as long as no message was pushed. *)
Definition Charged (acc : Q * list string) : Prop :=
  (0 <= fst acc)%Q /\ ((fst acc == 0)%Q <-> snd acc = []).

(* ================================================================= *)
(** ** The helpers at work *)

Example includes_ex : JS.includes "https://paypal.example" "paypal" = true.
Proof. reflexivity. Qed.

Example newSet_ex : JS.newSet ["a"; "b"; "a"; "c"; "b"] = ["a"; "b"; "c"].
Proof. reflexivity. Qed.

Example round_ex :
  Math_round (5 # 2)%Q = 3%Z /\ Math_round (-5 # 2)%Q = (-2)%Z.
Proof. split; reflexivity. Qed.

(* ================================================================= *)
(** ** Deduplication: what [[...new Set(xs)]] returns *)

Lemma mem_In x xs : mem x xs = true <-> In x xs.
Proof.
  unfold mem. rewrite existsb_exists. split.
  - intros (y & Hy & E). apply String.eqb_eq in E. now subst.
  - intros H. exists x. split; [assumption | apply String.eqb_refl].
Qed.

Lemma setInsert_spec x seen :
  JS.setInsert x seen = if mem x seen then seen else seen ++ [x].
Proof.
  induction seen as [|y seen IH]; simpl; [reflexivity|].
  rewrite (String.eqb_sym x y).
  destruct (String.eqb y x); simpl; [reflexivity|].
  rewrite IH. now destruct (mem x seen).
Qed.

Lemma filter_filter_absorb (acc : list string) x l :
  mem x acc = true ->
  filter (fun y => negb (mem y acc)) (filter (fun y => negb (String.eqb y x)) l)
  = filter (fun y => negb (mem y acc)) l.
Proof.
  intros Hx. induction l as [|y l IH]; simpl; [reflexivity|].
  destruct (String.eqb y x) eqn:E; simpl.
  - apply String.eqb_eq in E. subst y. rewrite Hx. simpl. exact IH.
  - destruct (mem y acc); simpl; now rewrite IH.
Qed.

Lemma filter_snoc_split (acc : list string) x l :
  filter (fun y => negb (mem y (acc ++ [x]))) l
  = filter (fun y => negb (mem y acc))
           (filter (fun y => negb (String.eqb y x)) l).
Proof.
  induction l as [|y l IH]; simpl; [reflexivity|].
  unfold mem at 1. rewrite existsb_app. simpl. rewrite orb_false_r.
  fold (mem y acc).
  destruct (String.eqb y x); simpl.
  - rewrite orb_true_r. simpl. exact IH.
  - rewrite orb_false_r. destruct (mem y acc); simpl; now rewrite IH.
Qed.

Lemma fold_setInsert xs : forall acc,
  fold_left (fun seen x => JS.setInsert x seen) xs acc
  = acc ++ filter (fun y => negb (mem y acc)) (keepFirst xs).
Proof.
  induction xs as [|x xs IH]; intros acc; simpl.
  - now rewrite app_nil_r.
  - rewrite IH, setInsert_spec.
    destruct (mem x acc) eqn:Hx; simpl.
    + now rewrite filter_filter_absorb.
    + rewrite <- app_assoc. simpl. now rewrite filter_snoc_split.
Qed.

(** The accumulating insertion computes exactly the reference reading. *)
Lemma newSet_keepFirst xs : JS.newSet xs = keepFirst xs.
Proof.
  unfold JS.newSet. rewrite fold_setInsert. simpl.
  induction (keepFirst xs) as [|y l IH]; simpl; [reflexivity|].
  now rewrite IH.
Qed.

Lemma keepFirst_In x xs : In x (keepFirst xs) <-> In x xs.
Proof.
  induction xs as [|y xs IH]; simpl; [tauto|]. split.
  - intros [H | H]; [now left|]. apply filter_In in H. right. apply IH. tauto.
  - intros [H | H]; [now left|]. destruct (String.eqb x y) eqn:E.
    + left. apply String.eqb_eq in E. now subst.
    + right. apply filter_In. split; [now apply IH|]. now rewrite E.
Qed.

Lemma keepFirst_NoDup xs : NoDup (keepFirst xs).
Proof.
  induction xs as [|y xs IH]; simpl; constructor.
  - rewrite filter_In. intros [_ H]. simpl in H.
    now rewrite String.eqb_refl in H.
  - now apply NoDup_filter.
Qed.

Lemma keepFirst_id xs : NoDup xs -> keepFirst xs = xs.
Proof.
  induction 1 as [|x xs Hx Hnd IH]; simpl; [reflexivity|].
  rewrite IH. f_equal.
  apply forallb_filter_id. apply forallb_forall. intros y Hy.
  destruct (String.eqb y x) eqn:E; [|reflexivity].
  apply String.eqb_eq in E. now subst.
Qed.

Lemma newSet_NoDup xs : NoDup (JS.newSet xs).
Proof. rewrite newSet_keepFirst. apply keepFirst_NoDup. Qed.

Lemma newSet_In x xs : In x (JS.newSet xs) <-> In x xs.
Proof. rewrite newSet_keepFirst. apply keepFirst_In. Qed.

Lemma In_firstn {A} n (xs : list A) x : In x (firstn n xs) -> In x xs.
Proof.
  revert n. induction xs as [|y xs IH]; intros [|n]; simpl; try tauto.
  intros [H | H]; [now left | right; eauto].
Qed.

Lemma NoDup_firstn {A} n (xs : list A) : NoDup xs -> NoDup (firstn n xs).
Proof.
  intros H. revert n. induction H as [|x xs Hx Hnd IH]; intros [|n]; simpl;
    try constructor; auto.
  intros Hin. apply Hx. eapply In_firstn. exact Hin.
Qed.

(* ================================================================= *)
(** ** Verdict thresholds *)

Lemma resultOf_phishing c : (50 <= c)%Q -> resultOf c = phishing.
Proof.
  intros H. unfold resultOf. apply Qle_bool_iff in H. now rewrite H.
Qed.

Lemma Qle_bool_false x y : (y < x)%Q -> Qle_bool x y = false.
Proof.
  intros H. destruct (Qle_bool x y) eqn:E; [|reflexivity].
  apply Qle_bool_iff in E. exfalso. exact (Qlt_not_le _ _ H E).
Qed.


Lemma resultOf_safe c : (c < 25)%Q -> resultOf c = safe.
Proof.
  intros H. unfold resultOf.
  rewrite (Qle_bool_false 50 c), (Qle_bool_false 25 c); trivial.
  eapply Qlt_trans; [exact H | reflexivity].
Qed.

Lemma resultOf_never_unknown c : resultOf c <> unknown.
Proof.
  unfold resultOf.
  destruct (Qle_bool 50 c); [discriminate|].
  destruct (Qle_bool 25 c); discriminate.
Qed.

Lemma url_hybrid_result env url features a :
  Url.r_result (Url.hybrid env url features a)
  = resultOf (Url.combinedScoreOf (fst (Url.calculateRiskScore features)) a).
Proof.
  unfold Url.hybrid. now destruct (Url.calculateRiskScore features).
Qed.

Lemma url_ruleBasedOnly_result url features :
  Url.r_result (Url.ruleBasedOnly url features)
  = resultOf (fst (Url.calculateRiskScore features)).
Proof.
  unfold Url.ruleBasedOnly. now destruct (Url.calculateRiskScore features).
Qed.

Lemma email_respond_result env sender subject features a :
  Email.r_result (Email.respond env sender subject features a)
  = resultOf (Email.combinedScoreOf
                (fst (Email.calculateEmailRiskScore features)) a).
Proof.
  unfold Email.respond. now destruct (Email.calculateEmailRiskScore features).
Qed.


Example url_scores :
  (fst (Url.calculateRiskScore
          (Sample.extractUrlFeatures "https://example.xyz/")) == 20)%Q /\
  (fst (Url.calculateRiskScore
          (Sample.extractUrlFeatures "http://example.org/")) == 10)%Q /\
  (fst (Url.calculateRiskScore
          (Sample.extractUrlFeatures "https://example.org/")) == 0)%Q /\
  (fst (Url.calculateRiskScore
          (Sample.extractUrlFeatures
             "http://192.168.1.5/paypal-login-verify")) == 60)%Q.
Proof.
  refine (conj _ (conj _ (conj _ _))); vm_compute; reflexivity.
Qed.

Example email_scores :
  (fst (Email.calculateEmailRiskScore Ex.plainEmail) == 0)%Q /\
  (fst (Email.calculateEmailRiskScore Ex.sloppyEmail) == 10)%Q /\
  (fst (Email.calculateEmailRiskScore Ex.spoofedEmail) == 50)%Q.
Proof. refine (conj _ (conj _ _)); vm_compute; reflexivity. Qed.

(** The URL scorer knows no safe domain: the brand name in a known-safe
    host is itself one of its keywords. *)
Example safe_domains_in_the_url_scorer :
  snd (Url.calculateRiskScore
         (Sample.extractUrlFeatures "https://www.amazon.com/"))
    = ["Phishing keywords detected: amazon"] /\
  (fst (Url.calculateRiskScore
          (Sample.extractUrlFeatures "https://www.amazon.com/")) == 8)%Q /\
  snd (Url.calculateRiskScore
         (Sample.extractUrlFeatures "https://www.amazon.com/gp/help"))
    = ["Phishing keywords detected: amazon, help"] /\
  (fst (Url.calculateRiskScore
          (Sample.extractUrlFeatures "https://www.amazon.com/gp/help"))
     == 16)%Q.
Proof.
  refine (conj _ (conj _ (conj _ _))); vm_compute; reflexivity.
Qed.



(* ================================================================= *)
(** ** The oracle's answer on the 0-100 scale *)

Lemma numOr_nonzero q d : ~ (q == 0)%Q -> numOr (Some q) d = q.
Proof.
  intros H. unfold numOr. destruct (Qeq_bool q 0) eqn:E; [|reflexivity].
  apply Qeq_bool_iff in E. contradiction.
Qed.

Lemma numOr_zero q d : (q == 0)%Q -> numOr (Some q) d = d.
Proof.
  intros H. unfold numOr. apply Qeq_bool_iff in H. now rewrite H.
Qed.

(** Where the mapping of the specification holds: every confidence the
    oracle states other than 0. *)
Lemma url_aiScore_nonzero (a : Url.AiAnalysis) (q : Q) :
  Url.confidence a = Some q -> ~ (q == 0)%Q ->
  Url.aiScoreOf a
  = if Url.isPhishing a then (50 + q / 2)%Q else (50 - q / 2)%Q.
Proof.
  intros Hc Hq. unfold Url.aiScoreOf. rewrite Hc, (numOr_nonzero _ _ Hq).
  reflexivity.
Qed.

Lemma email_aiScore_nonzero (a : Email.AiAnalysis) (q : Q) :
  Email.confidence a = Some q -> ~ (q == 0)%Q ->
  Email.aiScoreOf a
  = if Email.isPhishing a then (50 + q / 2)%Q else (50 - q / 2)%Q.
Proof.
  intros Hc Hq. unfold Email.aiScoreOf. rewrite Hc, (numOr_nonzero _ _ Hq).
  reflexivity.
Qed.

(** C5.  A confidence of 0 is not mapped to [50 + 0/2] or [50 - 0/2]:
    [aiAnalysis.confidence || 50] replaces it by 50, so a positive call
    lands on 75 and a negative one on 25, in both handlers, and the
    combined score moves with it. *)
Theorem zero_confidence_is_scored_as_fifty :
  (Url.aiScoreOf (Ex.says true 0) == 75)%Q /\
  (Url.aiScoreOf (Ex.says false 0) == 25)%Q /\
  (Email.aiScoreOf (Ex.emailSays true 0) == 75)%Q /\
  (Email.aiScoreOf (Ex.emailSays false 0) == 25)%Q /\
  ~ (Url.aiScoreOf (Ex.says true 0) == 50 + 0 / 2)%Q /\
  ~ (Url.aiScoreOf (Ex.says false 0) == 50 - 0 / 2)%Q /\
  (exists r,
     Sample.serveUrl (Ex.urlEnv (OkContent (Object (Ex.says true 0))))
                     (Ex.post "https://example.org/") = Success r /\
     Url.r_aiScore r = Some 75%Z /\
     Url.r_combinedScore r = Some 45%Z /\
     Url.r_result r = suspicious).
Proof.
  refine (conj _ (conj _ (conj _ (conj _ (conj _ (conj _ _)))))).
  - vm_compute. reflexivity.
  - vm_compute. reflexivity.
  - vm_compute. reflexivity.
  - vm_compute. reflexivity.
  - vm_compute. discriminate.
  - vm_compute. discriminate.
  - eexists. split; [vm_compute; reflexivity|].
    repeat split.
Qed.

(* ================================================================= *)
(** ** The range of the scores and of the confidence *)

Lemma rule_fst_nonneg cond pts msg acc :
  (cond = true -> (0 <= pts)%Q) -> (0 <= fst acc)%Q ->
  (0 <= fst (rule cond pts msg acc))%Q.
Proof.
  intros Hp Ha. unfold rule. destruct cond; simpl; [|assumption].
  rewrite <- (Qplus_0_r 0). apply Qplus_le_compat; auto.
Qed.

Lemma ofNat_nonneg n : (0 <= ofNat n)%Q.
Proof.
  unfold ofNat, Qle. simpl. lia.
Qed.

Lemma Qmin_nonneg a b : (0 <= a)%Q -> (0 <= b)%Q -> (0 <= Qmin a b)%Q.
Proof. intros. apply Q.min_glb; assumption. Qed.

Lemma ofNat_minus_nonneg n k :
  (k <? n) = true -> (0 <= ofNat n - inject_Z (Z.of_nat k))%Q.
Proof.
  intros H. apply Nat.ltb_lt in H.
  unfold ofNat, Qle, Qminus, Qplus, Qopp, inject_Z. simpl. lia.
Qed.

Ltac pts_nonneg :=
  first [ discriminate
        | apply ofNat_nonneg
        | apply Qmin_nonneg; pts_nonneg
        | apply Qmult_le_0_compat; pts_nonneg
        | apply Qle_shift_div_l; [reflexivity | rewrite Qmult_0_l]; pts_nonneg
        | first [ apply (ofNat_minus_nonneg _ 100)
                | apply (ofNat_minus_nonneg _ 3) ]; assumption ].

Ltac nonneg_rules :=
  repeat (apply rule_fst_nonneg; [ intros ?Hc; pts_nonneg | ]).

(** The rule score of a URL lies in [0, 100]. *)
Lemma url_ruleScore_bounded features :
  (0 <= fst (Url.calculateRiskScore features) <= 100)%Q.
Proof.
  unfold Url.calculateRiskScore; simpl fst. split.
  - apply Qmin_nonneg; [discriminate|].
    nonneg_rules. apply Qle_refl.
  - apply Q.le_min_l.
Qed.

Lemma email_ruleScore_bounded features :
  (0 <= fst (Email.calculateEmailRiskScore features) <= 100)%Q.
Proof.
  unfold Email.calculateEmailRiskScore; simpl fst. split.
  - apply Qmin_nonneg; [discriminate|].
    nonneg_rules. apply Qle_refl.
  - apply Q.le_min_l.
Qed.

Lemma Math_round_bounds (a b : Z) (x : Q) :
  (inject_Z a <= x <= inject_Z b)%Q -> (a <= Math_round x <= b)%Z.
Proof.
  intros [Ha Hb]. unfold Math_round. split.
  - rewrite <- (Qfloor_Z a). apply Qfloor_resp_le.
    apply Qle_trans with x; [assumption|].
    rewrite <- (Qplus_0_r x) at 1. apply Qplus_le_compat;
      [apply Qle_refl | discriminate].
  - assert (H : (inject_Z (Qfloor (x + (1 # 2))) < inject_Z (b + 1))%Q).
    { eapply Qle_lt_trans; [apply Qfloor_le|].
      rewrite inject_Z_plus.
      apply Qle_lt_trans with (inject_Z b + (1 # 2))%Q.
      - apply Qplus_le_compat; [assumption | apply Qle_refl].
      - apply Qplus_lt_r. reflexivity. }
    rewrite <- Zlt_Qlt in H. lia.
Qed.

Lemma numOr_bounded (c : option Q) (d lo hi : Q) :
  (forall q, c = Some q -> (lo <= q <= hi)%Q) -> (lo <= d <= hi)%Q ->
  (lo <= numOr c d <= hi)%Q.
Proof.
  intros Hc Hd. unfold numOr. destruct c as [q|]; [|assumption].
  destruct (Qeq_bool q 0); [assumption | now apply Hc].
Qed.

(** With an oracle that keeps its confidence within 0..100, the email
    handler's confidence is within 0..100. *)
Lemma email_confidence_bounded env sender subject features a :
  (forall q, Email.confidence a = Some q -> (0 <= q <= 100)%Q) ->
  (0 <= Email.r_confidence (Email.respond env sender subject features a)
     <= 100)%Z.
Proof.
  intros Hq. unfold Email.respond.
  pose proof (email_ruleScore_bounded features) as Hr.
  destruct (Email.calculateEmailRiskScore features) as [r threats].
  simpl in Hr. simpl Email.r_confidence.
  assert (Hn : (0 <= numOr (Email.confidence a) 50 <= 100)%Q).
  { apply numOr_bounded; [assumption | lra]. }
  assert (Hc : (0 <= Email.combinedScoreOf r a <= 100)%Q).
  { unfold Email.combinedScoreOf, Email.aiScoreOf, Qdiv.
    change (/ 2)%Q with (1 # 2)%Q.
    destruct (Email.isPhishing a); lra. }
  apply Math_round_bounds. change (inject_Z 0) with 0%Q.
  change (inject_Z 100) with 100%Q.
  destruct (Verdict_eqb (resultOf (Email.combinedScoreOf r a)) safe).
  - lra.
  - split.
    + apply Q.min_glb; lra.
    + eapply Qle_trans; [apply Q.le_min_l | lra].
Qed.

(** The rule-based fallback of the URL handler reports 50..100. *)
Lemma url_fallback_confidence_bounded url features :
  (50 <= Url.r_confidence (Url.ruleBasedOnly url features) <= 100)%Q.
Proof.
  unfold Url.ruleBasedOnly.
  pose proof (url_ruleScore_bounded features) as Hr.
  destruct (Url.calculateRiskScore features) as [r threats].
  simpl in Hr. cbv [Url.r_confidence].
  pose proof (Qabs_nonneg (50 - r)) as H0.
  assert (H1 : (Qabs (50 - r) <= 50)%Q).
  { apply Qabs_Qle_condition. lra. }
  lra.
Qed.

(** The logo heuristic reports 8, 45 or a capped positive score. *)
Lemma logo_confidence_bounded new_URL input :
  1 <= Logo.probability (Logo.calcLogoHeuristic new_URL input) <= 95.
Proof.
  unfold Logo.calcLogoHeuristic.
  destruct (Logo.scored new_URL input) as [score issues].
  destruct (truthy (Logo.imageUrl input) &&
            Logo.hasSafeDomain new_URL (orEmpty (Logo.imageUrl input)) &&
            (score =? 0)); cbn [Logo.probability]; [lia|].
  destruct (score =? 0) eqn:E; cbn [Logo.probability]; [lia|].
  apply Nat.eqb_neq in E. lia.
Qed.

(** C2.  The URL handler can report a confidence above 100.  For
    [http://192.168.1.5/paypal-login-verify] the rule score is 60; an
    oracle answering "not phishing, confidence 20" gives the combined
    score 48, the verdict [suspicious], [finalConfidence = 48] and the
    reported confidence [100 - 48 + 50 = 102]. *)
Theorem url_confidence_exceeds_100 :
  exists r,
    Sample.serveUrl (Ex.urlEnv (OkContent (Object (Ex.says false 20))))
                    (Ex.post "http://192.168.1.5/paypal-login-verify")
      = Success r /\
    (Url.r_ruleBasedScore r == 60)%Q /\
    Url.r_combinedScore r = Some 48%Z /\
    Url.r_result r = suspicious /\
    (Url.r_confidence r == 102)%Q /\
    ~ (Url.r_confidence r <= 100)%Q.
Proof.
  eexists. split; [vm_compute; reflexivity|].
  refine (conj _ (conj _ (conj _ (conj _ _)))).
  - vm_compute. reflexivity.
  - reflexivity.
  - reflexivity.
  - vm_compute. reflexivity.
  - vm_compute. intros H. apply H. reflexivity.
Qed.

(* ================================================================= *)
(** ** When the oracle is of no help *)

Lemma neutral_signals :
  (Url.aiScoreOf Url.emptyAnalysis == 25)%Q /\
  (Url.aiScoreOf Url.unparsedAnalysis == 25)%Q /\
  (Email.aiScoreOf Email.defaultAnalysis == 25)%Q.
Proof. repeat split. Qed.

(** C3, the counterexample.  The gateway answers 200 with a content whose
    [{...}] part does not parse.  The classification completes, but not by
    the rule-based path: the neutral signal (25 on the oracle's axis) is
    blended in, the method tag stays ["hybrid-ai"], and the verdict
    differs from the one the rule score alone gives (60, [phishing]). *)
Lemma unparsable_reply_is_not_rule_based :
  exists r,
    Sample.serveUrl (Ex.urlEnv (OkContent Malformed))
                    (Ex.post "http://192.168.1.5/paypal-login-verify")
      = Success r /\
    Url.r_method r = "hybrid-ai" /\
    Url.r_aiScore r = Some 25%Z /\
    Url.r_combinedScore r = Some 39%Z /\
    Url.r_result r = suspicious /\
    resultOf (Url.r_ruleBasedScore r) = phishing.
Proof.
  eexists. split; [vm_compute; reflexivity|].
  refine (conj _ (conj _ (conj _ (conj _ _)))); reflexivity.
Qed.

(** A failure of the network itself is answered with status 500. *)
Example network_failure_is_an_error :
  Sample.serveUrl (Ex.urlEnv (Rejects (Some "error sending request")))
                  (Ex.post "http://192.168.1.5/paypal-login-verify")
  = Failure 500 "error sending request".
Proof. reflexivity. Qed.

Section Degraded.

Variable new_URL : URLParser.
Variable Math_log2 : Q -> Q.
Variable extractEmailFeatures : string -> string -> string -> Email.EmailFeatures.

Lemma truthy_Some s : s <> "" -> truthy (Some s) = true.
Proof.
  intros H. unfold truthy. destruct (String.eqb s "") eqn:E; [|reflexivity].
  apply String.eqb_eq in E. contradiction.
Qed.

(** C3, as the code has it.  A non-2xx answer of the gateway makes the URL
    handler return a complete result from the rule-based path alone,
    tagged ["rule-based"].  A 2xx answer whose content holds no JSON
    object, or one that does not parse, also yields a result and no
    error, but through the hybrid path with the neutral signal and the tag
    ["hybrid-ai"].  The email handler answers all three with the neutral
    signal under its one tag. *)
Theorem oracle_failure_modes :
  forall (env : Url.Env) (url : string)
         (eenv : Email.Env) (sender subject body : string),
    url <> "" -> truthy (Url.LOVABLE_API_KEY env) = true ->
    sender <> "" -> subject <> "" -> body <> "" ->
    truthy (Email.LOVABLE_API_KEY eenv) = true ->
    let features := Url.extractUrlFeatures new_URL Math_log2 url in
    let score := fst (Url.calculateRiskScore features) in
    let threats := snd (Url.calculateRiskScore features) in
    let reply := Url.serve new_URL Math_log2 env (Url.POST (Some (Some url))) in
    let ereply :=
      Email.serve extractEmailFeatures eenv
        (Email.POST (Some (Email.mkMessage (Some sender) (Some subject)
                                           (Some body)))) in
    ((exists status, Url.gateway env = NotOk status) ->
     exists r, reply = Success r /\
       Url.r_method r = "rule-based" /\
       Url.r_aiAnalysis r = None /\
       Url.r_aiScore r = None /\
       Url.r_combinedScore r = None /\
       Url.r_ruleBasedScore r = score /\
       Url.r_result r = resultOf score /\
       Url.r_threatIndicators r = threats /\
       Url.r_confidence r = (100 - Qabs (50 - score))%Q) /\
    (Url.gateway env = OkContent NoObject \/
     Url.gateway env = OkContent Malformed ->
     exists r a, reply = Success r /\
       (a = Url.emptyAnalysis \/ a = Url.unparsedAnalysis) /\
       Url.r_method r = "hybrid-ai" /\
       Url.r_aiAnalysis r = Some a /\
       Url.r_aiScore r = Some 25%Z /\
       Url.r_result r = resultOf (Url.combinedScoreOf score a)) /\
    ((exists status, Email.gateway eenv = NotOk status) \/
     Email.gateway eenv = OkContent NoObject \/
     Email.gateway eenv = OkContent Malformed ->
     exists r, ereply = Success r /\
       Email.r_method r = "hybrid-email-ai" /\
       Email.r_aiAnalysis r = Email.defaultAnalysis /\
       Email.r_aiScore r = 25%Z).
Proof.
  intros env url eenv sender subject body Hu Hk Hs Hj Hb Hek
         features score threats reply ereply.
  subst reply ereply. unfold Url.serve, Email.serve.
  rewrite (truthy_Some url Hu), Hk. cbn [negb orEmpty].
  cbn [Email.sender Email.subject Email.body].
  rewrite (truthy_Some sender Hs), (truthy_Some subject Hj),
          (truthy_Some body Hb), Hek. cbn [negb orb orEmpty].
  fold features.
  refine (conj _ (conj _ _)).
  - intros [status E]. rewrite E. eexists. split; [reflexivity|].
    subst score threats. unfold Url.ruleBasedOnly.
    destruct (Url.calculateRiskScore features) as [s t].
    repeat split.
  - intros [E | E]; rewrite E.
    + exists (Url.hybrid env url features Url.emptyAnalysis), Url.emptyAnalysis.
      split; [reflexivity|]. split; [now left|].
      rewrite url_hybrid_result. fold score.
      unfold Url.hybrid. destruct (Url.calculateRiskScore features).
      repeat split.
    + exists (Url.hybrid env url features Url.unparsedAnalysis),
             Url.unparsedAnalysis.
      split; [reflexivity|]. split; [now right|].
      rewrite url_hybrid_result. fold score.
      unfold Url.hybrid. destruct (Url.calculateRiskScore features).
      repeat split.
  - intros [[status E] | [E | E]]; rewrite E;
      (eexists; split; [reflexivity|]);
      unfold Email.respond;
      destruct (Email.calculateEmailRiskScore _);
      repeat split.
Qed.

End Degraded.

Lemma oracle_failure_modes_witness :
  (exists r,
     Sample.serveUrl (Ex.urlEnv (NotOk 503)) (Ex.post "https://example.xyz/")
       = Success r /\
     Url.r_method r = "rule-based" /\ Url.r_result r = safe) /\
  (exists r,
     Sample.serveUrl (Ex.urlEnv (OkContent NoObject))
                     (Ex.post "https://example.xyz/") = Success r /\
     Url.r_method r = "hybrid-ai" /\ Url.r_aiScore r = Some 25%Z).
Proof.
  assert (K : truthy (Some "key") = true) by reflexivity.
  assert (N : forall s, String.length s <> 0 -> s <> "").
  { intros s H E. subst s. now apply H. }
  split.
  - destruct (oracle_failure_modes Sample.new_URL Sample.log2
                (fun _ _ _ => Ex.plainEmail)
                (Ex.urlEnv (NotOk 503)) "https://example.xyz/"
                (Ex.emailEnv (NotOk 503)) "a@b.c" "s" "b")
      as [H _]; try (apply N; discriminate); try exact K.
    destruct H as (r & E & M & _ & _ & _ & S & R & _).
    + now exists 503.
    + exists r. refine (conj E (conj M _)). rewrite R. vm_compute. reflexivity.
  - destruct (oracle_failure_modes Sample.new_URL Sample.log2
                (fun _ _ _ => Ex.plainEmail)
                (Ex.urlEnv (OkContent NoObject)) "https://example.xyz/"
                (Ex.emailEnv (NotOk 503)) "a@b.c" "s" "b")
      as [_ [H _]]; try (apply N; discriminate); try exact K.
    destruct H as (r & a & E & _ & M & _ & S & _).
    + now left.
    + exists r. exact (conj E (conj M S)).
Defined.

(* ================================================================= *)
(** ** The logo heuristic: override, floor and the unknown verdict *)

Section LogoRules.

Variable new_URL : URLParser.

Lemma scored_no_rule input :
  Logo.hasPhishKeyword input = false -> Logo.isLocal input = false ->
  Logo.lowSignal input = false -> Logo.paypalMismatch new_URL input = false ->
  Logo.scored new_URL input = (0, []).
Proof.
  intros H1 H2 H3 H4. unfold Logo.scored. now rewrite H1, H2, H3, H4.
Qed.

Lemma scored_mismatch input :
  Logo.paypalMismatch new_URL input = true ->
  92 <= fst (Logo.scored new_URL input) /\
  In "PayPal brand on non-official source" (snd (Logo.scored new_URL input)).
Proof.
  intros H. unfold Logo.scored. rewrite H.
  cbn [fst snd]. split; [apply Nat.le_max_r|].
  apply in_or_app. right. now left.
Qed.

(** C1, as the code has it.  The override exists in the logo heuristic and
    for one brand: an image URL that contains "paypal" (in any case) while
    neither its host name contains "paypal" nor the URL contains
    "paypal.com" is [phishing] with a probability of at least 92 (and at
    most 95), whatever the other rules add and whatever else the request
    carries. *)
Theorem paypal_override :
  forall (env : Logo.Env) (input : Logo.Input) (url : string),
    Logo.imageUrl input = Some url -> url <> "" ->
    JS.includes (JS.toLowerCase url) "paypal" = true ->
    JS.includes (Logo.domainFromUrl new_URL url) "paypal" = false ->
    JS.includes url "paypal.com" = false ->
    let h := Logo.calcLogoHeuristic new_URL input in
    Logo.verdict h = phishing /\
    92 <= Logo.probability h <= 95 /\
    In "PayPal brand on non-official source" (Logo.issues h) /\
    Logo.detectedBrand h = Some "paypal" /\
    exists r, Logo.serve new_URL env (Logo.POST (Some input)) = Success r /\
              Logo.r_result r = phishing /\
              92 <= Logo.r_confidence r <= 95.
Proof.
  intros env input url Hi Hu Hp Hd Hc h.
  assert (Ht : truthy (Logo.imageUrl input) = true).
  { rewrite Hi. now apply truthy_Some. }
  assert (Hl : Logo.lowerUrl input = JS.toLowerCase url).
  { unfold Logo.lowerUrl, orElse. now rewrite Ht, Hi. }
  assert (Hlook : Logo.looksLikePaypal input = true).
  { unfold Logo.looksLikePaypal. now rewrite Hl. }
  assert (Hm : Logo.paypalMismatch new_URL input = true).
  { unfold Logo.paypalMismatch, Logo.hostedOnPaypal.
    rewrite Hlook, Ht, Hi. cbn [orEmpty]. now rewrite Hd, Hc. }
  destruct (scored_mismatch input Hm) as [Hs Hin].
  assert (Hh : Logo.verdict h = phishing /\ 92 <= Logo.probability h <= 95 /\
               In "PayPal brand on non-official source" (Logo.issues h) /\
               Logo.detectedBrand h = Some "paypal").
  { subst h. unfold Logo.calcLogoHeuristic.
    destruct (Logo.scored new_URL input) as [score issues].
    cbn [fst snd] in Hs, Hin.
    assert (E0 : (score =? 0) = false) by (apply Nat.eqb_neq; lia).
    rewrite E0, andb_false_r. cbn [Logo.verdict Logo.probability
      Logo.issues Logo.detectedBrand]. rewrite Hlook.
    assert (E1 : (30 <? Nat.min 95 score) = true) by (apply Nat.ltb_lt; lia).
    rewrite E1. repeat split; try assumption; lia. }
  destruct Hh as (Hv & Hb & Hiss & Hbrand).
  refine (conj Hv (conj Hb (conj Hiss (conj Hbrand _)))).
  unfold Logo.serve, orElse. rewrite Ht, Ht. cbn [negb].
  eexists. split; [reflexivity|].
  cbn [Logo.r_result Logo.r_confidence]. fold h. now split.
Qed.


(** C7, as the code has it.  In the logo heuristic an input for which no
    rule fires and that is not on a known-safe domain is [unknown]
    (probability 45).  An uploaded image -- [base64Image] given, no
    [imageUrl] -- is [unknown] as well, though by another road: the
    local-image rule fires, the score is 30, and only a probability above
    30 is [phishing]. *)
Theorem logo_unknown :
  forall (env : Logo.Env) (input : Logo.Input),
    let h := Logo.calcLogoHeuristic new_URL input in
    (Logo.hasPhishKeyword input = false -> Logo.isLocal input = false ->
     Logo.lowSignal input = false ->
     Logo.paypalMismatch new_URL input = false ->
     truthy (Logo.imageUrl input) &&
       Logo.hasSafeDomain new_URL (orEmpty (Logo.imageUrl input)) = false ->
     Logo.verdict h = unknown /\ Logo.probability h = 45) /\
    (truthy (Logo.imageUrl input) = false ->
     truthy (Logo.base64Image input) = true ->
     Logo.verdict h = unknown /\ Logo.probability h = 30 /\
     exists r, Logo.serve new_URL env (Logo.POST (Some input)) = Success r /\
               Logo.r_result r = unknown /\ Logo.r_confidence r = 30 /\
               Logo.r_imageUrl r = "base64-image").
Proof.
  intros env input h. split.
  - intros H1 H2 H3 H4 Hns. subst h. unfold Logo.calcLogoHeuristic.
    rewrite (scored_no_rule input H1 H2 H3 H4), Hns. cbn. now split.
  - intros Hi Hb.
    assert (Hh : Logo.verdict h = unknown /\ Logo.probability h = 30).
    { subst h. unfold Logo.calcLogoHeuristic, Logo.scored.
      unfold Logo.hasPhishKeyword, Logo.isLocal, Logo.lowSignal,
        Logo.paypalMismatch.
      rewrite Hi, Hb. cbn [andb orb]. rewrite andb_false_r.
      cbn. now split. }
    destruct Hh as [Hv Hp]. refine (conj Hv (conj Hp _)).
    unfold Logo.serve, orElse. rewrite Hi, Hb. cbn [negb].
    eexists. split; [reflexivity|].
    cbn [Logo.r_result Logo.r_confidence Logo.r_imageUrl]. fold h.
    now repeat split.
Qed.

End LogoRules.

Lemma nonempty (s : string) : String.length s <> 0 -> s <> "".
Proof. intros H E. subst s. now apply H. Qed.

(** C1, the counterexample.  [https://paypal.evil.example/] contains the
    brand keyword and its host is none of PayPal's domains.  The URL
    analyzer has no override: the keyword rule adds 8 points, an oracle
    that answers "not phishing" with confidence 100 brings the combined
    score to 3.2, and the verdict is [safe]. *)
Lemma url_brand_on_foreign_host_can_be_safe :
  let url := "https://paypal.evil.example/" in
  JS.includes (JS.toLowerCase url) "paypal" = true /\
  option_map hostname (Sample.new_URL url) = Some "paypal.evil.example" /\
  exists r,
    Sample.serveUrl (Ex.urlEnv (OkContent (Object (Ex.says false 100))))
                    (Ex.post url) = Success r /\
    (Url.r_ruleBasedScore r == 8)%Q /\
    Url.r_threatIndicators r = ["Phishing keywords detected: paypal"] /\
    Url.r_combinedScore r = Some 3%Z /\
    Url.r_result r = safe.
Proof.
  cbv zeta. refine (conj _ (conj _ _)); [reflexivity | reflexivity |].
  eexists. split; [vm_compute; reflexivity|].
  refine (conj _ (conj _ (conj _ _))); reflexivity.
Qed.

(** The same holds without the oracle, and in the logo heuristic for any
    brand other than PayPal. *)
Example brand_on_foreign_host_elsewhere :
  (exists r,
     Sample.serveUrl (Ex.urlEnv (NotOk 500))
                     (Ex.post "https://paypal.evil.example/") = Success r /\
     Url.r_result r = safe) /\
  Logo.verdict
    (Sample.calcLogoHeuristic
       (logoInput
          "https://cdn.example.org/assets/brands/netflix/logo-large-2x.png"))
  = unknown.
Proof.
  split; [|reflexivity].
  eexists. split; [vm_compute; reflexivity | reflexivity].
Qed.

Lemma paypal_override_witness :
  let h := Sample.calcLogoHeuristic
             (logoInput "https://evil.example/paypal-logo.png") in
  Logo.verdict h = phishing /\ 92 <= Logo.probability h <= 95.
Proof.
  destruct (paypal_override Sample.new_URL Ex.logoEnv
              (logoInput "https://evil.example/paypal-logo.png")
              "https://evil.example/paypal-logo.png")
    as (Hv & Hp & _); try reflexivity.
  - apply nonempty. discriminate.
  - exact (conj Hv Hp).
Defined.


(** C7, the counterexample.  [https://example.org/] triggers no rule of the
    URL scorer (score 0, no threat) and is on no list; with an oracle that
    answers "not phishing" the verdict is [safe].  The URL handler has no
    other verdict than the three of the thresholds. *)
Lemma url_without_signal_is_safe :
  exists r,
    Sample.serveUrl (Ex.urlEnv (OkContent (Object (Ex.says false 90))))
                    (Ex.post "https://example.org/") = Success r /\
    (Url.r_ruleBasedScore r == 0)%Q /\
    Url.r_threatIndicators r = [] /\
    Url.r_result r = safe /\
    Url.r_result r <> unknown.
Proof.
  eexists. split; [vm_compute; reflexivity|].
  refine (conj _ (conj _ (conj _ _))); try reflexivity. discriminate.
Qed.

Lemma url_verdict_never_unknown new_URL log2 env req r :
  Url.serve new_URL log2 env req = Success r -> Url.r_result r <> unknown.
Proof.
  unfold Url.serve. destruct req as [|[body|]]; try discriminate.
  destruct (negb (truthy body)); try discriminate.
  destruct (negb (truthy (Url.LOVABLE_API_KEY env))); try discriminate.
  destruct (Url.gateway env) as [e|st|e|[| |a]]; try discriminate;
    intros E; injection E as <-;
    rewrite ?url_hybrid_result, ?url_ruleBasedOnly_result;
    apply resultOf_never_unknown.
Qed.

Lemma logo_unknown_witness :
  (let h := Sample.calcLogoHeuristic
              (logoInput
                 "https://cdn.example.org/assets/brands/acme/logo-large-2x.png") in
   Logo.verdict h = unknown /\ Logo.probability h = 45) /\
  (let h := Sample.calcLogoHeuristic
              (upload "data:image/png;base64,iVBORw0KGgo=") in
   Logo.verdict h = unknown /\ Logo.probability h = 30).
Proof.
  split.
  - destruct (logo_unknown Sample.new_URL Ex.logoEnv
                (logoInput
                   "https://cdn.example.org/assets/brands/acme/logo-large-2x.png"))
      as [H _].
    apply H; reflexivity.
  - destruct (logo_unknown Sample.new_URL Ex.logoEnv
                (upload "data:image/png;base64,iVBORw0KGgo="))
      as [_ H].
    destruct H as (Hv & Hp & _); try reflexivity. exact (conj Hv Hp).
Defined.

(* ================================================================= *)
(** ** The list of threat indicators *)

Lemma among_nil (q : Q) : Among [] (snd (q, @nil string)).
Proof. split; [constructor | intros x []]. Qed.

Lemma rule_among cond points msg acc cands :
  Among cands (snd acc) -> ~ In msg cands ->
  Among (cands ++ [msg]) (snd (rule cond points msg acc)).
Proof.
  intros [Hnd Hin] Hm. unfold rule. destruct cond; cbn [snd].
  - split.
    + apply NoDup_app; [assumption | repeat constructor; intros [] |].
      intros x Hx [<- | []]. apply Hm, Hin, Hx.
    + intros x Hx. apply in_app_or in Hx. apply in_or_app.
      destruct Hx as [Hx | Hx]; [left; now apply Hin | now right].
  - split; [assumption|]. intros x Hx. apply in_or_app. left. now apply Hin.
Qed.

Ltac notin :=
  cbn [app In]; simpl String.append;
  repeat (let H := fresh in intros [H | H]; [discriminate H | revert H]);
  intros [].

Ltac among :=
  first [ eapply rule_among; [ among | notin ] | apply among_nil ].

Lemma url_threats_NoDup features :
  NoDup (snd (Url.calculateRiskScore features)).
Proof.
  unfold Url.calculateRiskScore. cbn [snd].
  generalize (JS.join ", " (JS.slice0 3 (Url.suspiciousKeywords features))).
  intros kw. eapply proj1. among.
Qed.

Lemma url_hybrid_indicators env url features a :
  Url.r_threatIndicators (Url.hybrid env url features a)
  = JS.newSet
      (Url.allThreatsOf (snd (Url.calculateRiskScore features)) a
         (resultOf
            (Url.combinedScoreOf (fst (Url.calculateRiskScore features)) a))).
Proof.
  unfold Url.hybrid. now destruct (Url.calculateRiskScore features).
Qed.

Lemma email_indicators env sender subject features a :
  Email.r_threatIndicators (Email.respond env sender subject features a)
  = JS.slice0 8
      (JS.newSet
         (Email.allThreatsOf (snd (Email.calculateEmailRiskScore features)) a
            (resultOf
               (Email.combinedScoreOf
                  (fst (Email.calculateEmailRiskScore features)) a)))).
Proof.
  unfold Email.respond. now destruct (Email.calculateEmailRiskScore features).
Qed.

(** C8, as the code has it.  Every list of indicators is free of
    duplicates and keeps the strings in the order of their first
    occurrence.  The email handler cuts the list to its first 8 entries;
    the URL handler and the logo handler return all of them. *)
Theorem threat_indicators_deduplicated :
  forall (new_URL : URLParser)
         (uenv : Url.Env) (url : string) (uf : Url.UrlFeatures)
         (ua : Url.AiAnalysis)
         (eenv : Email.Env) (sender subject : string)
         (ef : Email.EmailFeatures) (ea : Email.AiAnalysis)
         (lenv : Logo.Env) (input : Logo.Input),
    let uall :=
      Url.allThreatsOf (snd (Url.calculateRiskScore uf)) ua
        (Url.r_result (Url.hybrid uenv url uf ua)) in
    let eall :=
      Email.allThreatsOf (snd (Email.calculateEmailRiskScore ef)) ea
        (Email.r_result (Email.respond eenv sender subject ef ea)) in
    let uti := Url.r_threatIndicators (Url.hybrid uenv url uf ua) in
    let fti := Url.r_threatIndicators (Url.ruleBasedOnly url uf) in
    let eti :=
      Email.r_threatIndicators (Email.respond eenv sender subject ef ea) in
    (uti = keepFirst uall /\ NoDup uti) /\
    (fti = snd (Url.calculateRiskScore uf) /\ NoDup fti) /\
    (eti = firstn 8 (keepFirst eall) /\ NoDup eti /\ List.length eti <= 8) /\
    match Logo.serve new_URL lenv (Logo.POST (Some input)) with
    | Success lr =>
        Logo.r_threatIndicators lr
          = keepFirst (Logo.issues (Logo.calcLogoHeuristic new_URL input)) /\
        NoDup (Logo.r_threatIndicators lr)
    | _ => True
    end.
Proof.
  intros new_URL uenv url uf ua eenv sender subject ef ea lenv input
         uall eall uti fti eti.
  subst uall eall uti fti eti.
  rewrite url_hybrid_result, email_respond_result,
          url_hybrid_indicators, email_indicators.
  unfold JS.slice0. rewrite !newSet_keepFirst.
  refine (conj _ (conj _ (conj _ _))).
  - repeat split. apply keepFirst_NoDup.
  - unfold Url.ruleBasedOnly.
    pose proof (url_threats_NoDup uf) as H.
    destruct (Url.calculateRiskScore uf). now split.
  - repeat split.
    + apply NoDup_firstn, keepFirst_NoDup.
    + apply firstn_le_length.
  - unfold Logo.serve.
    destruct (negb (truthy (orElse (Logo.imageUrl input)
                                   (Logo.base64Image input))));
      [exact I|].
    cbn [Logo.r_threatIndicators].
    rewrite newSet_keepFirst. split; [reflexivity | apply keepFirst_NoDup].
Qed.

Lemma stars_length n : String.length (stars n) = n.
Proof. induction n; simpl; congruence. Qed.

Lemma stars_NoDup n : NoDup (map stars (seq 0 n)).
Proof.
  apply Injective_map_NoDup; [|apply seq_NoDup].
  intros a b E. rewrite <- (stars_length a), <- (stars_length b). now rewrite E.
Qed.

Lemma url_indicators_unbounded cap env url features :
  cap < List.length
          (Url.r_threatIndicators
             (Url.hybrid env url features (manyThreats (S cap)))).
Proof.
  rewrite url_hybrid_indicators. unfold Url.allThreatsOf.
  cbn [manyThreats Url.additionalThreats Url.reasoning truthy andb].
  set (many := map stars (seq 0 (S cap))).
  assert (L : List.length many = S cap).
  { subst many. now rewrite length_map, length_seq. }
  assert (I : incl many
                (JS.newSet (snd (Url.calculateRiskScore features) ++ many))).
  { intros x Hx. apply newSet_In, in_or_app. now right. }
  pose proof (NoDup_incl_length (stars_NoDup (S cap)) I) as H.
  fold many in H. lia.
Qed.

(** C8, the counterexample.  Nine threats named by the oracle for
    [https://example.org/] all come back: the URL handler has no cap, and
    for every bound some reply exceeds it.  The email handler returns 8
    of the same nine. *)
Lemma url_indicators_are_not_truncated :
  (exists r,
     Sample.serveUrl (Ex.urlEnv (OkContent (Object (manyThreats 9))))
                     (Ex.post "https://example.org/") = Success r /\
     List.length (Url.r_threatIndicators r) = 9) /\
  List.length
    (Email.r_threatIndicators
       (Email.respond (Ex.emailEnv (NotOk 0)) "a@b.c" "s" Ex.plainEmail
          {| Email.isPhishing := false; Email.confidence := None;
             Email.reasoning := None;
             Email.tactics := Some (map stars (seq 0 9));
             Email.redFlags := None |})) = 8 /\
  (forall cap : nat, exists a : Url.AiAnalysis,
     forall env url features,
       cap < List.length
               (Url.r_threatIndicators (Url.hybrid env url features a))).
Proof.
  refine (conj _ (conj _ _)).
  - eexists. split; [vm_compute; reflexivity | reflexivity].
  - vm_compute. reflexivity.
  - intros cap. exists (manyThreats (S cap)). intros env url features.
    apply url_indicators_unbounded.
Qed.

(* ================================================================= *)
(** ** Feature extraction *)

(** C9, the counterexample.  On the empty string the digit ratio is the
    quotient [0 / 0], which is [NaN] and not 0.  (The parse of
    ["https://"] throws, so this is the fallback branch; the other branch
    computes the ratio by the same expression.) *)
Lemma digit_ratio_of_empty_string_is_NaN :
  Sample.new_URL "https://" = None /\
  Url.length (Sample.extractUrlFeatures "") = 0 /\
  Url.digitRatio (Sample.extractUrlFeatures "") = NaN /\
  Url.digitRatio (Sample.extractUrlFeatures "") <> Num 0.
Proof.
  refine (conj _ (conj _ (conj _ _))); try reflexivity. discriminate.
Qed.

(** The handler never passes the empty string on. *)
Lemma url_empty_is_rejected new_URL log2 env :
  Url.serve new_URL log2 env (Url.POST (Some (Some "")))
  = Failure 400 "URL is required".
Proof. reflexivity. Qed.

Lemma divLengths_positive a b :
  b <> 0 -> divLengths a b = Num (Z.of_nat a # Pos.of_nat b).
Proof. destruct b; [congruence | reflexivity]. Qed.

Lemma length_nonzero (s : string) : s <> "" -> String.length s <> 0.
Proof. destruct s; [congruence | discriminate]. Qed.

(** C9, as the code has it.  Extraction returns a record for every string
    and every behaviour of the parser.  When the parser throws, the
    lexical and statistical fields are computed from the raw string and
    the structural ones are 0 and [false].  In both branches the digit
    ratio of a non-empty string is its digit count over its length. *)
Theorem extraction_is_total :
  forall (new_URL : URLParser) (Math_log2 : Q -> Q) (url : string),
    let f := Url.extractUrlFeatures new_URL Math_log2 url in
    let lower := JS.toLowerCase url in
    (new_URL (if JS.startsWith url "http" then url
              else ("https://" ++ url)%string) = None ->
     Url.domainLength f = 0 /\
     Url.numSubdomains f = 0 /\
     Url.hasPortNumber f = false /\
     Url.pathLength f = 0 /\
     Url.queryLength f = 0 /\
     Url.hasHttps f = false /\
     Url.hasIpAddress f = JS.test Url.ipPattern url /\
     Url.hasSuspiciousTld f
       = existsb (fun tld => JS.includes lower tld) Url.suspiciousTlds /\
     Url.hasSuspiciousKeywords f
       = existsb (fun kw => JS.includes lower kw) Url.suspiciousKeywordList /\
     Url.consonantRatio f = Url.calculateConsonantRatio url) /\
    Url.length f = String.length url /\
    Url.numDots f = JS.countChars (JS.isChar ".") url /\
    Url.numHyphens f = JS.countChars (JS.isChar "-") url /\
    Url.numUnderscores f = JS.countChars (JS.isChar "_") url /\
    Url.numSlashes f = JS.countChars (JS.isChar "/") url /\
    Url.numAtSymbols f = JS.countChars (JS.isChar "@") url /\
    Url.numDigits f = JS.countChars JS.isDigit url /\
    Url.hasEncodedChars f = JS.test Url.encodedPattern url /\
    Url.suspiciousKeywords f
      = filter (fun kw => JS.includes lower kw) Url.suspiciousKeywordList /\
    Url.entropy f = Url.calculateEntropy Math_log2 url /\
    (url <> "" ->
     Url.digitRatio f
       = Num (Z.of_nat (Url.numDigits f) # Pos.of_nat (String.length url))).
Proof.
  intros new_URL Math_log2 url f lower. subst f lower.
  unfold Url.extractUrlFeatures, Url.foundKeywords.
  assert (R : url <> "" ->
              divLengths (JS.countChars JS.isDigit url) (String.length url)
              = Num (Z.of_nat (JS.countChars JS.isDigit url)
                     # Pos.of_nat (String.length url))).
  { intros H. apply divLengths_positive. now apply length_nonzero. }
  destruct (new_URL (if JS.startsWith url "http" then url
                     else ("https://" ++ url)%string)) as [u|];
    cbv beta iota zeta delta
      [Url.length Url.numDots Url.numHyphens Url.numUnderscores
       Url.numSlashes Url.numDigits Url.numAtSymbols Url.hasHttps
       Url.hasIpAddress Url.hasSuspiciousTld Url.hasSuspiciousKeywords
       Url.hasEncodedChars Url.domainLength Url.pathLength Url.queryLength
       Url.numSubdomains Url.hasPortNumber Url.suspiciousKeywords
       Url.entropy Url.consonantRatio Url.digitRatio].
  - split; [discriminate|].
    repeat (split; [reflexivity|]). exact R.
  - split.
    + intros _. repeat (split; [reflexivity|]). reflexivity.
    + repeat (split; [reflexivity|]). exact R.
Qed.

Lemma extraction_is_total_witness :
  let f := Sample.extractUrlFeatures "no url 2026!" in
  Url.domainLength f = 0 /\ Url.numSubdomains f = 0 /\
  Url.hasPortNumber f = false /\
  Url.digitRatio f = Num (4 # 12).
Proof.
  cbv zeta. unfold Sample.extractUrlFeatures.
  destruct (extraction_is_total Sample.new_URL Sample.log2
              "no url 2026!")
    as (Hfail & _ & _ & _ & _ & _ & _ & _ & _ & _ & _ & Hratio).
  destruct Hfail as (Hd & Hs & Hp & _); [reflexivity|].
  refine (conj Hd (conj Hs (conj Hp _))).
  rewrite Hratio by (apply nonempty; discriminate).
  vm_compute. reflexivity.
Defined.

(* ================================================================= *)
(** ** The integrity tag *)

Lemma allChars_app p a b :
  allChars p (a ++ b)%string = allChars p a && allChars p b.
Proof.
  induction a as [|c a IH]; simpl; [reflexivity|].
  now rewrite IH, andb_assoc.
Qed.

Lemma length_append (a b : string) :
  String.length (a ++ b)%string = String.length a + String.length b.
Proof. induction a as [|c a IH]; simpl; congruence. Qed.

Lemma hex_pair (b : Byte.byte) :
  String.length (padStart2 (toString16 b)) = 2 /\
  allChars isLowerHex (padStart2 (toString16 b)) = true.
Proof. destruct b; split; reflexivity. Qed.

Lemma join_hex_pairs (bytes : list Byte.byte) :
  let hex := JS.join "" (map (fun b => padStart2 (toString16 b)) bytes) in
  String.length hex = 2 * List.length bytes /\
  allChars isLowerHex hex = true.
Proof.
  induction bytes as [|b rest IH]; [split; reflexivity|].
  cbv zeta in *. destruct IH as [IHl IHc].
  destruct (hex_pair b) as [Hl Hc].
  cbn [map List.length]. 
  assert (E : JS.join "" (padStart2 (toString16 b)
                          :: map (fun b => padStart2 (toString16 b)) rest)
              = (padStart2 (toString16 b)
                 ++ JS.join "" (map (fun b => padStart2 (toString16 b)) rest))%string).
  { destruct rest as [|b' rest']; cbn [map JS.join].
    - clear. induction (padStart2 (toString16 b)); simpl; congruence.
    - reflexivity. }
  rewrite E. split.
  - rewrite length_append, Hl, IHl. lia.
  - now rewrite allChars_app, Hc, IHc.
Qed.

(** Whatever the generator returns, the tag is ["0x"] followed by 64
    lower-case hexadecimal digits. *)
Lemma blockchainHash_format (random : nat -> Byte.byte) :
  exists hex,
    blockchainHashOf random = ("0x" ++ hex)%string /\
    String.length hex = 64 /\
    allChars isLowerHex hex = true.
Proof.
  unfold blockchainHashOf. eexists. split; [reflexivity|].
  destruct (join_hex_pairs (getRandomValues random 32)) as [Hl Hc].
  split; [|exact Hc]. rewrite Hl. unfold getRandomValues.
  now rewrite length_map, length_seq.
Qed.

(** The results of the hybrid path, of the email handler and of the logo
    handler carry the tag. *)
Lemma tagged_results new_URL env url features a
      eenv sender subject ef ea lenv input :
  Url.r_blockchainHash (Url.hybrid env url features a)
    = Some (blockchainHashOf (Url.random env)) /\
  Email.r_blockchainHash (Email.respond eenv sender subject ef ea)
    = blockchainHashOf (Email.random eenv) /\
  match Logo.serve new_URL lenv (Logo.POST (Some input)) with
  | Success r => Logo.r_blockchainHash r = blockchainHashOf (Logo.random lenv)
  | _ => True
  end.
Proof.
  refine (conj _ (conj _ _)).
  - unfold Url.hybrid. now destruct (Url.calculateRiskScore features).
  - unfold Email.respond. now destruct (Email.calculateEmailRiskScore ef).
  - unfold Logo.serve.
    now destruct (negb (truthy (orElse (Logo.imageUrl input)
                                       (Logo.base64Image input)))).
Qed.

(** The rule-based fallback never carries one. *)
Lemma fallback_untagged new_URL log2 env url status :
  url <> "" -> truthy (Url.LOVABLE_API_KEY env) = true ->
  Url.gateway env = NotOk status ->
  exists r,
    Url.serve new_URL log2 env (Url.POST (Some (Some url))) = Success r /\
    Url.r_blockchainHash r = None /\ Url.r_timestamp r = None.
Proof.
  intros Hu Hk Hg. unfold Url.serve.
  rewrite (truthy_Some url Hu), Hk, Hg. cbn [negb].
  eexists. split; [reflexivity|].
  unfold Url.ruleBasedOnly. destruct (Url.calculateRiskScore _). now split.
Qed.

(** C10.  When the gateway answers 500 for [https://example.org/], the
    handler succeeds with the rule-based result, and that result has
    neither an integrity tag nor a timestamp; the same URL through the
    hybrid path is tagged. *)
Theorem degraded_result_has_no_integrity_tag :
  (exists r,
     Sample.serveUrl (Ex.urlEnv (NotOk 500)) (Ex.post "https://example.org/")
       = Success r /\
     Url.r_method r = "rule-based" /\
     Url.r_result r = safe /\
     Url.r_blockchainHash r = None /\
     Url.r_timestamp r = None) /\
  (exists r,
     Sample.serveUrl (Ex.urlEnv (OkContent (Object (Ex.says false 90))))
                     (Ex.post "https://example.org/") = Success r /\
     Url.r_method r = "hybrid-ai" /\
     Url.r_blockchainHash r
       = Some "0x0000000000000000000000000000000000000000000000000000000000000000").
Proof.
  split; eexists; (split; [vm_compute; reflexivity|]); repeat split.
Qed.

(* ================================================================= *)
(** ** More on the URL scorer *)

Lemma charged_rule cond points msg acc :
  (cond = true -> (0 < points)%Q) -> Charged acc ->
  Charged (rule cond points msg acc).
Proof.
  intros Hp [H0 Hz]. unfold rule. destruct cond; [|now split].
  specialize (Hp eq_refl). unfold Charged. cbn [fst snd].
  split; [lra|]. split.
  - intros E. lra.
  - intros E. now destruct (snd acc).
Qed.

Lemma charged_cap acc :
  Charged acc -> ((Qmin 100 (fst acc) == 0)%Q <-> snd acc = []).
Proof.
  intros [H0 Hz]. rewrite <- Hz. split; intros E.
  - destruct (Q.min_spec 100 (fst acc)) as [[_ M] | [_ M]];
      rewrite M in E; [discriminate E | exact E].
  - rewrite E. reflexivity.
Qed.

Lemma ofNat_pos n : 0 < n -> (0 < ofNat n)%Q.
Proof. intros H. unfold ofNat, Qlt. simpl. lia. Qed.

Lemma ofNat_minus_pos n k :
  (k <? n) = true -> (0 < ofNat n - inject_Z (Z.of_nat k))%Q.
Proof.
  intros H. apply Nat.ltb_lt in H.
  unfold ofNat, Qlt, Qminus, Qplus, Qopp, inject_Z. simpl. lia.
Qed.

Lemma Qmin_pos a b : (0 < a)%Q -> (0 < b)%Q -> (0 < Qmin a b)%Q.
Proof. intros. apply Q.min_glb_lt; assumption. Qed.

Ltac pts_pos :=
  first [ reflexivity
        | apply Qmin_pos; pts_pos
        | apply Qmult_lt_0_compat; pts_pos
        | apply Qlt_shift_div_l; [reflexivity | rewrite Qmult_0_l]; pts_pos
        | first [ apply (ofNat_minus_pos _ 100)
                | apply (ofNat_minus_pos _ 3) ]; assumption ].

Lemma url_score_zero_iff features :
  (Url.hasSuspiciousKeywords features = true ->
   Url.suspiciousKeywords features <> []) ->
  ((fst (Url.calculateRiskScore features) == 0)%Q <->
   snd (Url.calculateRiskScore features) = []).
Proof.
  intros Hk. unfold Url.calculateRiskScore. cbv zeta. cbn [fst snd].
  apply charged_cap.
  repeat (apply charged_rule;
          [ let Hc := fresh "Hc" in intros Hc; try pts_pos | ]).
  - apply Qmin_pos; [reflexivity|]. apply ofNat_pos.
    specialize (Hk Hc). destruct (Url.suspiciousKeywords features);
      [congruence | simpl; lia].
  - split; [apply Qle_refl | split; reflexivity].
Qed.

Lemma existsb_filter {A} (p : A -> bool) l :
  existsb p l = true <-> filter p l <> [].
Proof.
  induction l as [|x l IH]; simpl.
  - split; [discriminate | congruence].
  - destruct (p x); simpl; [split; [discriminate | reflexivity] | exact IH].
Qed.

Lemma extracted_keywords_consistent new_URL log2 url :
  let f := Url.extractUrlFeatures new_URL log2 url in
  Url.hasSuspiciousKeywords f = true <-> Url.suspiciousKeywords f <> [].
Proof.
  cbv zeta. unfold Url.extractUrlFeatures, Url.foundKeywords.
  destruct (new_URL _);
    cbv beta iota delta [Url.hasSuspiciousKeywords Url.suspiciousKeywords].
  - rewrite Nat.ltb_lt.
    destruct (filter _ Url.suspiciousKeywordList); simpl; split;
      try congruence; try lia.
  - apply existsb_filter.
Qed.

(** Every threat the URL scorer reports has cost points, and every point
    comes with a threat: for the features extracted from any string, the
    rule score is 0 exactly when the list of threats is empty. *)
Theorem url_score_zero_iff_no_threat :
  forall (new_URL : URLParser) (Math_log2 : Q -> Q) (url : string),
    let scored :=
      Url.calculateRiskScore (Url.extractUrlFeatures new_URL Math_log2 url) in
    (fst scored == 0)%Q <-> snd scored = [].
Proof.
  intros new_URL Math_log2 url scored. subst scored.
  apply url_score_zero_iff.
  apply (extracted_keywords_consistent new_URL Math_log2 url).
Qed.

Lemma url_threats_few features :
  List.length (snd (Url.calculateRiskScore features)) <= 12.
Proof.
  unfold Url.calculateRiskScore. cbn [snd].
  generalize (JS.join ", " (JS.slice0 3 (Url.suspiciousKeywords features))).
  intros kw.
  match goal with
  | |- List.length ?t <= 12 =>
      assert (H : exists cands, Among cands t /\ List.length cands = 12)
  end.
  { eexists. split; [among | reflexivity]. }
  destruct H as (cands & [Hnd Hincl] & L).
  apply Nat.le_trans with (List.length cands); [|now rewrite L].
  apply NoDup_incl_length; assumption.
Qed.

(** The URL scorer returns a score between 0 and 100 and at most twelve
    threats, no two of them equal, for every feature record. *)
Theorem url_score_and_threats_bounded :
  forall features : Url.UrlFeatures,
    (0 <= fst (Url.calculateRiskScore features) <= 100)%Q /\
    NoDup (snd (Url.calculateRiskScore features)) /\
    List.length (snd (Url.calculateRiskScore features)) <= 12.
Proof.
  intros features.
  refine (conj (url_ruleScore_bounded features)
               (conj (url_threats_NoDup features) (url_threats_few features))).
Qed.

Lemma count_occ_filter (p : string -> bool) (l : list string) (x : string) :
  count_occ string_dec (filter p l) x
  = if p x then count_occ string_dec l x else 0.
Proof.
  induction l as [|y l IH]; simpl; [now destruct (p x)|].
  destruct (p y) eqn:Py; simpl; destruct (string_dec y x) as [->|N].
  - now rewrite IH, Py.
  - exact IH.
  - now rewrite IH, Py.
  - exact IH.
Qed.

Lemma rule_fst_ge cond points msg acc lo :
  (cond = true -> (0 <= points)%Q) -> (lo <= fst acc)%Q ->
  (lo <= fst (rule cond points msg acc))%Q.
Proof.
  intros Hp Ha. unfold rule. destruct cond; [|assumption].
  specialize (Hp eq_refl). cbn [fst]. lra.
Qed.

Lemma rule_fst_charge points msg acc lo :
  (lo <= points)%Q -> (0 <= fst acc)%Q ->
  (lo <= fst (rule true points msg acc))%Q.
Proof. intros Hp Ha. unfold rule. cbn [fst]. lra. Qed.

Lemma extracted_keywords new_URL log2 url :
  Url.suspiciousKeywords (Url.extractUrlFeatures new_URL log2 url)
  = Url.foundKeywords url.
Proof.
  unfold Url.extractUrlFeatures. now destruct (new_URL _).
Qed.

(** The keyword "verify" stands twice in the scorer's dictionary: every
    URL that contains it (in any case) is charged for two keywords, so its
    rule score is at least 16. *)
Theorem verify_is_counted_twice :
  forall (new_URL : URLParser) (Math_log2 : Q -> Q) (url : string),
    JS.includes (JS.toLowerCase url) "verify" = true ->
    let f := Url.extractUrlFeatures new_URL Math_log2 url in
    count_occ string_dec (Url.suspiciousKeywords f) "verify" = 2 /\
    Url.hasSuspiciousKeywords f = true /\
    (16 <= fst (Url.calculateRiskScore f))%Q.
Proof.
  intros new_URL Math_log2 url Hv f.
  assert (C : count_occ string_dec (Url.suspiciousKeywords f) "verify" = 2).
  { subst f. rewrite extracted_keywords. unfold Url.foundKeywords.
    rewrite count_occ_filter, Hv. reflexivity. }
  assert (N : 2 <= List.length (Url.suspiciousKeywords f)).
  { rewrite <- C. apply count_occ_bound. }
  assert (K : Url.hasSuspiciousKeywords f = true).
  { apply (extracted_keywords_consistent new_URL Math_log2 url).
    fold f. destruct (Url.suspiciousKeywords f); [simpl in N; lia | congruence]. }
  refine (conj C (conj K _)).
  unfold Url.calculateRiskScore. cbv zeta. cbn [fst]. rewrite K.
  apply Q.min_glb; [discriminate|].
  do 8 (apply rule_fst_ge; [ intros ?Hc; pts_nonneg | ]).
  apply rule_fst_charge.
  - apply Q.min_glb; [discriminate|].
    unfold ofNat, Qle. simpl. lia.
  - nonneg_rules. apply Qle_refl.
Qed.

Lemma verify_is_counted_twice_witness :
  let f := Sample.extractUrlFeatures "https://example.org/Verify" in
  Url.suspiciousKeywords f = ["verify"; "verify"] /\
  (16 <= fst (Url.calculateRiskScore f))%Q.
Proof.
  cbv zeta. unfold Sample.extractUrlFeatures.
  destruct (verify_is_counted_twice Sample.new_URL Sample.log2
              "https://example.org/Verify") as (_ & _ & H);
    [reflexivity|].
  split; [vm_compute; reflexivity | exact H].
Defined.

Lemma countChars_le p s : JS.countChars p s <= String.length s.
Proof.
  induction s as [|c s IH]; simpl; [lia|]. destruct (p c); lia.
Qed.

Lemma countChars_mono (p q : ascii -> bool) s :
  (forall c, p c = true -> q c = true) ->
  JS.countChars p s <= JS.countChars q s.
Proof.
  intros H. induction s as [|c s IH]; simpl; [lia|].
  destruct (p c) eqn:P; [rewrite (H c P); lia | destruct (q c); lia].
Qed.

Lemma ratio_in_unit (a b : nat) :
  a <= b -> 0 < b -> (0 <= Z.of_nat a # Pos.of_nat b <= 1)%Q.
Proof.
  intros Hab Hb. unfold Qle. cbn [Qnum Qden].
  assert (E : Z.pos (Pos.of_nat b) = Z.of_nat b).
  { rewrite <- positive_nat_Z, Nat2Pos.id by lia. reflexivity. }
  rewrite E. split; lia.
Qed.

(** The counts of the URL features never exceed the length of the string,
    and the digit ratio is a number between 0 and 1 for every non-empty
    string; it is not a number for the empty one only, and never
    infinite. *)
Theorem url_counts_within_length :
  forall (new_URL : URLParser) (Math_log2 : Q -> Q) (url : string),
    let f := Url.extractUrlFeatures new_URL Math_log2 url in
    Url.numDots f <= Url.length f /\
    Url.numHyphens f <= Url.length f /\
    Url.numUnderscores f <= Url.length f /\
    Url.numSlashes f <= Url.length f /\
    Url.numDigits f <= Url.length f /\
    Url.numAtSymbols f <= Url.length f /\
    match Url.digitRatio f with
    | Num q => url <> "" /\ (0 <= q <= 1)%Q
    | NaN => url = ""
    | Infinity => False
    end.
Proof.
  intros new_URL Math_log2 url f.
  assert (R : match divLengths (JS.countChars JS.isDigit url)
                               (String.length url) with
              | Num q => url <> "" /\ (0 <= q <= 1)%Q
              | NaN => url = ""
              | Infinity => False
              end).
  { pose proof (countChars_le JS.isDigit url) as Hd.
    destruct url as [|c rest].
    - reflexivity.
    - cbn [divLengths String.length]. split; [discriminate|].
      apply ratio_in_unit; [exact Hd | simpl; lia]. }
  subst f. unfold Url.extractUrlFeatures.
  destruct (new_URL _);
    cbv beta iota zeta delta
      [Url.length Url.numDots Url.numHyphens Url.numUnderscores
       Url.numSlashes Url.numDigits Url.numAtSymbols Url.digitRatio];
    repeat (split; [apply countChars_le|]); exact R.
Qed.

Lemma consonant_is_letter c :
  Url.isConsonant c = true -> Url.isLetter c = true.
Proof.
  destruct c as [[] [] [] [] [] [] [] []]; vm_compute; congruence.
Qed.

(** The consonant ratio is a number between 0 and 1, and 0 for a string
    without letters: the quotient is never taken with a zero divisor. *)
Theorem consonant_ratio_in_unit_interval :
  forall str : string,
    (0 <= Url.calculateConsonantRatio str <= 1)%Q /\
    (JS.countChars Url.isLetter str = 0 ->
     Url.calculateConsonantRatio str = 0%Q).
Proof.
  intros str. unfold Url.calculateConsonantRatio.
  destruct (0 <? JS.countChars Url.isLetter str) eqn:E.
  - apply Nat.ltb_lt in E. split; [|lia].
    apply ratio_in_unit; [|exact E].
    apply countChars_mono, consonant_is_letter.
  - split; [split; discriminate | reflexivity].
Qed.

(* ================================================================= *)
(** ** The frequency table and the entropy *)

Lemma bump_key_inv c k freq :
  In k (map fst (Url.bump c freq)) -> k = c \/ In k (map fst freq).
Proof.
  induction freq as [|[k' n] rest IH]; simpl.
  - intros [<- | []]. now left.
  - destruct (Ascii.eqb k' c); simpl.
    + intros H. now right.
    + intros [<- | H]; [right; now left|].
      destruct (IH H) as [-> | H']; [now left | right; now right].
Qed.

Lemma bump_keys c freq :
  NoDup (map fst freq) -> NoDup (map fst (Url.bump c freq)).
Proof.
  induction freq as [|[k n] rest IH]; simpl; intros H.
  - constructor; [intros [] | constructor].
  - inversion H as [|? ? Hk Hrest]; subst.
    destruct (Ascii.eqb k c) eqn:E; simpl.
    + now constructor.
    + constructor; [|now apply IH].
      intros Hin. apply bump_key_inv in Hin. destruct Hin as [-> | Hin].
      * rewrite Ascii.eqb_refl in E. discriminate.
      * contradiction.
Qed.

Lemma frequencies_keys str :
  forall freq, NoDup (map fst freq) ->
               NoDup (map fst (Url.frequencies str freq)).
Proof.
  induction str as [|c rest IH]; simpl; intros freq H; [assumption|].
  apply IH, bump_keys, H.
Qed.

Lemma bump_pos c freq :
  Forall (fun kv => 1 <= snd kv) freq ->
  Forall (fun kv => 1 <= snd kv) (Url.bump c freq).
Proof.
  induction freq as [|[k n] rest IH]; simpl; intros H.
  - repeat constructor.
  - inversion H as [|? ? Hn Hrest]; subst. simpl in Hn.
    destruct (Ascii.eqb k c); constructor; simpl; auto; lia.
Qed.

Lemma frequencies_pos str :
  forall freq, Forall (fun kv => 1 <= snd kv) freq ->
               Forall (fun kv => 1 <= snd kv) (Url.frequencies str freq).
Proof.
  induction str as [|c rest IH]; simpl; intros freq H; [assumption|].
  apply IH, bump_pos, H.
Qed.

Lemma bump_total c freq :
  list_sum (map snd (Url.bump c freq)) = S (list_sum (map snd freq)).
Proof.
  induction freq as [|[k n] rest IH]; simpl; [reflexivity|].
  destruct (Ascii.eqb k c); simpl; lia.
Qed.

Lemma frequencies_total str :
  forall freq,
    list_sum (map snd (Url.frequencies str freq))
    = String.length str + list_sum (map snd freq).
Proof.
  induction str as [|c rest IH]; simpl; intros freq; [reflexivity|].
  rewrite IH, bump_total. lia.
Qed.

Lemma bump_count c c' freq :
  list_sum (map snd (filter (fun kv => Ascii.eqb (fst kv) c)
                            (Url.bump c' freq)))
  = list_sum (map snd (filter (fun kv => Ascii.eqb (fst kv) c) freq))
    + (if JS.isChar c c' then 1 else 0).
Proof.
  unfold JS.isChar.
  induction freq as [|[k n] rest IH]; simpl.
  - rewrite (Ascii.eqb_sym c' c). destruct (Ascii.eqb c c'); reflexivity.
  - destruct (Ascii.eqb k c') eqn:E; simpl.
    + apply Ascii.eqb_eq in E. subst k. rewrite (Ascii.eqb_sym c' c).
      destruct (Ascii.eqb c c'); simpl; lia.
    + destruct (Ascii.eqb k c); simpl; rewrite IH; lia.
Qed.

Lemma frequencies_count c str :
  forall freq,
    list_sum (map snd (filter (fun kv => Ascii.eqb (fst kv) c)
                              (Url.frequencies str freq)))
    = list_sum (map snd (filter (fun kv => Ascii.eqb (fst kv) c) freq))
      + JS.countChars (JS.isChar c) str.
Proof.
  induction str as [|c' rest IH]; simpl; intros freq; [lia|].
  rewrite IH, bump_count. lia.
Qed.

Lemma count_of_entry c n (freq : list (ascii * nat)) :
  NoDup (map fst freq) -> In (c, n) freq ->
  list_sum (map snd (filter (fun kv => Ascii.eqb (fst kv) c) freq)) = n.
Proof.
  induction freq as [|[k m] rest IH]; simpl; intros Hnd Hin; [contradiction|].
  inversion Hnd as [|? ? Hk Hrest]; subst.
  destruct Hin as [E | Hin].
  - injection E as -> ->. rewrite Ascii.eqb_refl. simpl.
    assert (Z0 : forall l : list (ascii * nat),
               ~ In c (map fst l) ->
               filter (fun kv => Ascii.eqb (fst kv) c) l = []).
    { induction l as [|[k' m'] l IHl]; simpl; intros Hn; [reflexivity|].
      destruct (Ascii.eqb k' c) eqn:E.
      - apply Ascii.eqb_eq in E. subst. exfalso. apply Hn. now left.
      - apply IHl. intros H. apply Hn. now right. }
    rewrite (Z0 rest Hk). simpl. lia.
  - destruct (Ascii.eqb k c) eqn:E.
    + apply Ascii.eqb_eq in E. subst k. exfalso. apply Hk.
      apply (in_map fst) in Hin. exact Hin.
    + now apply IH.
Qed.

Lemma frequencies_entry str c n :
  In (c, n) (Url.frequencies str []) ->
  1 <= n /\ n = JS.countChars (JS.isChar c) str.
Proof.
  intros Hin. split.
  - pose proof (frequencies_pos str [] (Forall_nil _)) as P.
    rewrite Forall_forall in P. apply (P _ Hin).
  - pose proof (frequencies_keys str [] (NoDup_nil _)) as K.
    rewrite <- (count_of_entry c n _ K Hin), frequencies_count.
    reflexivity.
Qed.

Lemma counted_has_entry c (freq : list (ascii * nat)) :
  0 < list_sum (map snd (filter (fun kv => Ascii.eqb (fst kv) c) freq)) ->
  In c (map fst freq).
Proof.
  induction freq as [|[k n] rest IH]; cbn [filter fst]; [cbn; lia|].
  destruct (Ascii.eqb k c) eqn:E.
  - intros _. apply Ascii.eqb_eq in E. subst k. now left.
  - intros H. right. apply IH, H.
Qed.

(** The frequency table built by the entropy function has exactly one
    entry for each character that occurs in the string.  The entry holds
    the number of occurrences of its character, which is at least 1 and at
    most the length of the string, so that every probability lies in
    (0, 1]. *)
Theorem frequency_table_counts_occurrences :
  forall str : string,
    NoDup (map fst (Url.frequencies str [])) /\
    (forall c n, In (c, n) (Url.frequencies str []) ->
                 1 <= n <= String.length str /\
                 n = JS.countChars (JS.isChar c) str) /\
    (forall c, 0 < JS.countChars (JS.isChar c) str ->
               In c (map fst (Url.frequencies str []))).
Proof.
  intros str.
  refine (conj _ (conj _ _)).
  - apply frequencies_keys. constructor.
  - intros c n Hin. destruct (frequencies_entry str c n Hin) as [H1 H2].
    split; [|exact H2]. split; [exact H1|].
    rewrite H2. apply countChars_le.
  - intros c Hc. apply counted_has_entry.
    rewrite frequencies_count. exact Hc.
Qed.

Lemma entropy_fold (log2 : Q -> Q) (len : nat) (freq : list (ascii * nat)) :
  (forall p : Q, (0 < p <= 1)%Q -> (log2 p <= 0)%Q) ->
  Forall (fun kv => 1 <= snd kv <= len) freq ->
  forall e0 : Q,
    (0 <= e0)%Q ->
    (0 <= fold_left
            (fun entropy kv =>
               let p := (Z.of_nat (snd kv) # Pos.of_nat len)%Q in
               (entropy - p * log2 p)%Q)
            freq e0)%Q.
Proof.
  intros Hlog. induction freq as [|[k n] rest IH]; simpl; intros H e0 He;
    [assumption|].
  inversion H as [|? ? Hn Hrest]; subst. simpl in Hn.
  apply IH; [assumption|].
  assert (P : (0 < Z.of_nat n # Pos.of_nat len <= 1)%Q).
  { split.
    - unfold Qlt. simpl. lia.
    - apply ratio_in_unit; lia. }
  pose proof (Hlog _ P) as L. destruct P as [P0 P1].
  assert (M : ((Z.of_nat n # Pos.of_nat len) *
               log2 (Z.of_nat n # Pos.of_nat len) <= 0)%Q).
  { rewrite <- (Qmult_0_r (Z.of_nat n # Pos.of_nat len)).
    apply Qmult_le_l; assumption. }
  lra.
Qed.

(** The entropy is never negative, for every logarithm that is not
    positive on the probabilities (the numbers in (0, 1]); on the empty
    string it is 0 and no logarithm is taken. *)
Theorem entropy_is_not_negative :
  forall Math_log2 : Q -> Q,
    (forall p : Q, (0 < p <= 1)%Q -> (Math_log2 p <= 0)%Q) ->
    forall str : string, (0 <= Url.calculateEntropy Math_log2 str)%Q.
Proof.
  intros Math_log2 Hlog str. unfold Url.calculateEntropy. cbv zeta.
  apply entropy_fold; [assumption | | apply Qle_refl].
  apply Forall_forall. intros [c n] Hin.
  destruct (frequencies_entry str c n Hin) as [H1 H2]. cbn [snd].
  split; [exact H1 | rewrite H2; apply countChars_le].
Qed.

Lemma sample_log2_nonpos (p : Q) : (0 < p <= 1)%Q -> (Sample.log2 p <= 0)%Q.
Proof.
  intros [H0 H1]. unfold Sample.log2, Qle. cbn [Qnum Qden].
  rewrite Z.mul_1_r, Z.mul_0_l.
  unfold Qlt in H0. unfold Qle in H1. simpl in H0, H1.
  assert (Z.log2 (Qnum p ^ 256) <= Z.log2 (Z.pos (Qden p) ^ 256))%Z; [|lia].
  apply Z.log2_le_mono, Z.pow_le_mono_l. lia.
Qed.

Lemma entropy_is_not_negative_witness :
  (0 <= Url.calculateEntropy Sample.log2 "paypa1-login.example")%Q.
Proof.
  apply (entropy_is_not_negative Sample.log2 sample_log2_nonpos).
Defined.

(* ================================================================= *)
(** ** The oracle against the rules *)

Lemma resultOf_not_safe c : (25 <= c)%Q -> resultOf c <> safe.
Proof.
  intros H. unfold resultOf. destruct (Qle_bool 50 c); [discriminate|].
  apply Qle_bool_iff in H. rewrite H. discriminate.
Qed.

Lemma resultOf_not_phishing c : (c < 50)%Q -> resultOf c <> phishing.
Proof.
  intros H. unfold resultOf. rewrite (Qle_bool_false _ _ H).
  destruct (Qle_bool 25 c); discriminate.
Qed.

Lemma resultOf_safe_inv c : resultOf c = safe -> (c < 25)%Q.
Proof.
  unfold resultOf. destruct (Qle_bool 50 c); [discriminate|].
  destruct (Qle_bool 25 c) eqn:E; [discriminate|]. intros _.
  apply Qnot_le_lt. intros H. apply Qle_bool_iff in H. congruence.
Qed.

Lemma resultOf_unsafe_inv c : resultOf c <> safe -> (25 <= c)%Q.
Proof.
  intros H. destruct (Qlt_le_dec c 25) as [L|L]; [|assumption].
  elim H. now apply resultOf_safe.
Qed.

Lemma blend_alarm (r c : Q) :
  (0 <= r)%Q -> (0 <= c)%Q ->
  (30 <= r * (4 # 10) + (50 + c / 2) * (6 # 10))%Q.
Proof.
  intros Hr Hc. unfold Qdiv. change (/ 2)%Q with (1 # 2)%Q. lra.
Qed.

Lemma blend_sure_alarm (r c : Q) :
  (0 <= r)%Q -> (200 # 3 <= c)%Q ->
  (50 <= r * (4 # 10) + (50 + c / 2) * (6 # 10))%Q.
Proof.
  intros Hr Hc. unfold Qdiv. change (/ 2)%Q with (1 # 2)%Q. lra.
Qed.

Lemma blend_sure_clear (r c : Q) :
  (r <= 100)%Q -> (200 # 3 < c)%Q ->
  (r * (4 # 10) + (50 - c / 2) * (6 # 10) < 50)%Q.
Proof.
  intros Hr Hc. unfold Qdiv. change (/ 2)%Q with (1 # 2)%Q. lra.
Qed.

Lemma numOr_nonneg (c : option Q) (d : Q) :
  (forall q, c = Some q -> (0 <= q)%Q) -> (0 <= d)%Q -> (0 <= numOr c d)%Q.
Proof.
  intros Hc Hd. unfold numOr. destruct c as [q|]; [|assumption].
  destruct (Qeq_bool q 0); [assumption | now apply Hc].
Qed.

Lemma numOr_large (q d lo : Q) :
  (0 < lo)%Q -> (lo <= q)%Q -> numOr (Some q) d = q.
Proof.
  intros H0 H. apply numOr_nonzero. intros E. rewrite E in H. lra.
Qed.

(** In the URL handler the oracle's call weighs more than all the rules
    together.  A positive call with a confidence that is not negative is
    never answered [safe], whatever the features; with a confidence of at
    least 200/3 it is answered [phishing].  A negative call with a
    confidence of at least 67 is never answered [phishing], even at the
    highest rule score: the blend is then at most 49.9. *)
Theorem url_oracle_outweighs_rules :
  forall (env : Url.Env) (url : string) (features : Url.UrlFeatures)
         (a : Url.AiAnalysis),
    let verdict := Url.r_result (Url.hybrid env url features a) in
    (Url.isPhishing a = true ->
     (forall q, Url.confidence a = Some q -> (0 <= q)%Q) ->
     verdict <> safe) /\
    (Url.isPhishing a = true ->
     forall q, Url.confidence a = Some q -> (200 # 3 <= q)%Q ->
     verdict = phishing) /\
    (Url.isPhishing a = false ->
     forall q, Url.confidence a = Some q -> (67 <= q)%Q ->
     verdict <> phishing).
Proof.
  intros env url features a verdict. subst verdict.
  rewrite url_hybrid_result.
  destruct (url_ruleScore_bounded features) as [R0 R1].
  unfold Url.combinedScoreOf, Url.aiScoreOf.
  refine (conj _ (conj _ _)).
  - intros -> Hq. apply resultOf_not_safe.
    apply Qle_trans with 30%Q; [discriminate|].
    apply blend_alarm; [assumption|].
    apply numOr_nonneg; [assumption | discriminate].
  - intros -> q -> Hq. apply resultOf_phishing.
    rewrite (numOr_large q 50 (200 # 3)); [|reflexivity|assumption].
    now apply blend_sure_alarm.
  - intros -> q -> Hq.
    assert (Hq' : (200 # 3 < q)%Q)
      by (eapply Qlt_le_trans; [|exact Hq]; reflexivity).
    apply resultOf_not_phishing.
    rewrite (numOr_large q 50 (200 # 3));
      [|reflexivity|now apply Qlt_le_weak].
    now apply blend_sure_clear.
Qed.

(** The email handler blends in the same way: a positive call with a
    confidence that is not negative is never answered [safe], a positive
    call with a confidence of at least 200/3 is answered [phishing], and
    a negative call with a confidence of at least 67 is never answered
    [phishing]. *)
Theorem email_oracle_outweighs_rules :
  forall (env : Email.Env) (sender subject : string)
         (features : Email.EmailFeatures) (a : Email.AiAnalysis),
    let verdict :=
      Email.r_result (Email.respond env sender subject features a) in
    (Email.isPhishing a = true ->
     (forall q, Email.confidence a = Some q -> (0 <= q)%Q) ->
     verdict <> safe) /\
    (Email.isPhishing a = true ->
     forall q, Email.confidence a = Some q -> (200 # 3 <= q)%Q ->
     verdict = phishing) /\
    (Email.isPhishing a = false ->
     forall q, Email.confidence a = Some q -> (67 <= q)%Q ->
     verdict <> phishing).
Proof.
  intros env sender subject features a verdict. subst verdict.
  rewrite email_respond_result.
  destruct (email_ruleScore_bounded features) as [R0 R1].
  unfold Email.combinedScoreOf, Email.aiScoreOf.
  refine (conj _ (conj _ _)).
  - intros -> Hq. apply resultOf_not_safe.
    apply Qle_trans with 30%Q; [discriminate|].
    apply blend_alarm; [assumption|].
    apply numOr_nonneg; [assumption | discriminate].
  - intros -> q -> Hq. apply resultOf_phishing.
    rewrite (numOr_large q 50 (200 # 3)); [|reflexivity|assumption].
    now apply blend_sure_alarm.
  - intros -> q -> Hq.
    assert (Hq' : (200 # 3 < q)%Q)
      by (eapply Qlt_le_trans; [|exact Hq]; reflexivity).
    apply resultOf_not_phishing.
    rewrite (numOr_large q 50 (200 # 3));
      [|reflexivity|now apply Qlt_le_weak].
    now apply blend_sure_clear.
Qed.

(* ================================================================= *)
(** ** The range of the reported confidence *)

Lemma Verdict_eqb_eq a b : Verdict_eqb a b = true <-> a = b.
Proof. destruct a, b; simpl; split; congruence. Qed.

Lemma url_combined_bounded (r : Q) (a : Url.AiAnalysis) :
  (0 <= r <= 100)%Q ->
  (forall q, Url.confidence a = Some q -> (0 <= q <= 100)%Q) ->
  (0 <= Url.combinedScoreOf r a <= 100)%Q.
Proof.
  intros Hr Hq.
  assert (Hn : (0 <= numOr (Url.confidence a) 50 <= 100)%Q).
  { apply numOr_bounded; [assumption | lra]. }
  unfold Url.combinedScoreOf, Url.aiScoreOf, Qdiv.
  change (/ 2)%Q with (1 # 2)%Q.
  destruct (Url.isPhishing a); lra.
Qed.

Lemma url_finalConfidence_bounded (r : Q) (a : Url.AiAnalysis) :
  (0 <= r <= 100)%Q ->
  (forall q, Url.confidence a = Some q -> (0 <= q <= 100)%Q) ->
  (0 <= Url.finalConfidenceOf r a <= 100)%Z /\
  ((25 <= Url.combinedScoreOf r a)%Q -> (25 <= Url.finalConfidenceOf r a)%Z).
Proof.
  intros Hr Hq.
  pose proof (url_combined_bounded r a Hr Hq) as Hc.
  assert (Hn : (0 <= numOr (Url.confidence a) 70 <= 100)%Q).
  { apply numOr_bounded; [assumption | lra]. }
  assert (Hn' : (0 <= numOr (Url.confidence a) 50 <= 100)%Q).
  { apply numOr_bounded; [assumption | lra]. }
  unfold Url.finalConfidenceOf. cbv zeta.
  destruct (Qltb 20 r || Url.isPhishing a) eqn:B.
  - split.
    + apply Math_round_bounds. change (inject_Z 0) with 0%Q.
      change (inject_Z 100) with 100%Q. split.
      * eapply Qle_trans; [|apply Q.le_max_l]. lra.
      * apply Q.max_lub; lra.
    + intros H25.
      apply (Math_round_bounds 25 100). change (inject_Z 25) with 25%Q.
      change (inject_Z 100) with 100%Q. split.
      * eapply Qle_trans; [|apply Q.le_max_l]. lra.
      * apply Q.max_lub; lra.
  - apply orb_false_iff in B. destruct B as [B1 B2].
    unfold Qltb in B1. apply negb_false_iff, Qle_bool_iff in B1.
    assert (Hc' : (Url.combinedScoreOf r a <= 38)%Q).
    { unfold Url.combinedScoreOf, Url.aiScoreOf, Qdiv.
      change (/ 2)%Q with (1 # 2)%Q. rewrite B2. lra. }
    assert (M : (62 <= Qmin (100 - Url.combinedScoreOf r a) 95 <= 95)%Q).
    { split; [apply Q.min_glb; lra | apply Q.le_min_r]. }
    split; [|intros _].
    + apply Math_round_bounds. change (inject_Z 0) with 0%Q.
      change (inject_Z 100) with 100%Q. lra.
    + apply (Math_round_bounds 25 100). change (inject_Z 25) with 25%Q.
      change (inject_Z 100) with 100%Q. lra.
Qed.

(** With an oracle that keeps its confidence within 0..100, the confidence
    of the URL handler's hybrid answer is within 0..100 when the verdict is
    [safe] and within 50..125 otherwise. *)
Theorem url_confidence_range :
  forall (env : Url.Env) (url : string) (features : Url.UrlFeatures)
         (a : Url.AiAnalysis),
    (forall q, Url.confidence a = Some q -> (0 <= q <= 100)%Q) ->
    let r := Url.hybrid env url features a in
    (Url.r_result r = safe -> (0 <= Url.r_confidence r <= 100)%Q) /\
    (Url.r_result r <> safe -> (50 <= Url.r_confidence r <= 125)%Q).
Proof.
  intros env url features a Hq. cbv zeta. unfold Url.hybrid.
  pose proof (url_ruleScore_bounded features) as Hr.
  destruct (Url.calculateRiskScore features) as [r threats].
  cbn [fst] in Hr. cbv [Url.r_result Url.r_confidence].
  destruct (url_finalConfidence_bounded r a Hr Hq) as [[F0 F1] F25].
  split; intros V.
  - apply Verdict_eqb_eq in V. rewrite V.
    change 0%Q with (inject_Z 0). change 100%Q with (inject_Z 100).
    rewrite <- !Zle_Qle. lia.
  - destruct (Verdict_eqb (resultOf (Url.combinedScoreOf r a)) safe) eqn:E.
    + apply Verdict_eqb_eq in E. contradiction.
    + specialize (F25 (resultOf_unsafe_inv _ V)).
      change 50%Q with (inject_Z 50). change 125%Q with (inject_Z 125).
      rewrite <- !Zle_Qle. lia.
Qed.

Lemma url_confidence_range_witness :
  let r := Url.hybrid (Ex.urlEnv (OkContent (Object (Ex.says false 20))))
             "http://192.168.1.5/paypal-login-verify"
             (Sample.extractUrlFeatures
                "http://192.168.1.5/paypal-login-verify")
             (Ex.says false 20) in
  (50 <= Url.r_confidence r <= 125)%Q.
Proof.
  cbv zeta.
  refine (proj2 (url_confidence_range _ _ _ (Ex.says false 20) _) _).
  - intros q E. injection E as <-. split; discriminate.
  - vm_compute. discriminate.
Defined.

(** With an oracle that keeps its confidence within 0..100, the email
    handler reports a confidence of 75..100 with the verdict [safe] and of
    45..98 with any other verdict. *)
Theorem email_confidence_by_verdict :
  forall (env : Email.Env) (sender subject : string)
         (features : Email.EmailFeatures) (a : Email.AiAnalysis),
    (forall q, Email.confidence a = Some q -> (0 <= q <= 100)%Q) ->
    let r := Email.respond env sender subject features a in
    (Email.r_result r = safe -> (75 <= Email.r_confidence r <= 100)%Z) /\
    (Email.r_result r <> safe -> (45 <= Email.r_confidence r <= 98)%Z).
Proof.
  intros env sender subject features a Hq. cbv zeta. unfold Email.respond.
  pose proof (email_ruleScore_bounded features) as Hr.
  destruct (Email.calculateEmailRiskScore features) as [r threats].
  cbn [fst] in Hr. cbv [Email.r_result Email.r_confidence].
  assert (Hn : (0 <= numOr (Email.confidence a) 50 <= 100)%Q).
  { apply numOr_bounded; [assumption | lra]. }
  assert (Hc : (0 <= Email.combinedScoreOf r a <= 100)%Q).
  { unfold Email.combinedScoreOf, Email.aiScoreOf, Qdiv.
    change (/ 2)%Q with (1 # 2)%Q.
    destruct (Email.isPhishing a); lra. }
  split; intros V.
  - pose proof (resultOf_safe_inv _ V) as L.
    apply Verdict_eqb_eq in V. rewrite V.
    apply Math_round_bounds. change (inject_Z 75) with 75%Q.
    change (inject_Z 100) with 100%Q. lra.
  - destruct (Verdict_eqb (resultOf (Email.combinedScoreOf r a)) safe) eqn:E.
    + apply Verdict_eqb_eq in E. contradiction.
    + pose proof (resultOf_unsafe_inv _ V) as L.
      apply Math_round_bounds. change (inject_Z 45) with 45%Q.
      change (inject_Z 98) with 98%Q. split.
      * apply Q.min_glb; lra.
      * apply Q.le_min_l.
Qed.

Lemma email_confidence_by_verdict_witness :
  let r := Email.respond (Ex.emailEnv (OkContent (Object (Ex.emailSays true 90))))
             "alice@example.org" "hello" Ex.spoofedEmail
             (Ex.emailSays true 90) in
  (45 <= Email.r_confidence r <= 98)%Z.
Proof.
  cbv zeta.
  refine (proj2 (email_confidence_by_verdict _ _ _ Ex.spoofedEmail
                   (Ex.emailSays true 90) _) _).
  - intros q E. injection E as <-. split; discriminate.
  - vm_compute. discriminate.
Defined.

(* ================================================================= *)
(** ** The rule-based threats in the indicator list *)

Lemma email_threats_among features :
  NoDup (snd (Email.calculateEmailRiskScore features)) /\
  List.length (snd (Email.calculateEmailRiskScore features)) <= 8.
Proof.
  unfold Email.calculateEmailRiskScore. cbn [snd].
  generalize (Email.senderDomain features)
             (JS.join ", " (Email.impersonatedBrands features))
             (JS.showNat (Email.urgencyCount features))
             (JS.showNat (List.length (Email.suspiciousLinks features))).
  intros d b u l.
  match goal with
  | |- NoDup ?t /\ _ =>
      assert (H : exists cands, Among cands t /\ List.length cands = 8)
  end.
  { eexists. split; [among | reflexivity]. }
  destruct H as (cands & [Hnd Hincl] & L). split; [assumption|].
  apply Nat.le_trans with (List.length cands); [|now rewrite L].
  apply NoDup_incl_length; assumption.
Qed.

Lemma newSet_app_NoDup xs ys :
  NoDup xs -> exists rest, JS.newSet (xs ++ ys) = xs ++ rest.
Proof.
  intros H. unfold JS.newSet. rewrite fold_left_app.
  fold (JS.newSet xs). rewrite newSet_keepFirst, (keepFirst_id xs H).
  rewrite fold_setInsert. eexists. reflexivity.
Qed.

Lemma url_allThreats_app threats a v :
  exists more, Url.allThreatsOf threats a v = threats ++ more.
Proof.
  unfold Url.allThreatsOf.
  destruct (Url.additionalThreats a) as [more|];
    destruct (truthy (Url.reasoning a) && negb (Verdict_eqb v safe));
    rewrite <- ?app_assoc; eexists; try reflexivity.
  - now rewrite app_nil_r.
Qed.

Lemma email_allThreats_app threats a v :
  exists more, Email.allThreatsOf threats a v = threats ++ more.
Proof.
  unfold Email.allThreatsOf, Email.pushAll.
  destruct (Email.tactics a) as [t|]; destruct (Email.redFlags a) as [f|];
    destruct (truthy (Email.reasoning a) && negb (Verdict_eqb v safe));
    rewrite <- ?app_assoc; eexists; try reflexivity.
  - now rewrite app_nil_r.
Qed.

(** Whatever the oracle adds, the threats found by the rules come first in
    the indicator list, all of them and in the order of the rules: in the
    URL handler, and in the email handler, where the cut to 8 entries
    never removes one of them. *)
Theorem rule_threats_lead_the_indicators :
  forall (uenv : Url.Env) (url : string) (uf : Url.UrlFeatures)
         (ua : Url.AiAnalysis)
         (eenv : Email.Env) (sender subject : string)
         (ef : Email.EmailFeatures) (ea : Email.AiAnalysis),
    (exists rest,
        Url.r_threatIndicators (Url.hybrid uenv url uf ua)
        = snd (Url.calculateRiskScore uf) ++ rest) /\
    (exists rest,
        Email.r_threatIndicators (Email.respond eenv sender subject ef ea)
        = snd (Email.calculateEmailRiskScore ef) ++ rest).
Proof.
  intros uenv url uf ua eenv sender subject ef ea. split.
  - rewrite url_hybrid_indicators.
    destruct (url_allThreats_app (snd (Url.calculateRiskScore uf)) ua
                (resultOf (Url.combinedScoreOf
                             (fst (Url.calculateRiskScore uf)) ua)))
      as [more ->].
    apply newSet_app_NoDup, url_threats_NoDup.
  - rewrite email_indicators.
    destruct (email_allThreats_app (snd (Email.calculateEmailRiskScore ef)) ea
                (resultOf (Email.combinedScoreOf
                             (fst (Email.calculateEmailRiskScore ef)) ea)))
      as [more ->].
    destruct (email_threats_among ef) as [Hnd Hlen].
    destruct (newSet_app_NoDup _ more Hnd) as [rest ->].
    unfold JS.slice0. rewrite firstn_app.
    rewrite firstn_all2 by exact Hlen. eexists. reflexivity.
Qed.

(* ================================================================= *)
(** ** The outcomes of the URL handler *)

Lemma truthy_inv o : truthy o = true -> exists s, o = Some s /\ s <> "".
Proof.
  destruct o as [s|]; simpl; [|discriminate]. intros H. exists s.
  split; [reflexivity|]. intros ->. discriminate.
Qed.

Lemma extracted_digitRatio new_URL log2 url :
  Url.digitRatio (Url.extractUrlFeatures new_URL log2 url)
  = divLengths (JS.countChars JS.isDigit url) (String.length url).
Proof.
  unfold Url.extractUrlFeatures. now destruct (new_URL _).
Qed.

Lemma url_ruleBasedOnly_fields url features :
  let r := Url.ruleBasedOnly url features in
  Url.r_url r = url /\ Url.r_features r = features /\
  Url.r_ruleBasedScore r = fst (Url.calculateRiskScore features).
Proof.
  cbv zeta. unfold Url.ruleBasedOnly.
  destruct (Url.calculateRiskScore features). now repeat split.
Qed.

Lemma url_hybrid_fields env url features a :
  let r := Url.hybrid env url features a in
  Url.r_url r = url /\ Url.r_features r = features /\
  Url.r_ruleBasedScore r = fst (Url.calculateRiskScore features).
Proof.
  cbv zeta. unfold Url.hybrid.
  destruct (Url.calculateRiskScore features). now repeat split.
Qed.

(** What the URL handler answers.  A body without a non-empty [url] is
    answered with status 400, whatever the configuration and the gateway:
    the check comes first.  Read backwards from the answer: a failure has
    status 400 or 500, and 400 exactly for such a body; a success echoes a
    non-empty URL with the features extracted from it, the scorer's score
    of these features, and a digit ratio that is a number between 0 and
    1. *)
Theorem url_handler_outcomes :
  forall (new_URL : URLParser) (Math_log2 : Q -> Q)
         (env : Url.Env) (req : Url.Request),
    (forall body, truthy body = false ->
                  Url.serve new_URL Math_log2 env (Url.POST (Some body))
                  = Failure 400 "URL is required") /\
    match Url.serve new_URL Math_log2 env req with
    | Preflight => req = Url.OPTIONS
    | Failure status _ =>
        (status = 400 \/ status = 500) /\
        (status = 400 <->
         exists body, req = Url.POST (Some body) /\ truthy body = false)
    | Success r =>
        exists url,
          req = Url.POST (Some (Some url)) /\ url <> "" /\
          truthy (Url.LOVABLE_API_KEY env) = true /\
          Url.r_url r = url /\
          Url.r_features r = Url.extractUrlFeatures new_URL Math_log2 url /\
          Url.r_ruleBasedScore r
          = fst (Url.calculateRiskScore (Url.r_features r)) /\
          exists q, Url.digitRatio (Url.r_features r) = Num q /\
                    (0 <= q <= 1)%Q
    end.
Proof.
  intros new_URL Math_log2 env req. split.
  { intros body B. unfold Url.serve. now rewrite B. }
  unfold Url.serve.
  assert (F500 : forall body,
             truthy body = true ->
             (500 = 400 \/ 500 = 500) /\
             (500 = 400 <->
              exists body0, Url.POST (Some body) = Url.POST (Some body0) /\
                            truthy body0 = false)).
  { intros body B. split; [now right|]. split; [discriminate|].
    intros (body0 & E & B0). injection E as <-. congruence. }
  destruct req as [|[body|]]; [reflexivity | |].
  2:{ split; [now right|]. split; [discriminate|].
      intros (body0 & E & _). discriminate E. }
  destruct (truthy body) eqn:B; cbn [negb].
  2:{ split; [now left|]. split; [|reflexivity].
      intros _. exists body. split; [reflexivity | exact B]. }
  destruct (truthy_inv _ B) as (url & Eb & Hne).
  destruct (truthy (Url.LOVABLE_API_KEY env)) eqn:K; cbn [negb];
    [|exact (F500 body B)].
  subst body. cbn [orEmpty].
  assert (D : exists q,
             Url.digitRatio (Url.extractUrlFeatures new_URL Math_log2 url)
             = Num q /\ (0 <= q <= 1)%Q).
  { rewrite extracted_digitRatio, divLengths_positive
      by now apply length_nonzero.
    eexists. split; [reflexivity|].
    apply ratio_in_unit; [apply countChars_le|].
    pose proof (length_nonzero url Hne). lia. }
  assert (S1 : forall r,
             Url.r_url r = url /\
             Url.r_features r = Url.extractUrlFeatures new_URL Math_log2 url /\
             Url.r_ruleBasedScore r
             = fst (Url.calculateRiskScore
                      (Url.extractUrlFeatures new_URL Math_log2 url)) ->
             exists url0,
               Url.POST (Some (Some url)) = Url.POST (Some (Some url0)) /\
               url0 <> "" /\ true = true /\ Url.r_url r = url0 /\
               Url.r_features r
               = Url.extractUrlFeatures new_URL Math_log2 url0 /\
               Url.r_ruleBasedScore r
               = fst (Url.calculateRiskScore (Url.r_features r)) /\
               exists q, Url.digitRatio (Url.r_features r) = Num q /\
                         (0 <= q <= 1)%Q).
  { intros r (H1 & H2 & H3). exists url. rewrite H2.
    repeat (split; [first [reflexivity | assumption]|]). exact D. }
  destruct (Url.gateway env) as [e|st|e|[| |a]] eqn:G.
  - exact (F500 (Some url) B).
  - apply S1, url_ruleBasedOnly_fields.
  - exact (F500 (Some url) B).
  - apply S1, url_hybrid_fields.
  - apply S1, url_hybrid_fields.
  - apply S1, url_hybrid_fields.
Qed.

(* ================================================================= *)
(** ** The verdicts of the logo heuristic *)

(** The logo heuristic never answers [suspicious].  Its probability tells
    the verdict: 8 is [safe], 20, 30 and 45 are [unknown], and 50 and more
    is [phishing]; it is never above 95. *)
Theorem logo_verdict_by_probability :
  forall (new_URL : URLParser) (input : Logo.Input),
    let h := Logo.calcLogoHeuristic new_URL input in
    Logo.verdict h <> suspicious /\
    (Logo.verdict h = safe <-> Logo.probability h = 8) /\
    (Logo.verdict h = unknown <->
     Logo.probability h = 20 \/ Logo.probability h = 30 \/
     Logo.probability h = 45) /\
    (Logo.verdict h = phishing <-> 50 <= Logo.probability h) /\
    Logo.probability h <= 95.
Proof.
  intros new_URL input. cbv zeta. unfold Logo.calcLogoHeuristic, Logo.scored.
  destruct (Logo.hasPhishKeyword input), (Logo.isLocal input),
    (Logo.lowSignal input), (Logo.paypalMismatch new_URL input),
    (truthy (Logo.imageUrl input) &&
     Logo.hasSafeDomain new_URL (orEmpty (Logo.imageUrl input)));
    cbn;
    (split; [discriminate|]);
    (split; [split; intros H; first [discriminate H | lia | reflexivity]|]);
    (split; [split; intros H;
             first [discriminate H | lia | reflexivity | tauto]|]);
    (split; [split; intros H; first [discriminate H | lia | reflexivity]|]);
    lia.
Qed.

Lemma logo_scored_zero new_URL input :
  fst (Logo.scored new_URL input) = 0 ->
  Logo.hasPhishKeyword input = false /\ Logo.isLocal input = false /\
  Logo.lowSignal input = false /\ snd (Logo.scored new_URL input) = [].
Proof.
  unfold Logo.scored.
  destruct (Logo.hasPhishKeyword input), (Logo.isLocal input),
    (Logo.lowSignal input), (Logo.paypalMismatch new_URL input);
    cbn; intros H; try discriminate H; now repeat split.
Qed.

(** The verdict [safe] is given only to an image URL of at least 50
    characters that starts with "http", lies on a known-safe domain and
    comes without an uploaded image; no issue is reported with it. *)
Theorem logo_safe_only_on_safe_domain :
  forall (new_URL : URLParser) (input : Logo.Input),
    Logo.verdict (Logo.calcLogoHeuristic new_URL input) = safe ->
    exists url,
      Logo.imageUrl input = Some url /\
      Logo.hasSafeDomain new_URL url = true /\
      JS.startsWith url "http" = true /\
      50 <= String.length url /\
      truthy (Logo.base64Image input) = false /\
      Logo.issues (Logo.calcLogoHeuristic new_URL input) = [].
Proof.
  intros new_URL input. unfold Logo.calcLogoHeuristic.
  pose proof (logo_scored_zero new_URL input) as Z.
  destruct (Logo.scored new_URL input) as [score issues]. cbn [fst snd] in Z.
  destruct (truthy (Logo.imageUrl input)) eqn:T; cbn [andb].
  2:{ destruct (score =? 0); [discriminate|]. cbn [Logo.verdict].
      destruct (30 <? Nat.min 95 score); discriminate. }
  destruct (Logo.hasSafeDomain new_URL (orEmpty (Logo.imageUrl input))) eqn:S;
    cbn [andb].
  2:{ destruct (score =? 0); [discriminate|]. cbn [Logo.verdict].
      destruct (30 <? Nat.min 95 score); discriminate. }
  destruct (score =? 0) eqn:E.
  2:{ cbn [Logo.verdict]. destruct (30 <? Nat.min 95 score); discriminate. }
  intros _. apply Nat.eqb_eq in E.
  destruct (Z E) as (_ & L & W & I).
  destruct (truthy_inv _ T) as (url & U & Hne).
  unfold Logo.isLocal in L. unfold Logo.lowSignal in W.
  rewrite U in *. cbn [orEmpty] in *. rewrite T in *. cbn [andb] in *.
  apply orb_false_iff in L. destruct L as [L1 L2].
  apply negb_false_iff in L2.
  apply orb_false_iff in W. destruct W as [_ W]. apply Nat.ltb_ge in W.
  exists url. cbn [Logo.issues]. now repeat split.
Qed.

Lemma logo_safe_only_on_safe_domain_witness :
  exists url,
    Logo.imageUrl
      (logoInput
         "https://www.amazon.com/images/G/01/gno/sprites/nav-sprite.png")
    = Some url /\
    Logo.hasSafeDomain Sample.new_URL url = true /\
    50 <= String.length url.
Proof.
  destruct (logo_safe_only_on_safe_domain Sample.new_URL
              (logoInput
                 "https://www.amazon.com/images/G/01/gno/sprites/nav-sprite.png"))
    as (url & U & S & _ & L & _); [reflexivity|].
  exists url. exact (conj U (conj S L)).
Defined.

(** An image reference that does not start with "http" and is shorter than
    50 characters is answered [phishing] with a probability of at least
    50: the local-image rule and the low-signal rule both fire. *)
Theorem short_relative_image_url_is_phishing :
  forall (new_URL : URLParser) (input : Logo.Input) (url : string),
    Logo.imageUrl input = Some url -> url <> "" ->
    JS.startsWith url "http" = false ->
    String.length url < 50 ->
    let h := Logo.calcLogoHeuristic new_URL input in
    Logo.verdict h = phishing /\ 50 <= Logo.probability h <= 95 /\
    In "Local/base64 image (source cannot be verified)" (Logo.issues h) /\
    In "Low-signal / potentially blurred image reference" (Logo.issues h).
Proof.
  intros new_URL input url U Hne Hs Hl. cbv zeta.
  assert (L : Logo.isLocal input = true).
  { unfold Logo.isLocal. rewrite U, (truthy_Some url Hne). cbn [orEmpty].
    rewrite Hs. apply orb_true_r. }
  assert (W : Logo.lowSignal input = true).
  { unfold Logo.lowSignal. rewrite U, (truthy_Some url Hne). cbn [orEmpty andb].
    apply orb_true_iff. right. now apply Nat.ltb_lt. }
  unfold Logo.calcLogoHeuristic, Logo.scored. rewrite L, W.
  destruct (Logo.hasPhishKeyword input),
    (Logo.paypalMismatch new_URL input),
    (truthy (Logo.imageUrl input) &&
     Logo.hasSafeDomain new_URL (orEmpty (Logo.imageUrl input)));
    cbn; (split; [reflexivity|]); (split; [lia|]); tauto.
Qed.

Lemma short_relative_image_url_is_phishing_witness :
  let h := Sample.calcLogoHeuristic (logoInput "images/logo.png") in
  Logo.verdict h = phishing /\ 50 <= Logo.probability h <= 95.
Proof.
  destruct (short_relative_image_url_is_phishing Sample.new_URL
              (logoInput "images/logo.png") "images/logo.png")
    as (Hv & Hp & _); try reflexivity.
  - discriminate.
  - simpl. lia.
  - exact (conj Hv Hp).
Defined.

Lemma logo_issues_NoDup new_URL input :
  NoDup (Logo.issues (Logo.calcLogoHeuristic new_URL input)).
Proof.
  unfold Logo.calcLogoHeuristic, Logo.scored.
  destruct (Logo.hasPhishKeyword input), (Logo.isLocal input),
    (Logo.lowSignal input), (Logo.paypalMismatch new_URL input),
    (truthy (Logo.imageUrl input) &&
     Logo.hasSafeDomain new_URL (orEmpty (Logo.imageUrl input)));
    cbn;
    repeat (constructor; [cbn; intuition discriminate|]); constructor.
Qed.

Lemma logo_safe_iff_8 new_URL input :
  Logo.verdict (Logo.calcLogoHeuristic new_URL input) = safe <->
  Logo.probability (Logo.calcLogoHeuristic new_URL input) = 8.
Proof.
  unfold Logo.calcLogoHeuristic, Logo.scored.
  destruct (Logo.hasPhishKeyword input), (Logo.isLocal input),
    (Logo.lowSignal input), (Logo.paypalMismatch new_URL input),
    (truthy (Logo.imageUrl input) &&
     Logo.hasSafeDomain new_URL (orEmpty (Logo.imageUrl input)));
    cbn; split; intros H; first [discriminate H | lia | reflexivity].
Qed.

(** The logo handler answers status 400 when the request names neither
    an image URL nor an uploaded image, and for no other request.  In a
    success the issues are distinct, so the indicator list is the list of
    suspicions itself, and the logo is called authentic exactly when the
    verdict is [safe], that is when the confidence is 8. *)
Theorem logo_handler_outcomes :
  forall (new_URL : URLParser) (env : Logo.Env) (input : Logo.Input),
    (truthy (Logo.imageUrl input) = false ->
     truthy (Logo.base64Image input) = false ->
     Logo.serve new_URL env (Logo.POST (Some input))
     = Failure 400 "Image URL or base64 image is required") /\
    match Logo.serve new_URL env (Logo.POST (Some input)) with
    | Preflight => False
    | Failure status _ =>
        status = 400 <->
        truthy (Logo.imageUrl input) = false /\
        truthy (Logo.base64Image input) = false
    | Success r =>
        (truthy (Logo.imageUrl input) = true \/
         truthy (Logo.base64Image input) = true) /\
        Logo.r_threatIndicators r = Logo.r_suspicions r /\
        (Logo.r_isAuthentic r = true <-> Logo.r_confidence r = 8) /\
        (Logo.r_isAuthentic r = true <-> Logo.r_result r = safe)
    end.
Proof.
  intros new_URL env input. split.
  { intros T B. unfold Logo.serve, orElse. now rewrite T, B. }
  unfold Logo.serve, orElse.
  destruct (truthy (Logo.imageUrl input)) eqn:T.
  - rewrite T. cbn [negb].
    cbv [Logo.r_threatIndicators Logo.r_suspicions Logo.r_isAuthentic
         Logo.r_confidence Logo.r_result].
    split; [now left|].
    split; [rewrite newSet_keepFirst; apply keepFirst_id, logo_issues_NoDup|].
    rewrite Verdict_eqb_eq.
    split; [apply logo_safe_iff_8 | reflexivity].
  - destruct (truthy (Logo.base64Image input)) eqn:B; cbn [negb].
    + cbv [Logo.r_threatIndicators Logo.r_suspicions Logo.r_isAuthentic
           Logo.r_confidence Logo.r_result].
      split; [now right|].
      split; [rewrite newSet_keepFirst; apply keepFirst_id, logo_issues_NoDup|].
      rewrite Verdict_eqb_eq.
      split; [apply logo_safe_iff_8 | reflexivity].
    + split; [intros _; now split | reflexivity].
Qed.

(* ================================================================= *)
(** ** Strings and their parts *)

Lemma startsWith_spec s p :
  JS.startsWith s p = true <-> exists t, s = (p ++ t)%string.
Proof.
  revert s. induction p as [|a p IH]; intros s; simpl.
  - split; [intros _; now exists s | intros _; now destruct s].
  - destruct s as [|b s]; simpl.
    + split; [discriminate | intros [t H]; discriminate H].
    + rewrite andb_true_iff, IH, Ascii.eqb_eq. split.
      * intros [-> [t ->]]. now exists t.
      * intros [t H]. injection H as -> ->. split; [reflexivity | now exists t].
Qed.

Lemma startsWith_nil s : JS.startsWith s "" = true.
Proof. now destruct s. Qed.

Lemma startsWith_single c s a :
  JS.startsWith (String c s) (String a "") = Ascii.eqb a c.
Proof. simpl. now rewrite startsWith_nil, andb_true_r. Qed.

Lemma includes_unfold s sub :
  JS.includes s sub
  = JS.startsWith s sub ||
    match s with
    | EmptyString => false
    | String _ s' => JS.includes s' sub
    end.
Proof. destruct s; reflexivity. Qed.

Lemma includes_spec s sub :
  JS.includes s sub = true <->
  exists pre post, s = (pre ++ sub ++ post)%string.
Proof.
  induction s as [|c s IH]; rewrite includes_unfold, orb_true_iff.
  - split.
    + intros [H | H]; [|discriminate].
      apply startsWith_spec in H. destruct H as [t H]. now exists "", t.
    + intros (pre & post & H). left. apply startsWith_spec.
      destruct pre; [now exists post | discriminate H].
  - rewrite IH, startsWith_spec. split.
    + intros [[t H] | (pre & post & H)].
      * now exists "", t.
      * exists (String c pre), post. simpl. now rewrite H.
    + intros (pre & post & H). destruct pre as [|a pre]; simpl in H.
      * left. now exists post.
      * injection H as -> ->. right. now exists pre, post.
Qed.

Lemma append_assoc (a b c : string) :
  ((a ++ b) ++ c = a ++ (b ++ c))%string.
Proof. induction a; simpl; congruence. Qed.

Lemma includes_trans a b c :
  JS.includes a b = true -> JS.includes b c = true -> JS.includes a c = true.
Proof.
  rewrite !includes_spec. intros (p1 & q1 & ->) (p2 & q2 & ->).
  exists (p1 ++ p2)%string, (q2 ++ q1)%string.
  now rewrite !append_assoc.
Qed.

Lemma includes_empty sub : sub <> "" -> JS.includes "" sub = false.
Proof. destruct sub; [congruence | reflexivity]. Qed.

Lemma takeWhile_prefix p s :
  exists t, s = (Str.takeWhile p s ++ t)%string.
Proof.
  induction s as [|c s [t IH]]; simpl; [now exists ""|].
  destruct (p c); [|now exists (String c s)].
  exists t. simpl. now rewrite <- IH.
Qed.

Lemma takeWhile_all p s : allChars p (Str.takeWhile p s) = true.
Proof.
  induction s as [|c s IH]; simpl; [reflexivity|].
  destruct (p c) eqn:E; simpl; [now rewrite E|reflexivity].
Qed.

Lemma domainMatch_spec s : forall d,
  Email.domainMatch s = Some d ->
  d <> "" /\ allChars Email.isDomainChar d = true /\
  JS.includes s (String "@" d) = true.
Proof.
  induction s as [|c s IH]; intros d; cbn [Email.domainMatch];
    [discriminate|].
  destruct (Ascii.eqb c "@" &&
            negb (Str.takeWhile Email.isDomainChar s =? "")%string) eqn:E.
  - intros [= <-]. apply andb_true_iff in E. destruct E as [E1 E2].
    apply Ascii.eqb_eq in E1. subst c.
    apply negb_true_iff, String.eqb_neq in E2.
    split; [assumption|]. split; [apply takeWhile_all|].
    apply includes_spec.
    destruct (takeWhile_prefix Email.isDomainChar s) as [t Ht].
    exists "", t. simpl. now rewrite <- Ht.
  - intros H. destruct (IH d H) as (H1 & H2 & H3).
    split; [assumption|]. split; [assumption|].
    rewrite includes_unfold, H3. apply orb_true_r.
Qed.

Lemma includes_tail s c d :
  JS.includes s (String c d) = true -> JS.includes s d = true.
Proof.
  rewrite !includes_spec. intros (pre & post & ->).
  exists (pre ++ String c "")%string, post.
  rewrite append_assoc. reflexivity.
Qed.

Lemma no_at_no_domain s :
  JS.includes s "@" = false -> Email.domainMatch s = None.
Proof.
  induction s as [|c s IH]; [reflexivity|].
  rewrite includes_unfold. intros H. apply orb_false_iff in H.
  destruct H as [H1 H2]. rewrite startsWith_single in H1.
  simpl. rewrite (Ascii.eqb_sym c "@"), H1. simpl. now apply IH.
Qed.

Lemma no_sep_no_split sep s :
  JS.includes s (String sep "") = false -> Str.split sep s = [s].
Proof.
  induction s as [|c s IH]; [reflexivity|].
  rewrite includes_unfold. intros H. apply orb_false_iff in H.
  destruct H as [H1 H2]. rewrite startsWith_single in H1.
  simpl. rewrite (Ascii.eqb_sym c sep), H1. now rewrite (IH H2).
Qed.

Lemma lowerChar_at c : JS.lowerChar c = "@"%char <-> c = "@"%char.
Proof.
  destruct c as [[] [] [] [] [] [] [] []]; vm_compute; split; congruence.
Qed.

Lemma toLowerCase_no_at s :
  JS.includes s "@" = false -> JS.includes (JS.toLowerCase s) "@" = false.
Proof.
  induction s as [|c s IH]; [reflexivity|].
  rewrite includes_unfold. intros H. apply orb_false_iff in H.
  destruct H as [H1 H2]. rewrite startsWith_single in H1.
  cbn [JS.toLowerCase]. rewrite includes_unfold, (IH H2), orb_false_r.
  rewrite startsWith_single.
  destruct (Ascii.eqb "@" (JS.lowerChar c)) eqn:E; [|reflexivity].
  apply Ascii.eqb_eq in E. symmetry in E.
  apply (proj1 (lowerChar_at c)) in E.
  subst c. discriminate H1.
Qed.

(* ================================================================= *)
(** ** The features of an email *)

Lemma checkBrand_fold fullText senderLower senderDomain brands :
  forall state,
    fold_left (Email.checkBrand fullText senderLower senderDomain) brands state
    = (fst state ||
       existsb (Email.impersonates fullText senderLower senderDomain) brands,
       snd state ++
       filter (Email.impersonates fullText senderLower senderDomain) brands).
Proof.
  induction brands as [|brand brands IH]; intros [spoofed found];
    cbn [fold_left existsb filter fst snd].
  - now rewrite orb_false_r, app_nil_r.
  - rewrite IH. unfold Email.checkBrand, Email.impersonates.
    destruct (JS.includes fullText brand || JS.includes senderLower brand);
      cbn [andb fst snd]; [|reflexivity].
    destruct (Email.legitimateFor brand) as [legit|]; [|reflexivity].
    destruct (existsb (fun d => JS.endsWith senderDomain d) legit);
      cbn [negb andb fst snd]; [reflexivity|].
    destruct (JS.includes senderDomain brand); cbn [fst snd];
      [|reflexivity].
    now rewrite orb_true_r, <- app_assoc.
Qed.

Lemma existsb_filter_nil {A} (p : A -> bool) l :
  existsb p l = negb (match filter p l with [] => true | _ => false end).
Proof.
  induction l as [|x l IH]; [reflexivity|]. simpl.
  destruct (p x); [reflexivity | exact IH].
Qed.

(** The fields of the record, one by one. *)
Lemma extracted_email sender subject body :
  let fullText := JS.toLowerCase (subject ++ " " ++ body)%string in
  let senderLower := JS.toLowerCase sender in
  let senderDomain := orEmpty (Email.domainMatch senderLower) in
  let f := Email.extractEmailFeatures sender subject body in
  Email.senderDomain f = senderDomain /\
  Email.senderUser f = hd "" (Str.split "@" senderLower) /\
  Email.impersonatedBrands f
  = filter (Email.impersonates fullText senderLower senderDomain)
           Email.knownBrands /\
  Email.isSpoofedDomain f
  = (Str.hasRun JS.isDigit 3 senderDomain ||
     (JS.includes senderDomain "-" &&
      (2 <? List.length (Str.split "-" senderDomain))) ||
     existsb (Email.impersonates fullText senderLower senderDomain)
             Email.knownBrands) /\
  Email.urgencyCount f
  = List.length (filter (fun kw => JS.includes fullText kw)
                        Email.urgencyKeywords) /\
  Email.hasUrgencyKeywords f = (0 <? Email.urgencyCount f) /\
  Email.suspiciousLinks f
  = filter Email.isSuspiciousLink (Email.matchLinks body 0) /\
  Email.linkCount f = List.length (Email.matchLinks body 0) /\
  Email.hasSuspiciousLinks f = (0 <? List.length (Email.suspiciousLinks f)) /\
  Email.hasBrandImpersonation f
  = (0 <? List.length (Email.impersonatedBrands f)) /\
  Email.grammarScore f = Z.max 0 (100 - Email.grammarDeductions body) /\
  Email.sentimentScore f = 50%Z.
Proof.
  cbv zeta. unfold Email.extractEmailFeatures.
  rewrite checkBrand_fold. cbn [fst snd orb app].
  cbv beta iota zeta delta
    [Email.senderDomain Email.senderUser Email.impersonatedBrands
     Email.isSpoofedDomain Email.urgencyCount Email.hasUrgencyKeywords
     Email.suspiciousLinks Email.linkCount Email.hasSuspiciousLinks
     Email.hasBrandImpersonation Email.grammarScore Email.sentimentScore].
  repeat (split; [reflexivity|]).
  split; [|repeat (split; [reflexivity|]); reflexivity].
  destruct (Str.hasRun JS.isDigit 3 _); [reflexivity|].
  destruct (JS.includes _ "-" && _); reflexivity.
Qed.

Lemma filter_nonempty_length {A} (l : list A) :
  (0 <? List.length l) = true <-> l <> [].
Proof.
  destruct l; simpl; split; try congruence; try discriminate; reflexivity.
Qed.

Lemma grammarDeductions_range body :
  (0 <= Email.grammarDeductions body <= 55)%Z.
Proof.
  unfold Email.grammarDeductions.
  destruct (Str.hasRun Str.isSpace 2 body), (Str.hasRun JS.isUpper 5 body),
    (JS.test (Str.word "!!!") body), (JS.test _ (JS.toLowerCase body)); lia.
Qed.

(** The flags of the extracted email features agree with the counts and
    lists beside them: the urgency flag with the number of urgency
    keywords (at most 21), the link flag with the list of suspicious
    links (never longer than the number of links), the impersonation flag
    with the list of impersonated brands.  An impersonated brand always
    marks the sender domain as spoofed.  The grammar score is between 45
    and 100, so the floor at 0 is never reached, and the sentiment score
    is the constant 50. *)
Theorem email_features_are_consistent :
  forall sender subject body : string,
    let f := Email.extractEmailFeatures sender subject body in
    (Email.hasUrgencyKeywords f = true <-> 0 < Email.urgencyCount f) /\
    Email.urgencyCount f <= 21 /\
    (Email.hasSuspiciousLinks f = true <-> Email.suspiciousLinks f <> []) /\
    List.length (Email.suspiciousLinks f) <= Email.linkCount f /\
    (Email.hasBrandImpersonation f = true <->
     Email.impersonatedBrands f <> []) /\
    (Email.hasBrandImpersonation f = true ->
     Email.isSpoofedDomain f = true) /\
    (45 <= Email.grammarScore f <= 100)%Z /\
    Email.sentimentScore f = 50%Z.
Proof.
  intros sender subject body f.
  destruct (extracted_email sender subject body)
    as (_ & _ & Hb & Hs & Hu & Hhu & Hl & Hn & Hhl & Hhb & Hg & Hsent).
  fold f in Hb, Hs, Hu, Hhu, Hl, Hn, Hhl, Hhb, Hg, Hsent.
  refine (conj _ (conj _ (conj _ (conj _ (conj _ (conj _ (conj _ Hsent))))))).
  - rewrite Hhu. apply Nat.ltb_lt.
  - rewrite Hu.
    eapply Nat.le_trans; [apply filter_length_le | reflexivity].
  - rewrite Hhl. apply filter_nonempty_length.
  - rewrite Hl, Hn. apply filter_length_le.
  - rewrite Hhb. apply filter_nonempty_length.
  - rewrite Hhb, Hs, Hb. intros H. apply filter_nonempty_length in H.
    apply existsb_filter in H. rewrite H. apply orb_true_r.
  - rewrite Hg. pose proof (grammarDeductions_range body). lia.
Qed.

Lemma includes_nil s : JS.includes s "" = true.
Proof. rewrite includes_unfold, startsWith_nil. reflexivity. Qed.

Lemma sender_includes_domain s :
  JS.includes s (orEmpty (Email.domainMatch s)) = true.
Proof.
  destruct (Email.domainMatch s) as [d|] eqn:E; cbn [orEmpty].
  - destruct (domainMatch_spec s d E) as (_ & _ & H).
    eapply includes_tail. exact H.
  - apply includes_nil.
Qed.

Lemma impersonates_sender fullText senderLower brand :
  Email.impersonates fullText senderLower
    (orEmpty (Email.domainMatch senderLower)) brand
  = match Email.legitimateFor brand with
    | Some legit =>
        negb (existsb
                (fun d => JS.endsWith
                            (orEmpty (Email.domainMatch senderLower)) d)
                legit) &&
        JS.includes (orEmpty (Email.domainMatch senderLower)) brand
    | None => false
    end.
Proof.
  unfold Email.impersonates.
  destruct (Email.legitimateFor brand) as [legit|]; [|apply andb_false_r].
  destruct (JS.includes (orEmpty (Email.domainMatch senderLower)) brand)
    eqn:E; [|now rewrite !andb_false_r].
  rewrite (includes_trans _ _ _ (sender_includes_domain senderLower) E).
  now rewrite orb_true_r.
Qed.

Lemma legitimateFor_known brand legit :
  Email.legitimateFor brand = Some legit -> In brand Email.knownBrands.
Proof.
  unfold Email.legitimateFor, Email.legitimateDomains. cbn [find fst].
  repeat match goal with
         | |- context [String.eqb ?k brand] =>
             destruct (String.eqb_spec k brand) as [<- | _];
               [intros _; cbn; tauto|]
         end.
  discriminate.
Qed.

(** Whether a brand is reported as impersonated is decided by the sender
    alone: the brand is reported exactly when it has a list of legitimate
    domains, the sender domain contains the brand's name and ends with
    none of these domains.  The subject and the body play no part. *)
Theorem brand_impersonation_is_decided_by_the_sender :
  forall (sender subject body brand : string),
    let f := Email.extractEmailFeatures sender subject body in
    (In brand (Email.impersonatedBrands f) <->
     exists legit,
       Email.legitimateFor brand = Some legit /\
       existsb (fun d => JS.endsWith (Email.senderDomain f) d) legit = false /\
       JS.includes (Email.senderDomain f) brand = true) /\
    forall subject' body' : string,
      Email.impersonatedBrands
        (Email.extractEmailFeatures sender subject' body')
      = Email.impersonatedBrands f.
Proof.
  intros sender subject body brand f.
  destruct (extracted_email sender subject body) as (Hd & _ & Hb & _).
  fold f in Hd, Hb. split.
  - rewrite Hb, Hd, filter_In, impersonates_sender. split.
    + intros [_ H].
      destruct (Email.legitimateFor brand) as [legit|]; [|discriminate].
      apply andb_true_iff in H. destruct H as [H1 H2].
      apply negb_true_iff in H1. exists legit.
      split; [reflexivity|]. split; assumption.
    + intros (legit & L & H1 & H2). split.
      * eapply legitimateFor_known. exact L.
      * now rewrite L, H1, H2.
  - intros subject' body'.
    destruct (extracted_email sender subject' body') as (_ & _ & Hb' & _).
    rewrite Hb, Hb'. apply filter_ext. intros b.
    now rewrite !impersonates_sender.
Qed.

(** A sender domain that ends with one of a brand's legitimate domains is
    never reported as impersonating the brand, whatever stands before
    that ending. *)
Theorem domain_with_a_legitimate_ending_is_not_reported :
  forall (sender subject body brand d : string) (legit : list string),
    Email.legitimateFor brand = Some legit -> In d legit ->
    let f := Email.extractEmailFeatures sender subject body in
    JS.endsWith (Email.senderDomain f) d = true ->
    mem brand (Email.impersonatedBrands f) = false.
Proof.
  intros sender subject body brand d legit L Hd f He.
  destruct (extracted_email sender subject body) as (Hsd & _ & Hb & _).
  fold f in Hsd, Hb.
  destruct (mem brand (Email.impersonatedBrands f)) eqn:M; [|reflexivity].
  apply mem_In in M. rewrite Hb in M. apply filter_In in M.
  destruct M as [_ M]. rewrite <- Hsd in M. unfold Email.impersonates in M.
  rewrite L in M.
  assert (X : existsb (fun d0 => JS.endsWith (Email.senderDomain f) d0) legit
              = true).
  { apply existsb_exists. exists d. split; assumption. }
  rewrite X in M. cbn [negb andb] in M. now rewrite andb_false_r in M.
Qed.

Lemma domain_with_a_legitimate_ending_is_not_reported_witness :
  let f := Email.extractEmailFeatures "billing@secure-paypal.com"
             "Your account" "Please review your PayPal account" in
  Email.senderDomain f = "secure-paypal.com" /\
  mem "paypal" (Email.impersonatedBrands f) = false /\
  Email.isSpoofedDomain f = false.
Proof.
  cbv zeta. refine (conj _ (conj _ _)).
  - vm_compute. reflexivity.
  - apply (domain_with_a_legitimate_ending_is_not_reported
             "billing@secure-paypal.com" "Your account"
             "Please review your PayPal account" "paypal" "paypal.com"
             ["paypal.com"; "paypal.co.uk"]).
    + reflexivity.
    + now left.
    + vm_compute. reflexivity.
  - vm_compute. reflexivity.
Defined.

Lemma knownBrands_nonempty brand : In brand Email.knownBrands -> brand <> "".
Proof.
  unfold Email.knownBrands. cbn [In].
  intros H E. subst brand.
  repeat (destruct H as [H | H]; [discriminate H|]). exact H.
Qed.

Lemma impersonates_no_domain fullText senderLower brand :
  brand <> "" -> Email.impersonates fullText senderLower "" brand = false.
Proof.
  intros H. unfold Email.impersonates.
  destruct (Email.legitimateFor brand); [|apply andb_false_r].
  now rewrite (includes_empty brand H), !andb_false_r.
Qed.

Lemma filter_none {A} (p : A -> bool) l :
  (forall x, In x l -> p x = false) -> filter p l = [].
Proof.
  induction l as [|x l IH]; intros H; [reflexivity|]. simpl.
  rewrite (H x (or_introl eq_refl)). apply IH. intros y Hy. apply H. now right.
Qed.

(** A sender without an [@] has no domain: the sender domain is empty, no
    brand is reported as impersonated and the domain is not marked as
    spoofed, whatever the subject and the body say. *)
Theorem sender_without_at_is_never_spoofed :
  forall sender subject body : string,
    JS.includes sender "@" = false ->
    let f := Email.extractEmailFeatures sender subject body in
    Email.senderDomain f = "" /\
    Email.impersonatedBrands f = [] /\
    Email.hasBrandImpersonation f = false /\
    Email.isSpoofedDomain f = false.
Proof.
  intros sender subject body Hat f.
  destruct (extracted_email sender subject body)
    as (Hd & _ & Hb & Hs & _ & _ & _ & _ & _ & Hhb & _).
  fold f in Hd, Hb, Hs, Hhb.
  pose proof (toLowerCase_no_at sender Hat) as Hl.
  rewrite (no_at_no_domain _ Hl) in Hd, Hb, Hs. cbn [orEmpty] in Hd, Hb, Hs.
  assert (B : Email.impersonatedBrands f = []).
  { rewrite Hb. apply filter_none. intros brand Hin.
    apply impersonates_no_domain. now apply knownBrands_nonempty. }
  refine (conj Hd (conj B (conj _ _))).
  - rewrite Hhb, B. reflexivity.
  - rewrite Hs. rewrite existsb_filter_nil, <- Hb, B. reflexivity.
Qed.

Lemma sender_without_at_is_never_spoofed_witness :
  let f := Email.extractEmailFeatures "PayPal Security"
             "Urgent" "Your paypal account is suspended" in
  Email.senderDomain f = "" /\ Email.isSpoofedDomain f = false.
Proof.
  destruct (sender_without_at_is_never_spoofed "PayPal Security"
              "Urgent" "Your paypal account is suspended")
    as (Hd & _ & _ & Hs); [reflexivity|].
  exact (conj Hd Hs).
Defined.

(* ----------------------------------------------------------------- *)
(** *** The links of the body *)

Lemma length_take n s : n <= String.length s -> String.length (Str.take n s) = n.
Proof.
  revert s. induction n as [|n IH]; intros s H; [reflexivity|].
  destruct s as [|c s]; simpl in *; [lia|]. rewrite IH; lia.
Qed.

Lemma take_drop n s : (Str.take n s ++ Str.drop n s)%string = s.
Proof.
  revert s. induction n as [|n IH]; intros s; [reflexivity|].
  destruct s as [|c s]; simpl; [reflexivity|]. now rewrite IH.
Qed.

Lemma length_toLowerCase s :
  String.length (JS.toLowerCase s) = String.length s.
Proof. induction s; simpl; congruence. Qed.

Lemma startsWith_length s p :
  JS.startsWith s p = true -> String.length p <= String.length s.
Proof.
  intros H. apply startsWith_spec in H. destruct H as [t ->].
  rewrite length_append. lia.
Qed.

Lemma take_toLowerCase n s :
  Str.take n (JS.toLowerCase s) = JS.toLowerCase (Str.take n s).
Proof.
  revert s. induction n as [|n IH]; intros [|c s]; simpl; try reflexivity.
  now rewrite IH.
Qed.

Lemma startsWith_take s p :
  JS.startsWith s p = true -> Str.take (String.length p) s = p.
Proof.
  revert s. induction p as [|a p IH]; intros s H; [reflexivity|].
  destruct s as [|b s]; [discriminate|]. simpl in H.
  apply andb_true_iff in H. destruct H as [E H].
  apply Ascii.eqb_eq in E. subst b. simpl. now rewrite (IH s H).
Qed.

Lemma toLowerCase_append a b :
  JS.toLowerCase (a ++ b) = (JS.toLowerCase a ++ JS.toLowerCase b)%string.
Proof. induction a; simpl; congruence. Qed.

Lemma unfolded_char a c :
  (a = ":" \/ a = "/")%char -> JS.lowerChar c = a -> c = a.
Proof.
  intros Ha <-. revert Ha.
  destruct c as [[] [] [] [] [] [] [] []]; vm_compute;
    intros [H | H]; congruence.
Qed.

Lemma startsWith_cons c s a p :
  JS.startsWith (String c s) (String a p)
  = Ascii.eqb a c && JS.startsWith s p.
Proof. reflexivity. Qed.

(** The separator of a scheme has no letters: it matches in any case. *)
Lemma startsWith_unfolded x :
  JS.startsWith (JS.toLowerCase x) "://" = true ->
  JS.startsWith x "://" = true.
Proof.
  destruct x as [|c0 [|c1 [|c2 x]]]; cbn [JS.toLowerCase];
    rewrite ?startsWith_cons;
    try (cbn [JS.startsWith]; rewrite ?andb_false_r; discriminate).
  rewrite !startsWith_nil.
  rewrite !andb_true_iff, !Ascii.eqb_eq. intros (H0 & H1 & H2 & _).
  symmetry in H0, H1, H2.
  apply unfolded_char in H0; [|now left].
  apply unfolded_char in H1; [|now right].
  apply unfolded_char in H2; [|now right].
  subst. repeat split; reflexivity.
Qed.

(** What a match of the link pattern at the start of [s] is. *)
Lemma linkAt_spec s link :
  Email.linkAt s = Some link ->
  JS.startsWith s link = true /\
  8 <= String.length link /\
  JS.startsWith (JS.toLowerCase link) "http" = true /\
  JS.includes link "://" = true.
Proof.
  unfold Email.linkAt.
  assert (G : forall n scheme,
             JS.startsWith (JS.toLowerCase s) scheme = true ->
             String.length scheme = n -> 7 <= n ->
             JS.startsWith scheme "http" = true ->
             JS.includes scheme "://" = true ->
             (if (Str.takeWhile Email.isLinkChar (Str.drop n s) =? "")%string
              then None
              else Some (Str.take n s ++
                         Str.takeWhile Email.isLinkChar (Str.drop n s))%string)
             = Some link ->
             JS.startsWith s link = true /\ 8 <= String.length link /\
             JS.startsWith (JS.toLowerCase link) "http" = true /\
             JS.includes link "://" = true).
  { intros n scheme Hs Hn H7 Hh Hi.
    destruct (String.eqb_spec
                (Str.takeWhile Email.isLinkChar (Str.drop n s)) "")
      as [E | E]; [discriminate|].
    intros [= <-].
    pose proof (startsWith_length _ _ Hs) as Hlen.
    rewrite length_toLowerCase, Hn in Hlen.
    pose proof (startsWith_take _ _ Hs) as Ht.
    rewrite Hn, take_toLowerCase in Ht.
    destruct (takeWhile_prefix Email.isLinkChar (Str.drop n s)) as [t Ht'].
    refine (conj _ (conj _ (conj _ _))).
    - apply startsWith_spec. exists t.
      rewrite append_assoc, <- Ht'. symmetry. apply take_drop.
    - rewrite length_append, (length_take n s Hlen).
      destruct (Str.takeWhile Email.isLinkChar (Str.drop n s));
        [congruence | simpl; lia].
    - rewrite toLowerCase_append, Ht. apply startsWith_spec.
      apply startsWith_spec in Hh. destruct Hh as [u ->].
      eexists. rewrite append_assoc. reflexivity.
    - apply includes_spec.
      assert (Hi' : JS.includes (JS.toLowerCase (Str.take n s)) "://" = true)
        by now rewrite Ht.
      clear - Hi'. revert Hi'.
      generalize (Str.takeWhile Email.isLinkChar (Str.drop n s)).
      intros tail Hi'.
      assert (K : forall x, JS.includes (JS.toLowerCase x) "://" = true ->
                            JS.includes x "://" = true).
      { clear. induction x as [|c x IH]; [discriminate|].
        cbn [JS.toLowerCase]. rewrite !(includes_unfold (String _ _)).
        intros H. apply orb_true_iff in H. apply orb_true_iff.
        destruct H as [H | H]; [left | right; now apply IH].
        change (JS.startsWith (JS.toLowerCase (String c x)) "://" = true)
          in H.
        now apply startsWith_unfolded. }
      apply K, includes_spec in Hi'. destruct Hi' as (pre & post & E).
      exists pre, (post ++ tail)%string. rewrite E, !append_assoc.
      reflexivity. }
  destruct (JS.startsWith (JS.toLowerCase s) "https://") eqn:S8.
  - apply (G 8 "https://"); auto.
  - destruct (JS.startsWith (JS.toLowerCase s) "http://") eqn:S7;
      [|discriminate].
    apply (G 7 "http://"); auto.
Qed.

Lemma includes_cons c s sub :
  JS.includes s sub = true -> JS.includes (String c s) sub = true.
Proof. intros H. rewrite includes_unfold, H. apply orb_true_r. Qed.

Lemma startsWith_includes s p :
  JS.startsWith s p = true -> JS.includes s p = true.
Proof. intros H. now rewrite includes_unfold, H. Qed.

Lemma matchLinks_spec s :
  forall skip,
    skip <= String.length s ->
    Forall (fun link =>
              JS.includes s link = true /\ 8 <= String.length link /\
              JS.startsWith (JS.toLowerCase link) "http" = true /\
              JS.includes link "://" = true)
           (Email.matchLinks s skip) /\
    list_sum (map String.length (Email.matchLinks s skip)) + skip
    <= String.length s.
Proof.
  induction s as [|c s IH]; intros skip Hskip.
  - cbn [Email.matchLinks map list_sum]. split; [constructor | exact Hskip].
  - cbn [Email.matchLinks]. cbn [String.length] in Hskip |- *.
    assert (Up : forall k,
               k <= String.length s ->
               Forall (fun link =>
                         JS.includes (String c s) link = true /\
                         8 <= String.length link /\
                         JS.startsWith (JS.toLowerCase link) "http" = true /\
                         JS.includes link "://" = true)
                      (Email.matchLinks s k) /\
               list_sum (map String.length (Email.matchLinks s k)) + k
               <= String.length s).
    { intros k Hk. destruct (IH k Hk) as [F L]. split; [|exact L].
      eapply Forall_impl; [|exact F]. cbv beta.
      intros link (H1 & H2). split; [now apply includes_cons | exact H2]. }
    destruct skip as [|k].
    + destruct (Email.linkAt (String c s)) as [link|] eqn:E.
      * destruct (linkAt_spec _ _ E) as (P1 & P2 & P3 & P4).
        pose proof (startsWith_length _ _ P1) as Hlen.
        cbn [String.length] in Hlen.
        destruct (Up (String.length link - 1)) as [F L]; [lia|].
        split.
        -- constructor; [|exact F].
           split; [now apply startsWith_includes|].
           split; [exact P2 | split; [exact P3 | exact P4]].
        -- change (String.length link +
                   list_sum (map String.length
                               (Email.matchLinks s (String.length link - 1)))
                   + 0 <= S (String.length s)).
           lia.
      * destruct (Up 0) as [F L]; [lia|]. split; [exact F | lia].
    + destruct (Up k) as [F L]; [lia|]. split; [exact F | lia].
Qed.

Lemma long_entries (ls : list string) :
  Forall (fun l => 8 <= String.length l) ls ->
  8 * List.length ls <= list_sum (map String.length ls).
Proof.
  induction 1 as [|l ls Hl _ IH]; [reflexivity|].
  change (8 * S (List.length ls)
          <= String.length l + list_sum (map String.length ls)).
  lia.
Qed.

(** Every link found in the body is a part of the body, starts with
    "http" in some case, holds "://" and has at least 8 characters; the
    links do not overlap, so the body is at least 8 times as long as the
    number of links.  The suspicious links are links that meet the
    handler's test, in the order of the body. *)
Theorem links_are_parts_of_the_body :
  forall sender subject body : string,
    let f := Email.extractEmailFeatures sender subject body in
    Forall (fun link =>
              JS.includes body link = true /\ 8 <= String.length link /\
              JS.startsWith (JS.toLowerCase link) "http" = true /\
              JS.includes link "://" = true /\
              Email.isSuspiciousLink link = true)
           (Email.suspiciousLinks f) /\
    8 * Email.linkCount f <= String.length body.
Proof.
  intros sender subject body f.
  destruct (extracted_email sender subject body)
    as (_ & _ & _ & _ & _ & _ & Hl & Hn & _).
  fold f in Hl, Hn. rewrite Hl, Hn.
  destruct (matchLinks_spec body 0 (Nat.le_0_l _)) as [F L].
  split.
  - apply Forall_forall. intros link Hin. apply filter_In in Hin.
    destruct Hin as [Hin Hs]. rewrite Forall_forall in F.
    destruct (F link Hin) as (H1 & H2 & H3 & H4).
    split; [exact H1|]. split; [exact H2|]. split; [exact H3|].
    split; [exact H4 | exact Hs].
  - eapply Nat.le_trans; [apply long_entries|].
    + eapply Forall_impl; [|exact F]. cbv beta. intros link H. apply H.
    + lia.
Qed.

Lemma email_score_zero_iff features :
  (Email.hasUrgencyKeywords features = true ->
   0 < Email.urgencyCount features) ->
  ((fst (Email.calculateEmailRiskScore features) == 0)%Q <->
   snd (Email.calculateEmailRiskScore features) = []).
Proof.
  intros Hk. unfold Email.calculateEmailRiskScore. cbv zeta. cbn [fst snd].
  apply charged_cap.
  repeat (apply charged_rule;
          [ let Hc := fresh "Hc" in intros Hc; try pts_pos | ]).
  - apply Qmin_pos; [reflexivity|]. apply ofNat_pos.
    specialize (Hk Hc). lia.
  - split; [apply Qle_refl | split; reflexivity].
Qed.

(** Every threat the email scorer reports for the features of a message
    has cost points, and every charged rule reports a threat: the rule
    score of the extracted features is 0 exactly when the list of threats
    is empty. *)
Theorem email_score_zero_iff_no_threat :
  forall sender subject body : string,
    let scored :=
      Email.calculateEmailRiskScore
        (Email.extractEmailFeatures sender subject body) in
    (fst scored == 0)%Q <-> snd scored = [].
Proof.
  intros sender subject body. cbv zeta.
  apply email_score_zero_iff.
  destruct (extracted_email sender subject body)
    as (_ & _ & _ & _ & _ & Hhu & _).
  rewrite Hhu. apply Nat.ltb_lt.
Qed.

(* ================================================================= *)
(** ** The email heuristic *)

(** The fields of the result, by the five conditions of the scorer and
    the official-sender test. *)
Lemma calcEmailScore_fields sender subject body :
  let c := EmailV2.calcEmailScore sender subject body in
  let onSender := EmailV2.hasPhishSender (EmailV2.flags c) in
  let onSubject := EmailV2.hasPhishSubject (EmailV2.flags c) in
  let onBody := EmailV2.hasPhishBody (EmailV2.flags c) in
  let onTld :=
    negb (String.eqb (EmailV2.senderDomain c) "") &&
    negb (JS.endsWith (EmailV2.senderDomain c) ".com") in
  let benign :=
    JS.test EmailV2.benignPattern (JS.toLowerCase subject) in
  let forced :=
    EmailV2.isOfficial (EmailV2.flags c) && negb onSender &&
    negb onSubject && negb onBody in
  EmailV2.senderDomain c = EmailV2.getDomain sender /\
  EmailV2.isOfficial (EmailV2.flags c)
  = existsb (String.eqb (EmailV2.senderDomain c)) EmailV2.OFFICIAL_DOMAINS /\
  onSender
  = (JS.includes (JS.toLowerCase sender) "-" ||
     JS.includes (JS.toLowerCase sender) "update" ||
     JS.includes (JS.toLowerCase sender) "security") /\
  EmailV2.rawScore c
  = ((if onSender then 40 else 0) + (if onSubject then 30 else 0) +
     (if onBody then 25 else 0) + (if onTld then 20 else 0) -
     (if benign then 20 else 0))%Z /\
  EmailV2.probability c
  = (if forced then 12 else Z.min 94 (Z.max 0 (EmailV2.rawScore c)))%Z /\
  EmailV2.result c
  = (if forced then safe
     else if (50 <? Z.min 94 (Z.max 0 (EmailV2.rawScore c)))%Z
          then phishing else safe) /\
  EmailV2.points (EmailV2.sender (EmailV2.breakdown c))
  = (if onSender then 40 else 0)%Z /\
  EmailV2.points (EmailV2.subject (EmailV2.breakdown c))
  = ((if onSubject then 30 else 0) - (if benign then 20 else 0))%Z /\
  EmailV2.points (EmailV2.body (EmailV2.breakdown c))
  = (if onBody then 25 else 0)%Z /\
  EmailV2.points (EmailV2.tld (EmailV2.breakdown c))
  = (if onTld then 20 else 0)%Z.
Proof.
  cbv zeta. unfold EmailV2.calcEmailScore.
  destruct (JS.includes (JS.toLowerCase sender) "-" ||
            JS.includes (JS.toLowerCase sender) "update" ||
            JS.includes (JS.toLowerCase sender) "security");
    destruct (JS.test EmailV2.subjectPattern (JS.toLowerCase subject));
    destruct (JS.test EmailV2.bodyPattern (JS.toLowerCase body));
    destruct (negb (String.eqb (EmailV2.getDomain sender) "") &&
              negb (JS.endsWith (EmailV2.getDomain sender) ".com")) eqn:T;
    destruct (JS.test EmailV2.benignPattern (JS.toLowerCase subject));
    cbv beta iota zeta delta
      [EmailV2.senderDomain EmailV2.rawScore EmailV2.probability
       EmailV2.result EmailV2.breakdown EmailV2.flags EmailV2.sender
       EmailV2.subject EmailV2.body EmailV2.tld EmailV2.points
       EmailV2.matched EmailV2.hasPhishSender EmailV2.hasPhishSubject
       EmailV2.hasPhishBody EmailV2.isOfficial EmailV2.hit];
    rewrite ?T; repeat (split; [reflexivity|]); reflexivity.
Qed.

(** The raw score of the email heuristic lies between -20 and 115 and the
    probability between 0 and 94.  The verdict is [phishing] or [safe],
    and [phishing] exactly when the probability is above 50, which takes
    at least two of the four scoring rules: no single rule is enough. *)
Theorem heuristic_score_and_verdict :
  forall sender subject body : string,
    let c := EmailV2.calcEmailScore sender subject body in
    (-20 <= EmailV2.rawScore c <= 115)%Z /\
    (0 <= EmailV2.probability c <= 94)%Z /\
    (EmailV2.result c = safe \/ EmailV2.result c = phishing) /\
    (EmailV2.result c = phishing <-> (50 < EmailV2.probability c)%Z) /\
    (EmailV2.result c = phishing ->
     2 <= Nat.b2n (EmailV2.hasPhishSender (EmailV2.flags c)) +
          Nat.b2n (EmailV2.hasPhishSubject (EmailV2.flags c)) +
          Nat.b2n (EmailV2.hasPhishBody (EmailV2.flags c)) +
          Nat.b2n (0 <? EmailV2.points (EmailV2.tld (EmailV2.breakdown c)))%Z).
Proof.
  intros sender subject body c.
  destruct (calcEmailScore_fields sender subject body)
    as (_ & _ & _ & Hraw & Hp & Hr & _ & _ & _ & Ht).
  fold c in Hraw, Hp, Hr, Ht. rewrite Hp, Hr, Ht, Hraw.
  destruct (EmailV2.hasPhishSender (EmailV2.flags c)),
    (EmailV2.hasPhishSubject (EmailV2.flags c)),
    (EmailV2.hasPhishBody (EmailV2.flags c)),
    (negb (String.eqb (EmailV2.senderDomain c) "") &&
     negb (JS.endsWith (EmailV2.senderDomain c) ".com")),
    (JS.test EmailV2.benignPattern (JS.toLowerCase subject)),
    (EmailV2.isOfficial (EmailV2.flags c));
    cbn;
    (split; [lia|]); (split; [lia|]);
    (split; [first [now left | now right]|]);
    (split; [split; intros H; first [discriminate H | lia | reflexivity]|]);
    intros H; first [discriminate H | lia].
Qed.

Lemma official_is_com (domain : string) :
  existsb (String.eqb domain) EmailV2.OFFICIAL_DOMAINS = true ->
  negb (String.eqb domain "") && negb (JS.endsWith domain ".com") = false.
Proof.
  unfold EmailV2.OFFICIAL_DOMAINS. cbn [existsb].
  rewrite !orb_true_iff, !String.eqb_eq.
  intros [-> | [-> | [-> | H]]]; [reflexivity | reflexivity | reflexivity
                                  | discriminate H].
Qed.

(** The probability 12 is reported exactly for a sender on an official
    domain with no phishing flag on sender, subject or body.  Such a
    sender holds no hyphen, its domain ends with ".com", and the message
    scores 0 or -20, so it would be [safe] without the override as well:
    the override changes the number only. *)
Theorem forced_probability_is_for_clean_official_senders :
  forall sender subject body : string,
    let c := EmailV2.calcEmailScore sender subject body in
    let forced :=
      EmailV2.isOfficial (EmailV2.flags c) &&
      negb (EmailV2.hasPhishSender (EmailV2.flags c)) &&
      negb (EmailV2.hasPhishSubject (EmailV2.flags c)) &&
      negb (EmailV2.hasPhishBody (EmailV2.flags c)) in
    (EmailV2.probability c = 12%Z <-> forced = true) /\
    (forced = true ->
     EmailV2.result c = safe /\
     (EmailV2.rawScore c = 0 \/ EmailV2.rawScore c = -20)%Z /\
     JS.includes (JS.toLowerCase sender) "-" = false /\
     JS.endsWith (EmailV2.senderDomain c) ".com" = true).
Proof.
  intros sender subject body c forced. subst forced.
  destruct (calcEmailScore_fields sender subject body)
    as (_ & Ho & Hs & Hraw & Hp & Hr & _).
  fold c in Ho, Hs, Hraw, Hp, Hr. rewrite Hp, Hr, Hraw.
  pose proof (official_is_com (EmailV2.senderDomain c)) as Hcom.
  rewrite <- Ho in Hcom.
  split.
  - destruct (EmailV2.hasPhishSender (EmailV2.flags c)),
      (EmailV2.hasPhishSubject (EmailV2.flags c)),
      (EmailV2.hasPhishBody (EmailV2.flags c)),
      (negb (String.eqb (EmailV2.senderDomain c) "") &&
       negb (JS.endsWith (EmailV2.senderDomain c) ".com")),
      (JS.test EmailV2.benignPattern (JS.toLowerCase subject)),
      (EmailV2.isOfficial (EmailV2.flags c));
      cbn; split; intros H; first [discriminate H | lia | reflexivity].
  - intros F. rewrite F.
    apply andb_true_iff in F. destruct F as [F Fb].
    apply andb_true_iff in F. destruct F as [F Fj].
    apply andb_true_iff in F. destruct F as [Fo Fs].
    apply negb_true_iff in Fb, Fj, Fs.
    rewrite Fb, Fj, Fs, (Hcom Fo).
    split; [reflexivity|]. split.
    + destruct (JS.test EmailV2.benignPattern (JS.toLowerCase subject));
        [right | left]; reflexivity.
    + rewrite Hs in Fs. apply orb_false_iff in Fs. destruct Fs as [Fs _].
      apply orb_false_iff in Fs. destruct Fs as [Fs _].
      split; [exact Fs|].
      specialize (Hcom Fo). rewrite Ho in Fo.
      unfold EmailV2.OFFICIAL_DOMAINS in Fo. cbn [existsb] in Fo.
      rewrite !orb_true_iff, !String.eqb_eq in Fo.
      destruct Fo as [-> | [-> | [-> | H]]];
        [reflexivity | reflexivity | reflexivity | discriminate H].
Qed.

(** The sender of the scorer's own test case carries a hyphen: it is
    charged for it and is not forced to 12. *)
Example no_reply_is_charged :
  let c := EmailV2.calcEmailScore "no-reply@paypal.com" "Receipt"
             "Thanks for your order" in
  EmailV2.result c = safe /\ EmailV2.probability c = 20%Z /\
  EmailV2.hasPhishSender (EmailV2.flags c) = true.
Proof. vm_compute. repeat split; reflexivity. Qed.

Lemma indicatorsOf_distinct calc :
  NoDup (EmailV2.indicatorsOf calc) /\
  List.length (EmailV2.indicatorsOf calc) <= 5 /\
  (In "Official sender domain" (EmailV2.indicatorsOf calc) ->
   EmailV2.result calc = safe).
Proof.
  unfold EmailV2.indicatorsOf, EmailV2.pushIf.
  destruct (0 <? EmailV2.points (EmailV2.sender (EmailV2.breakdown calc)))%Z,
    (0 <? EmailV2.points (EmailV2.subject (EmailV2.breakdown calc)))%Z,
    (0 <? EmailV2.points (EmailV2.body (EmailV2.breakdown calc)))%Z,
    (0 <? EmailV2.points (EmailV2.tld (EmailV2.breakdown calc)))%Z,
    (EmailV2.isOfficial (EmailV2.flags calc));
    destruct (EmailV2.result calc); cbn;
    (split; [repeat (constructor; [cbn; intuition discriminate|]);
             constructor|]);
    (split; [lia|]); intros H; first [reflexivity | intuition discriminate].
Qed.

(** The handler of the email heuristic answers status 400 when one of
    sender, subject and body is missing or empty, and for no other
    request.  In a success the indicators are the ones pushed by the
    handler: at most five, distinct, so neither the set nor the cut to 8
    entries changes the list; "Official sender domain" is listed only with
    the verdict [safe]; and the three scores of the details all repeat the
    confidence. *)
Theorem heuristic_handler_outcomes :
  forall (env : EmailV2.Env) (msg : EmailV2.Message),
    (truthy (EmailV2.m_sender msg) = false \/
     truthy (EmailV2.m_subject msg) = false \/
     truthy (EmailV2.m_body msg) = false ->
     EmailV2.serve env (EmailV2.POST (Some msg))
     = Failure 400 "Sender, subject, and body are required") /\
    match EmailV2.serve env (EmailV2.POST (Some msg)) with
    | Preflight => False
    | Failure status _ =>
        status = 400 <->
        (truthy (EmailV2.m_sender msg) = false \/
         truthy (EmailV2.m_subject msg) = false \/
         truthy (EmailV2.m_body msg) = false)
    | Success r =>
        (truthy (EmailV2.m_sender msg) = true /\
         truthy (EmailV2.m_subject msg) = true /\
         truthy (EmailV2.m_body msg) = true) /\
        EmailV2.r_threatIndicators r
        = EmailV2.indicatorsOf (EmailV2.r_features r) /\
        NoDup (EmailV2.r_threatIndicators r) /\
        List.length (EmailV2.r_threatIndicators r) <= 5 /\
        (In "Official sender domain" (EmailV2.r_threatIndicators r) ->
         EmailV2.r_result r = safe) /\
        (EmailV2.r_result r = safe \/ EmailV2.r_result r = phishing) /\
        EmailV2.r_ruleBasedScore r = EmailV2.r_confidence r /\
        EmailV2.r_aiScore r = EmailV2.r_confidence r /\
        EmailV2.r_combinedScore r = EmailV2.r_confidence r
    end.
Proof.
  intros env msg. split.
  { unfold EmailV2.serve. intros [H | [H | H]]; rewrite H; cbn [negb orb];
      rewrite ?orb_true_r; reflexivity. }
  unfold EmailV2.serve.
  destruct (truthy (EmailV2.m_sender msg)) eqn:S; cbn [negb orb];
    [|split; [intros _; now left | reflexivity]].
  destruct (truthy (EmailV2.m_subject msg)) eqn:J; cbn [negb orb];
    [|split; [intros _; right; now left | reflexivity]].
  destruct (truthy (EmailV2.m_body msg)) eqn:B; cbn [negb orb];
    [|split; [intros _; right; now right | reflexivity]].
  cbv beta iota zeta delta
    [EmailV2.r_threatIndicators EmailV2.r_features EmailV2.r_result
     EmailV2.r_confidence EmailV2.r_ruleBasedScore EmailV2.r_aiScore
     EmailV2.r_combinedScore].
  set (calc := EmailV2.calcEmailScore _ _ _).
  destruct (indicatorsOf_distinct calc) as (Hnd & Hlen & Hoff).
  assert (E : JS.slice0 8 (JS.newSet (EmailV2.indicatorsOf calc))
              = EmailV2.indicatorsOf calc).
  { rewrite newSet_keepFirst, (keepFirst_id _ Hnd). unfold JS.slice0.
    apply firstn_all2. lia. }
  rewrite E.
  split; [repeat split|]. split; [reflexivity|].
  split; [exact Hnd|]. split; [exact Hlen|]. split; [exact Hoff|].
  split; [|repeat split].
  subst calc.
  match goal with
  | |- EmailV2.result (EmailV2.calcEmailScore ?a ?b ?c) = _ \/ _ =>
      destruct (calcEmailScore_fields a b c) as (_ & _ & _ & _ & _ & Hr & _)
  end.
  rewrite Hr.
  match goal with
  | |- (if ?f then _ else if ?g then _ else _) = _ \/ _ =>
      destruct f; [now left|]; destruct g; [now right | now left]
  end.
Qed.

(** A clean official sender, for comparison: forced to 12. *)
Example clean_official_sender_is_forced :
  let c := EmailV2.calcEmailScore "billing@paypal.com" "Receipt"
             "Thanks for your order" in
  EmailV2.result c = safe /\ EmailV2.probability c = 12%Z /\
  EmailV2.rawScore c = (-20)%Z.
Proof. vm_compute. repeat split; reflexivity. Qed.

(* ================================================================= *)
(** ** The logo analyzer with the vision oracle *)

Lemma find_some_first {A} (p : A -> bool) l x :
  find p l = Some x -> In x l /\ p x = true.
Proof. apply find_some. Qed.

Lemma vision_brand_known url brand :
  Vision.detectedBrand (Vision.analyzeImageUrl url) = Some brand ->
  In brand (map fst Vision.knownBrandSignatures) /\
  JS.includes (JS.toLowerCase url) brand = true.
Proof.
  unfold Vision.analyzeImageUrl. cbn [Vision.detectedBrand].
  intros H. apply find_some in H. exact H.
Qed.

Lemma vision_suspicions_among url :
  NoDup (Vision.suspicions (Vision.analyzeImageUrl url)) /\
  List.length (Vision.suspicions (Vision.analyzeImageUrl url)) <= 5.
Proof.
  pose proof (vision_brand_known url) as K.
  unfold Vision.analyzeImageUrl in *.
  cbn [Vision.detectedBrand Vision.suspicions] in *.
  destruct (find _ (map fst Vision.knownBrandSignatures)) as [brand|].
  - destruct (K brand eq_refl) as [Hin _]. clear K.
    unfold Vision.pushIf.
    destruct (negb _), (JS.test Vision.ipPattern url),
      (JS.includes (JS.toLowerCase url) "data:image"),
      (existsb _ Vision.suspiciousTlds),
      (JS.includes (JS.toLowerCase url) "logo" &&
       JS.includes (JS.toLowerCase url) "fake");
      cbn [app List.length]; (split; [|lia]);
      cbn [map fst Vision.knownBrandSignatures In] in Hin;
      repeat (destruct Hin as [<- | Hin];
              [repeat (constructor; [cbn; intuition discriminate|]);
               constructor|]);
      destruct Hin.
  - clear K. unfold Vision.pushIf.
    destruct (JS.test Vision.ipPattern url),
      (JS.includes (JS.toLowerCase url) "data:image"),
      (existsb _ Vision.suspiciousTlds),
      (JS.includes (JS.toLowerCase url) "logo" &&
       JS.includes (JS.toLowerCase url) "fake");
      cbn [app List.length]; (split; [|lia]);
      repeat (constructor; [cbn; intuition discriminate|]); constructor.
Qed.

Lemma find_none_iff {A} (p : A -> bool) l :
  find p l = None <-> forall x, In x l -> p x = false.
Proof.
  split; [apply find_none|].
  induction l as [|x l IH]; intros H; [reflexivity|]. simpl.
  rewrite (H x (or_introl eq_refl)). apply IH. intros y Hy. apply H.
  now right.
Qed.

(** The URL analysis of the vision analyzer reports at most five
    suspicions, no two of them equal.  It detects no brand exactly when
    the URL, in lower case, names none of the twelve brands; a detected
    brand is one the URL names; and "paypal", the first brand of the
    table, is detected whenever the URL names it, whatever other brands
    the URL names. *)
Theorem image_url_analysis_is_well_formed :
  forall url : string,
    let a := Vision.analyzeImageUrl url in
    NoDup (Vision.suspicions a) /\
    List.length (Vision.suspicions a) <= 5 /\
    (Vision.detectedBrand a = None <->
     forall brand, In brand (map fst Vision.knownBrandSignatures) ->
                   JS.includes (JS.toLowerCase url) brand = false) /\
    (forall brand, Vision.detectedBrand a = Some brand ->
                   In brand (map fst Vision.knownBrandSignatures) /\
                   JS.includes (JS.toLowerCase url) brand = true) /\
    (JS.includes (JS.toLowerCase url) "paypal" = true ->
     Vision.detectedBrand a = Some "paypal").
Proof.
  intros url a. subst a.
  destruct (vision_suspicions_among url) as [Hnd Hlen].
  refine (conj Hnd (conj Hlen (conj _ (conj (vision_brand_known url) _)))).
  - unfold Vision.analyzeImageUrl. cbn [Vision.detectedBrand].
    apply find_none_iff.
  - intros H. unfold Vision.analyzeImageUrl. cbn [Vision.detectedBrand].
    unfold Vision.knownBrandSignatures. cbn [map fst find]. now rewrite H.
Qed.

Lemma vision_first_suspicion url brand :
  Vision.detectedBrand (Vision.analyzeImageUrl url) = Some brand ->
  exists rest,
    Vision.suspicions (Vision.analyzeImageUrl url)
    = (if existsb (fun d => JS.includes (JS.toLowerCase url) d)
                  (Vision.officialFor brand)
       then []
       else [(brand ++ " logo hosted on unofficial domain")%string]) ++ rest /\
    incl rest [ "Image hosted on IP address";
                "Base64 embedded image (cannot verify source)";
                "Image hosted on suspicious TLD";
                "URL contains suspicious keywords" ].
Proof.
  unfold Vision.analyzeImageUrl.
  cbn [Vision.detectedBrand Vision.suspicions]. intros ->.
  unfold Vision.pushIf.
  destruct (existsb _ (Vision.officialFor brand)); cbn [negb app];
    destruct (JS.test Vision.ipPattern url),
      (JS.includes (JS.toLowerCase url) "data:image"),
      (existsb _ Vision.suspiciousTlds),
      (JS.includes (JS.toLowerCase url) "logo" &&
       JS.includes (JS.toLowerCase url) "fake");
    cbn [app]; eexists; (split; [reflexivity|]);
    intros x Hx; cbn in Hx |- *; tauto.
Qed.

Lemma unofficial_label_is_no_other brand :
  In brand (map fst Vision.knownBrandSignatures) ->
  ~ In (brand ++ " logo hosted on unofficial domain")%string
       [ "Image hosted on IP address";
         "Base64 embedded image (cannot verify source)";
         "Image hosted on suspicious TLD";
         "URL contains suspicious keywords" ].
Proof.
  cbn [map fst Vision.knownBrandSignatures In]. intros H.
  repeat (destruct H as [<- | H]; [cbn; intuition discriminate|]).
  destruct H.
Qed.

(** For a detected brand, the suspicion "logo hosted on unofficial domain"
    is raised exactly when the URL contains none of the brand's official
    domains -- anywhere in the URL, not in the host only.  A brand without
    a list of official domains (instagram, twitter, linkedin, whatsapp,
    spotify) is therefore always reported as hosted unofficially. *)
Theorem unofficial_hosting_is_judged_on_the_whole_url :
  forall url brand : string,
    let a := Vision.analyzeImageUrl url in
    Vision.detectedBrand a = Some brand ->
    (In (brand ++ " logo hosted on unofficial domain")%string
        (Vision.suspicions a) <->
     existsb (fun d => JS.includes (JS.toLowerCase url) d)
             (Vision.officialFor brand) = false) /\
    (In brand ["instagram"; "twitter"; "linkedin"; "whatsapp"; "spotify"] ->
     In (brand ++ " logo hosted on unofficial domain")%string
        (Vision.suspicions a)).
Proof.
  intros url brand a Hb. subst a.
  destruct (vision_first_suspicion url brand Hb) as (rest & -> & Hrest).
  destruct (vision_brand_known url brand Hb) as [Hin _].
  pose proof (unofficial_label_is_no_other brand Hin) as Hno.
  assert (I : In (brand ++ " logo hosted on unofficial domain")%string
                ((if existsb (fun d => JS.includes (JS.toLowerCase url) d)
                             (Vision.officialFor brand)
                  then []
                  else [(brand ++ " logo hosted on unofficial domain")%string])
                 ++ rest) <->
              existsb (fun d => JS.includes (JS.toLowerCase url) d)
                      (Vision.officialFor brand) = false).
  { destruct (existsb _ (Vision.officialFor brand)); cbn [app].
    - split; [|discriminate]. intros H. elim Hno. apply Hrest, H.
    - split; [reflexivity|]. intros _. now left. }
  split; [exact I|].
  intros H5. apply I.
  cbn [In] in H5.
  repeat (destruct H5 as [<- | H5]; [reflexivity|]). destruct H5.
Qed.

Lemma unofficial_hosting_is_judged_on_the_whole_url_witness :
  In "instagram logo hosted on unofficial domain"
     (Vision.suspicions
        (Vision.analyzeImageUrl
           "https://www.instagram.com/static/images/logo.png")).
Proof.
  apply (unofficial_hosting_is_judged_on_the_whole_url
           "https://www.instagram.com/static/images/logo.png" "instagram").
  - vm_compute. reflexivity.
  - cbn. tauto.
Defined.

(** An official domain in the path is enough to pass. *)
Example official_domain_in_the_path :
  Vision.analyzeImageUrl "https://evil.example/paypal.com/logo.png"
  = {| Vision.suspicions := []; Vision.detectedBrand := Some "paypal" |}.
Proof. vm_compute. reflexivity. Qed.

(* ----------------------------------------------------------------- *)
(** *** The verdict of the vision handler *)

(** The vision handler answers [phishing] or [safe] only.  Each of the
    oracle and the URL analysis can force [phishing] alone: an answer that
    is not marked authentic is [phishing] whatever the URL, and two URL
    suspicions are [phishing] whatever the oracle says.  [safe] is given
    only to an answer marked authentic.  An answer without a confidence
    (or with confidence 0) is reported with 85 for [phishing] and 75 for
    [safe]; the empty object is therefore answered [phishing] at 85. *)
Theorem vision_verdict_vetoes :
  forall (env : Vision.Env) (input : Vision.Input)
         (urlAnalysis : Vision.UrlAnalysis) (a : Vision.AiAnalysis),
    let r := Vision.respond env input urlAnalysis a in
    (Vision.r_result r = phishing \/ Vision.r_result r = safe) /\
    (Vision.isAuthentic a = false -> Vision.r_result r = phishing) /\
    (2 <= List.length (Vision.suspicions urlAnalysis) ->
     Vision.r_result r = phishing) /\
    (Vision.r_result r = safe ->
     Vision.isAuthentic a = true /\
     List.length (Vision.suspicions urlAnalysis) <= 1) /\
    (numOr (Vision.confidence a) 0 == 0 ->
     Vision.r_confidence r
     = if Verdict_eqb (Vision.r_result r) phishing then 85 else 75)%Q /\
    (Vision.isAuthentic a = false -> Vision.confidence a = None ->
     Vision.r_result r = phishing /\ Vision.r_confidence r = 85%Q).
Proof.
  intros env input urlAnalysis a r. subst r. unfold Vision.respond.
  cbv beta iota zeta delta [Vision.r_result Vision.r_confidence].
  unfold Vision.isPhishingOf.
  refine (conj _ (conj _ (conj _ (conj _ (conj _ _))))).
  - destruct (negb _ || _ || _); [now left | now right].
  - intros ->. reflexivity.
  - intros H. apply Nat.leb_le in H. rewrite H.
    now rewrite orb_true_r.
  - destruct (Vision.isAuthentic a); cbn [negb orb]; [|discriminate].
    destruct (2 <=? List.length (Vision.suspicions urlAnalysis)) eqn:E;
      cbn [orb]; [discriminate|].
    apply Nat.leb_gt in E. intros _. split; [reflexivity | lia].
  - intros H.
    assert (N : forall d, numOr (Vision.confidence a) d = d).
    { intros d. unfold numOr in *.
      destruct (Vision.confidence a) as [q|]; [|reflexivity].
      destruct (Qeq_bool q 0) eqn:E; [reflexivity|].
      apply Qeq_bool_iff in H. congruence. }
    rewrite N. destruct (negb _ || _ || _); reflexivity.
  - intros -> ->. split; reflexivity.
Qed.

(** When the oracle gives no usable answer -- a non-2xx status, a content
    without a JSON object, or one that does not parse -- the vision handler
    still succeeds, with the confidence 50 and the logo marked authentic,
    and the verdict follows the URL analysis alone: [safe] unless the URL
    raised two suspicions.  An uploaded image without a URL is then always
    answered [safe]. *)
Theorem vision_handler_fails_open :
  forall (env : Vision.Env) (input : Vision.Input),
    truthy (orElse (Vision.imageUrl input) (Vision.base64Image input))
    = true ->
    truthy (Vision.LOVABLE_API_KEY env) = true ->
    (exists status, Vision.gateway env = NotOk status) \/
    Vision.gateway env = OkContent NoObject \/
    Vision.gateway env = OkContent Malformed ->
    exists r,
      Vision.serve env (Vision.POST (Some input)) = Success r /\
      Vision.r_confidence r = 50%Q /\
      Vision.r_isAuthentic r = true /\
      (Vision.r_result r = safe <->
       List.length (Vision.suspicions (Vision.r_urlAnalysis r)) <= 1) /\
      (Vision.r_result r = phishing <->
       2 <= List.length (Vision.suspicions (Vision.r_urlAnalysis r))) /\
      (truthy (Vision.imageUrl input) = false -> Vision.r_result r = safe).
Proof.
  intros env input Hsrc Hkey Hgw. unfold Vision.serve.
  rewrite Hsrc, Hkey. cbn [negb].
  set (ua := if truthy (Vision.imageUrl input) then _ else _).
  exists (Vision.respond env input ua (Vision.defaultAnalysis ua)).
  split.
  - destruct Hgw as [[status ->] | [-> | ->]]; reflexivity.
  - unfold Vision.respond, Vision.isPhishingOf, Vision.defaultAnalysis.
    cbv beta iota zeta delta
      [Vision.r_result Vision.r_confidence Vision.r_isAuthentic
       Vision.r_urlAnalysis Vision.isAuthentic Vision.confidence
       Vision.issues].
    cbn [negb orb List.length]. change (2 <=? 0) with false.
    rewrite orb_false_r.
    split; [reflexivity|]. split; [reflexivity|].
    destruct (2 <=? List.length (Vision.suspicions ua)) eqn:E;
      cbv beta iota.
    + apply Nat.leb_le in E.
      split; [split; [discriminate | lia]|].
      split; [split; [intros _; exact E | reflexivity]|].
      intros T. subst ua. rewrite T in E. cbn in E. lia.
    + apply Nat.leb_gt in E.
      split; [split; [lia | reflexivity]|].
      split; [split; [discriminate | lia]|].
      reflexivity.
Qed.

Lemma vision_handler_fails_open_witness :
  exists r,
    Vision.serve
      {| Vision.jsonError := None; Vision.LOVABLE_API_KEY := Some "key";
         Vision.gateway := NotOk 503; Vision.random := Sample.zeroBytes;
         Vision.now := "2026-01-01T00:00:00.000Z" |}
      (Vision.POST
         (Some {| Vision.imageUrl := None;
                  Vision.base64Image :=
                    Some "data:image/png;base64,iVBORw0KGgo=" |}))
    = Success r /\
    Vision.r_confidence r = 50%Q /\ Vision.r_result r = safe.
Proof.
  destruct (vision_handler_fails_open
              {| Vision.jsonError := None;
                 Vision.LOVABLE_API_KEY := Some "key";
                 Vision.gateway := NotOk 503;
                 Vision.random := Sample.zeroBytes;
                 Vision.now := "2026-01-01T00:00:00.000Z" |}
              {| Vision.imageUrl := None;
                 Vision.base64Image :=
                   Some "data:image/png;base64,iVBORw0KGgo=" |})
    as (r & Hs & Hc & _ & _ & _ & Hsafe).
  - reflexivity.
  - reflexivity.
  - left. exists 503. reflexivity.
  - exists r. split; [exact Hs|]. split; [exact Hc|]. apply Hsafe.
    reflexivity.
Defined.
